(** * Subscription and billing lifecycle of the HR backend

    A shallow embedding of the subscription router
    (create-order, verify-payment, change-plan, webhook, usage, invoices,
    cancel, reactivate), of the Razorpay helper library and of the
    entitlement middleware (checkSubscription, enforceEmployeeLimit,
    requireFeature), followed by the properties of the billing
    specification checked against them and by further properties of the
    handlers.

    Conventions.
    - A JavaScript [Date] is its [getTime()] value: milliseconds as [Z].
    - A JavaScript [number] holding money is an IEEE-754 binary64 value
      ([float], the kernel's primitive floats); counters are [Z].
    - The database is a record of tables, each a list of rows.  Every
      [await prisma...] call is one step of the monad [M]; it may reject
      (the fault schedule of the world says which calls do), and a rejection
      unwinds to the handler's [try]/[catch].
    - Columns the modelled handlers neither read nor write (the
      organization row, for one) are left out, and so are the
      human-readable [message] texts of the JSON bodies; [error], [code]
      and the data fields are kept.  The auto-renew and cancellation
      columns, which only /cancel and /reactivate touch, are the rows of
      [Lifecycle].
    - [crypto]'s HMAC-SHA256 is modelled in full, and [JSON.stringify]
      on bodies with distinct keys and integer numbers, so that requests
      with real signatures can be run; the test vectors of FIPS 180-4 and
      RFC 4231 are checked below.
    - What a handler reads from outside (clock, random bytes, the gateway's
      answers) comes in as one [Ambient] record per request. *)

From Stdlib Require Import ZArith List String Ascii Bool Lia.
From Stdlib Require Import Floats.
Import ListNotations.
Set Warnings "-inexact-float".
Local Open Scope string_scope.
Local Open Scope list_scope.
Local Open Scope Z_scope.

(* ================================================================== *)
(** ** JavaScript values the handlers rely on *)
(* ================================================================== *)

Module Js.

(** A property that may be missing ([undefined]), [null], or present. *)
Inductive opt (A : Type) : Type :=
| Undefined
| Null
| Obj (a : A).
Arguments Undefined {A}.
Arguments Null {A}.
Arguments Obj {A} a.

(** [!s] on a string: only the empty string is falsy. *)
Definition truthy (s : string) : bool :=
  match s with
  | EmptyString => false
  | String _ _ => true
  end.

(** [!x] on an optional string (missing, null or empty are falsy). *)
Definition truthy_opt (o : option string) : bool :=
  match o with
  | Some s => truthy s
  | None => false
  end.

(** [a || b] on optional strings. *)
Definition or_else (a : option string) (b : string) : string :=
  match a with
  | Some s => if truthy s then s else b
  | None => b
  end.

(** [Math.round] of ECMAScript on a binary64 value: the nearest integer,
    ties towards plus infinity; integers, infinities and NaN are returned
    as they are.  The value is decoded to sign, mantissa and exponent and
    rounded in [Z]. *)
Definition float_of_Z (z : Z) : float :=
  if z <? 0 then PrimFloat.opp (PrimFloat.of_uint63 (Uint63.of_Z (- z)))
  else PrimFloat.of_uint63 (Uint63.of_Z z).

Definition Math_round (x : float) : float :=
  match Prim2SF x with
  | S754_finite s m e =>
      if 0 <=? e then x
      else
        let d := 2 ^ (- e) in
        let sm := if s then - Z.pos m else Z.pos m in
        let n := (2 * sm + d) / (2 * d) in
        if (n =? 0) && s then PrimFloat.opp PrimFloat.zero else float_of_Z n
  | _ => x
  end.

End Js.

(* ================================================================== *)
(** ** [crypto.createHmac('sha256', key).update(msg).digest('hex')] *)
(* ================================================================== *)

Module Crypto.

Definition w32 (x : Z) : Z := Z.land x 0xffffffff.
Definition add32 (x y : Z) : Z := w32 (x + y).
Definition rotr (n x : Z) : Z :=
  Z.lor (Z.shiftr x n) (w32 (Z.shiftl x (32 - n))).

Definition Ch (x y z : Z) : Z :=
  Z.lxor (Z.land x y) (Z.land (Z.lxor x 0xffffffff) z).
Definition Maj (x y z : Z) : Z :=
  Z.lxor (Z.lxor (Z.land x y) (Z.land x z)) (Z.land y z).
Definition Sigma0 (x : Z) : Z := Z.lxor (Z.lxor (rotr 2 x) (rotr 13 x)) (rotr 22 x).
Definition Sigma1 (x : Z) : Z := Z.lxor (Z.lxor (rotr 6 x) (rotr 11 x)) (rotr 25 x).
Definition sigma0 (x : Z) : Z := Z.lxor (Z.lxor (rotr 7 x) (rotr 18 x)) (Z.shiftr x 3).
Definition sigma1 (x : Z) : Z := Z.lxor (Z.lxor (rotr 17 x) (rotr 19 x)) (Z.shiftr x 10).

(** The constants of FIPS 180-4 are the first 32 bits of the fractional
    parts of the cube roots (round constants) and of the square roots
    (initial hash value) of the first primes. *)
Definition is_prime (n : Z) : bool :=
  forallb (fun d => negb (n mod d =? 0)) (map Z.of_nat (seq 2 (Z.to_nat n - 2))).

Definition first_primes (k : nat) : list Z :=
  firstn k (filter is_prime (map Z.of_nat (seq 2 310))).

(** The integer cube root of [n], built from its bit [b - 1] down. *)
Fixpoint cbrt_bits (b : nat) (n r : Z) : Z :=
  match b with
  | O => r
  | S b' =>
      let r' := r + 2 ^ Z.of_nat b' in
      cbrt_bits b' n (if r' * r' * r' <=? n then r' else r)
  end.

Definition K256 : list Z :=
  Eval vm_compute in map (fun p => w32 (cbrt_bits 40 (p * 2 ^ 96) 0)) (first_primes 64).

Definition H256 : list Z :=
  Eval vm_compute in map (fun p => w32 (Z.sqrt (p * 2 ^ 64))) (first_primes 8).

Definition bytes_of_string (s : string) : list Z :=
  map (fun c => Z.of_N (N_of_ascii c)) (list_ascii_of_string s).

(** Padding: a one bit, zeros up to 56 modulo 64, the bit length on 8 bytes. *)
Definition be_bytes (n : nat) (x : Z) : list Z :=
  map (fun i => Z.land (Z.shiftr x (8 * Z.of_nat (n - 1 - i))) 0xff) (seq 0 n).

Definition pad (msg : list Z) : list Z :=
  let len := Z.of_nat (List.length msg) in
  let zeros := Z.to_nat ((55 - len) mod 64) in
  msg ++ [0x80] ++ repeat 0 zeros ++ be_bytes 8 (8 * len).

Fixpoint words_of_bytes (fuel : nat) (bs : list Z) : list Z :=
  match fuel, bs with
  | S fuel', b0 :: b1 :: b2 :: b3 :: rest =>
      (Z.shiftl b0 24 + Z.shiftl b1 16 + Z.shiftl b2 8 + b3)
        :: words_of_bytes fuel' rest
  | _, _ => []
  end.

(** The message schedule, newest word first: [sched] holds W(t-1), W(t-2), ... *)
Fixpoint extend (n : nat) (sched : list Z) : list Z :=
  match n with
  | O => sched
  | S n' =>
      let wt :=
        add32 (add32 (sigma1 (nth 1 sched 0)) (nth 6 sched 0))
              (add32 (sigma0 (nth 14 sched 0)) (nth 15 sched 0)) in
      extend n' (wt :: sched)
  end.

Definition schedule (block : list Z) : list Z :=
  rev (extend 48 (rev block)).

Definition round (st : list Z) (kw : Z * Z) : list Z :=
  match st with
  | [a; b; c; d; e; f; g; h] =>
      let t1 := add32 (add32 (add32 h (Sigma1 e)) (add32 (Ch e f g) (fst kw))) (snd kw) in
      let t2 := add32 (Sigma0 a) (Maj a b c) in
      [add32 t1 t2; a; b; c; add32 d t1; e; f; g]
  | _ => st
  end.

Definition compress (hs : list Z) (block : list Z) : list Z :=
  let out := fold_left round (combine K256 (schedule block)) hs in
  map (fun p => add32 (fst p) (snd p)) (combine hs out).

Fixpoint blocks (fuel : nat) (ws : list Z) : list (list Z) :=
  match fuel, ws with
  | _, [] => []
  | O, _ => []
  | S fuel', _ => firstn 16 ws :: blocks fuel' (skipn 16 ws)
  end.

Definition sha256 (msg : list Z) : list Z :=
  let bs := pad msg in
  let ws := words_of_bytes (List.length bs) bs in
  let hs := fold_left compress (blocks (List.length ws) ws) H256 in
  flat_map (be_bytes 4) hs.

(** HMAC (RFC 2104) with a 64-byte block. *)
Definition hmac_sha256 (key msg : list Z) : list Z :=
  let k0 := if (64 <? Z.of_nat (List.length key)) then sha256 key else key in
  let k := k0 ++ repeat 0 (64 - List.length k0)%nat in
  let ipad := map (fun b => Z.lxor b 0x36) k in
  let opad := map (fun b => Z.lxor b 0x5c) k in
  sha256 (opad ++ sha256 (ipad ++ msg)).

Definition hex_digit (n : Z) : ascii :=
  if n <? 10 then ascii_of_N (Z.to_N (48 + n)) else ascii_of_N (Z.to_N (87 + n)).

Definition hex (bs : list Z) : string :=
  string_of_list_ascii
    (flat_map (fun b => [hex_digit (Z.shiftr b 4); hex_digit (Z.land b 0xf)]) bs).

Definition hmac_sha256_hex (key msg : string) : string :=
  hex (hmac_sha256 (bytes_of_string key) (bytes_of_string msg)).

End Crypto.

(* ================================================================== *)
(** ** Data model (the Prisma rows the handlers read and write) *)
(* ================================================================== *)

Inductive SubscriptionStatus :=
| TRIAL | ACTIVE | PAST_DUE | SUSPENDED | EXPIRED | CANCELLED.

Inductive PaymentStatus :=
| CREATED | CAPTURED | FAILED | REFUNDED.

Inductive BillingCycle :=
| MONTHLY | YEARLY.

Definition PaymentStatus_eqb (a b : PaymentStatus) : bool :=
  match a, b with
  | CREATED, CREATED | CAPTURED, CAPTURED | FAILED, FAILED | REFUNDED, REFUNDED => true
  | _, _ => false
  end.

Module User.
Record t := mk {
  id : string;
  organizationId : option string;
  status : string;
  employee : bool   (* the [employee] relation is not null *)
}.
End User.

Module Plan.
Record t := mk {
  id : string;
  name : string;
  monthlyPrice : float;
  yearlyPrice : option float;
  currency : string;
  maxEmployees : Z;
  isActive : bool;
  isCustom : bool;
  hasPayroll : bool;
  hasAdvancedAnalytics : bool;
  hasCustomIntegrations : bool;
  hasPrioritySupport : bool;
  hasDedicatedManager : bool;
  hasCustomWorkflows : bool;
  hasSLA : bool;
  hasOnPremise : bool
}.
End Plan.

(** The [metadata] column holds the JSON text of this object. *)
Record PendingPlanChange := {
  pendingPlanChange : string;
  pendingPlanName : string;
  changeEffectiveDate : option Z
}.

Module Subscription.
Record t := mk {
  id : string;
  organizationId : string;
  planId : string;
  status : SubscriptionStatus;
  trialEndDate : option Z;
  currentPeriodStart : option Z;
  currentPeriodEnd : option Z;
  billingCycle : BillingCycle;
  metadata : option PendingPlanChange
}.

Definition set_status (st : SubscriptionStatus) (s : t) : t :=
  mk (id s) (organizationId s) (planId s) st (trialEndDate s)
     (currentPeriodStart s) (currentPeriodEnd s) (billingCycle s) (metadata s).

Definition set_planId (p : string) (s : t) : t :=
  mk (id s) (organizationId s) p (status s) (trialEndDate s)
     (currentPeriodStart s) (currentPeriodEnd s) (billingCycle s) (metadata s).

Definition set_metadata (m : option PendingPlanChange) (s : t) : t :=
  mk (id s) (organizationId s) (planId s) (status s) (trialEndDate s)
     (currentPeriodStart s) (currentPeriodEnd s) (billingCycle s) m.
End Subscription.

Module Payment.
Record t := mk {
  id : string;
  subscriptionId : string;
  amount : float;
  currency : string;
  razorpayOrderId : string;
  razorpayPaymentId : option string;
  razorpaySignature : option string;
  status : PaymentStatus;
  method : option string;
  receipt : string;
  description : string;
  errorCode : option string;
  errorDescription : option string;
  paidAt : option Z;
  refundedAt : option Z
}.
End Payment.

Module Invoice.
Record t := mk {
  subscriptionId : string;
  invoiceNumber : string;
  subtotal : float;
  tax : float;
  total : float;
  currency : string;
  periodStart : Z;
  periodEnd : Z;
  status : string;
  paidAt : Z;
  dueDate : Z
}.
End Invoice.

Module AuditLog.
Record t := mk {
  userId : string;
  action : string;
  entityType : string;
  entityId : string
}.
End AuditLog.

Record Db := mkDb {
  users : list User.t;
  plans : list Plan.t;
  subscriptions : list Subscription.t;
  payments : list Payment.t;
  invoices : list Invoice.t;
  auditLogs : list AuditLog.t
}.

Definition with_subscriptions (l : list Subscription.t) (d : Db) : Db :=
  mkDb (users d) (plans d) l (payments d) (invoices d) (auditLogs d).
Definition with_payments (l : list Payment.t) (d : Db) : Db :=
  mkDb (users d) (plans d) (subscriptions d) l (invoices d) (auditLogs d).
Definition with_invoices (l : list Invoice.t) (d : Db) : Db :=
  mkDb (users d) (plans d) (subscriptions d) (payments d) l (auditLogs d).
Definition with_auditLogs (l : list AuditLog.t) (d : Db) : Db :=
  mkDb (users d) (plans d) (subscriptions d) (payments d) (invoices d) l.

(* ================================================================== *)
(** ** The handler monad: database state, rejected promises *)
(* ================================================================== *)

(** [faults] is the schedule of the [await prisma...] calls still to come:
    [true] makes the call reject without touching the database.  Past its
    end every call goes through. *)
Record World := mkWorld {
  db : Db;
  faults : list bool
}.

Inductive Res (A : Type) : Type :=
| Ok (a : A)
| Throw.
Arguments Ok {A} a.
Arguments Throw {A}.

Definition M (A : Type) : Type := World -> Res A * World.

Definition ret {A} (a : A) : M A := fun w => (Ok a, w).

Definition throw {A} : M A := fun w => (Throw, w).

Definition bind {A B} (m : M A) (k : A -> M B) : M B :=
  fun w =>
    match m w with
    | (Ok a, w') => k a w'
    | (Throw, w') => (Throw, w')
    end.

Notation "x <- m ;; k" := (bind m (fun x => k))
  (at level 61, m at next level, right associativity).
Notation "m ;;; k" := (bind m (fun _ => k))
  (at level 61, right associativity).

(** One [await prisma.<table>.<op>(...)]: [f] is what the call does to the
    database when it goes through ([Throw] for Prisma's own errors, such as
    an update of a row that is not there). *)
Definition prisma {A} (f : Db -> Res A * Db) : M A :=
  fun w =>
    match faults w with
    | true :: fs => (Throw, mkWorld (db w) fs)
    | false :: fs => let (r, d) := f (db w) in (r, mkWorld d fs)
    | [] => let (r, d) := f (db w) in (r, mkWorld d [])
    end.

Definition query {A} (f : Db -> A) : M A :=
  prisma (fun d => (Ok (f d), d)).

(** [try { body } catch (error) { handler }] around a whole handler. *)
Definition try_catch {A} (body : M A) (handler : A) : World -> A * World :=
  fun w =>
    match body w with
    | (Ok a, w') => (a, w')
    | (Throw, w') => (handler, w')
    end.

(** *** Queries *)

Definition user_findUnique (uid : string) (d : Db) : option User.t :=
  find (fun u => String.eqb (User.id u) uid) (users d).

Definition plan_findUnique (pid : string) (d : Db) : option Plan.t :=
  find (fun p => String.eqb (Plan.id p) pid) (plans d).

Definition subscription_findUnique_org (org : string) (d : Db) : option Subscription.t :=
  find (fun s => String.eqb (Subscription.organizationId s) org) (subscriptions d).

Definition subscription_findUnique_id (sid : string) (d : Db) : option Subscription.t :=
  find (fun s => String.eqb (Subscription.id s) sid) (subscriptions d).

Definition payment_findUnique_order (oid : string) (d : Db) : option Payment.t :=
  find (fun p => String.eqb (Payment.razorpayOrderId p) oid) (payments d).

Definition payment_findUnique_paymentId (pid : string) (d : Db) : option Payment.t :=
  find (fun p => match Payment.razorpayPaymentId p with
                 | Some x => String.eqb x pid
                 | None => false
                 end) (payments d).

(** [prisma.user.count({ where: { organizationId, status: 'ACTIVE',
    employee: { isNot: null } } })] *)
Definition countActiveSeats (org : string) (d : Db) : Z :=
  Z.of_nat (List.length (filter (fun u =>
     match User.organizationId u with
     | Some o => String.eqb o org
     | None => false
     end && String.eqb (User.status u) "ACTIVE" && User.employee u) (users d))).

(** *** Updates: [prisma.<table>.update({ where: { id }, data })] rejects
    when no row has the id. *)

Definition update_rows {R} (key : R -> string) (rid : string) (f : R -> R)
    (rows : list R) : list R :=
  map (fun r => if String.eqb (key r) rid then f r else r) rows.

Definition subscription_update (sid : string) (f : Subscription.t -> Subscription.t)
    (d : Db) : Res unit * Db :=
  match subscription_findUnique_id sid d with
  | Some _ => (Ok tt, with_subscriptions (update_rows Subscription.id sid f (subscriptions d)) d)
  | None => (Throw, d)
  end.

Definition payment_update (pid : string) (f : Payment.t -> Payment.t)
    (d : Db) : Res unit * Db :=
  match find (fun p => String.eqb (Payment.id p) pid) (payments d) with
  | Some _ => (Ok tt, with_payments (update_rows Payment.id pid f (payments d)) d)
  | None => (Throw, d)
  end.

Definition invoice_create (i : Invoice.t) (d : Db) : Res unit * Db :=
  (Ok tt, with_invoices (invoices d ++ [i]) d).

Definition auditLog_create (a : AuditLog.t) (d : Db) : Res unit * Db :=
  (Ok tt, with_auditLogs (auditLogs d ++ [a]) d).

Definition payment_create (p : Payment.t) (d : Db) : Res unit * Db :=
  (Ok tt, with_payments (payments d ++ [p]) d).

(* ================================================================== *)
(** ** HTTP responses *)
(* ================================================================== *)

#[local] Unset Elimination Schemes.
Inductive Value :=
| VNull
| VStr (s : string)
| VNum (z : Z)
| VFloat (f : float)
| VBool (b : bool)
| VDate (t : Z)
| VObj (fields : list (string * Value)).
#[local] Set Elimination Schemes.

Record Response := mkResponse {
  res_status : Z;
  res_body : list (string * Value)
}.

Fixpoint assoc {V} (k : string) (l : list (string * V)) : option V :=
  match l with
  | [] => None
  | (k', v) :: rest => if String.eqb k k' then Some v else assoc k rest
  end.

Definition field (k : string) (r : Response) : option Value := assoc k (res_body r).

(** [res.json(body)] answers 200; [res.status(n).json(body)] answers [n]. *)
Definition json (body : list (string * Value)) : Response := mkResponse 200 body.
Definition status_json (n : Z) (body : list (string * Value)) : Response := mkResponse n body.

(* ================================================================== *)
(** ** Entitlement middleware (src/middleware/subscription.ts) *)
(* ================================================================== *)

(** What [include: { plan: true }] returns with the subscription. *)
Record SubscriptionInfo := {
  info_subscription : Subscription.t;
  info_plan : Plan.t
}.

(** The request as the middleware chain sees it: the authenticated user's id
    and the properties the middlewares attach. *)
Record Request := mkRequest {
  req_user : option string;
  req_subscription : Js.opt SubscriptionInfo;
  req_organizationId : Js.opt string;
  req_employeeCount : option Z;
  req_employeeLimit : option Z
}.

Definition attach_subscription (s : Js.opt SubscriptionInfo) (org : Js.opt string)
    (r : Request) : Request :=
  mkRequest (req_user r) s org (req_employeeCount r) (req_employeeLimit r).

Definition attach_counts (count limit : Z) (r : Request) : Request :=
  mkRequest (req_user r) (req_subscription r) (req_organizationId r)
            (Some count) (Some limit).

(** A middleware either answers the request or calls [next()]. *)
Inductive Outcome :=
| Respond (r : Response)
| Next (req : Request).

(** [findUnique({ where: { organizationId }, include: { plan: true } })];
    the plan relation is required, a dangling [planId] is an engine error. *)
Definition subscription_with_plan (org : string) (d : Db) : Res (option SubscriptionInfo) * Db :=
  match subscription_findUnique_org org d with
  | None => (Ok None, d)
  | Some s =>
      match plan_findUnique (Subscription.planId s) d with
      | Some p => (Ok (Some {| info_subscription := s; info_plan := p |}), d)
      | None => (Throw, d)
      end
  end.

Definition date_gt (now : Z) (d : option Z) : bool :=
  match d with
  | Some t => t <? now
  | None => false
  end.

(** [3 * 24 * 60 * 60 * 1000], three days in milliseconds. *)
Definition gracePeriod : Z := 3 * 24 * 60 * 60 * 1000.

Definition grace_over (now : Z) (periodEnd : option Z) : bool :=
  match periodEnd with
  | Some t => t + gracePeriod <? now
  | None => false
  end.

Definition redirect : string * Value := ("redirectTo", VStr "/dashboard/subscription").

Definition status_name (st : SubscriptionStatus) : string :=
  match st with
  | TRIAL => "TRIAL" | ACTIVE => "ACTIVE" | PAST_DUE => "PAST_DUE"
  | SUSPENDED => "SUSPENDED" | EXPIRED => "EXPIRED" | CANCELLED => "CANCELLED"
  end.

Definition internal_error : Response :=
  status_json 500 [("error", VStr "Internal Server Error")].

Definition checkSubscription (now : Z) (req : Request) : World -> Outcome * World :=
  try_catch
    (if negb (Js.truthy_opt (req_user req)) then
       ret (Respond (status_json 401 [("error", VStr "Unauthorized")]))
     else
       user <- query (user_findUnique (Js.or_else (req_user req) "")) ;;
       match user with
       | Some u =>
         if Js.truthy_opt (User.organizationId u) then
           let org := Js.or_else (User.organizationId u) "" in
           subscription <- prisma (subscription_with_plan org) ;;
           match subscription with
           | None =>
               ret (Respond (status_json 403
                 [("error", VStr "No subscription found");
                  ("code", VStr "NO_SUBSCRIPTION"); redirect]))
           | Some info =>
               let s := info_subscription info in
               let pass := ret (Next (attach_subscription (Js.Obj info) (Js.Obj org) req)) in
               match Subscription.status s with
               | TRIAL =>
                   if date_gt now (Subscription.trialEndDate s) then
                     prisma (subscription_update (Subscription.id s)
                               (Subscription.set_status EXPIRED)) ;;;
                     ret (Respond (status_json 403
                       [("error", VStr "Trial expired");
                        ("code", VStr "TRIAL_EXPIRED"); redirect;
                        ("trialEndDate",
                         match Subscription.trialEndDate s with
                         | Some t => VDate t
                         | None => VNull
                         end)]))
                   else pass
               | ACTIVE =>
                   if date_gt now (Subscription.currentPeriodEnd s) then
                     prisma (subscription_update (Subscription.id s)
                               (Subscription.set_status PAST_DUE)) ;;;
                     ret (Respond (status_json 403
                       [("error", VStr "Subscription past due");
                        ("code", VStr "SUBSCRIPTION_PAST_DUE"); redirect]))
                   else pass
               | EXPIRED | CANCELLED | SUSPENDED =>
                   ret (Respond (status_json 403
                     [("error", VStr "Subscription inactive");
                      ("code", VStr "SUBSCRIPTION_INACTIVE");
                      ("status", VStr (status_name (Subscription.status s)));
                      redirect]))
               | PAST_DUE =>
                   if grace_over now (Subscription.currentPeriodEnd s) then
                     prisma (subscription_update (Subscription.id s)
                               (Subscription.set_status SUSPENDED)) ;;;
                     ret (Respond (status_json 403
                       [("error", VStr "Subscription suspended");
                        ("code", VStr "SUBSCRIPTION_SUSPENDED"); redirect]))
                   else pass
               end
           end
         else ret (Next (attach_subscription Js.Null (req_organizationId req) req))
       | None => ret (Next (attach_subscription Js.Null (req_organizationId req) req))
       end)
    (Respond internal_error).

Definition enforceEmployeeLimit (req : Request) : World -> Outcome * World :=
  try_catch
    (match req_subscription req, req_organizationId req with
     | Js.Obj info, Js.Obj organizationId =>
         if negb (Js.truthy organizationId) then ret (Next req)
         else
         let maxEmployees := Plan.maxEmployees (info_plan info) in
         if maxEmployees =? -1 then ret (Next req)
         else
           currentEmployeeCount <- query (countActiveSeats organizationId) ;;
           if maxEmployees <=? currentEmployeeCount then
             ret (Respond (status_json 403
               [("error", VStr "Employee limit reached");
                ("code", VStr "EMPLOYEE_LIMIT_REACHED");
                ("currentCount", VNum currentEmployeeCount);
                ("maxAllowed", VNum maxEmployees);
                ("planName", VStr (Plan.name (info_plan info)));
                redirect]))
           else ret (Next (attach_counts currentEmployeeCount maxEmployees req))
     | _, _ => ret (Next req)
     end)
    (Respond internal_error).

(** [featureMap[feature]]: [undefined] for a name that is not a key. *)
Definition featureMap (plan : Plan.t) (feature : string) : option bool :=
  assoc feature
    [("payroll", Plan.hasPayroll plan);
     ("advancedAnalytics", Plan.hasAdvancedAnalytics plan);
     ("customIntegrations", Plan.hasCustomIntegrations plan);
     ("prioritySupport", Plan.hasPrioritySupport plan);
     ("dedicatedManager", Plan.hasDedicatedManager plan);
     ("customWorkflows", Plan.hasCustomWorkflows plan);
     ("sla", Plan.hasSLA plan);
     ("onPremise", Plan.hasOnPremise plan)].

(** [requireFeature] awaits nothing: it leaves the world as it is. *)
Definition requireFeature (feature : string) (req : Request) : Outcome :=
  match req_subscription req with
  | Js.Obj info =>
      match featureMap (info_plan info) feature with
      | Some false =>
          Respond (status_json 403
            [("error", VStr "Feature not available");
             ("code", VStr "FEATURE_NOT_AVAILABLE");
             ("feature", VStr feature);
             ("planName", VStr (Plan.name (info_plan info)));
             redirect])
      | _ => Next req
      end
  | _ => Next req
  end.

(** An Express route [checkSubscription, enforceEmployeeLimit,
    requireFeature(feature)]: each middleware runs when the one before it
    called [next()]. *)
Definition entitlement_chain (feature : string) (now : Z) (req : Request)
    : World -> Outcome * World :=
  fun w =>
    match checkSubscription now req w with
    | (Next req1, w1) =>
        match enforceEmployeeLimit req1 w1 with
        | (Next req2, w2) => (requireFeature feature req2, w2)
        | (Respond r, w2) => (Respond r, w2)
        end
    | (Respond r, w1) => (Respond r, w1)
    end.

(* ================================================================== *)
(** ** Razorpay helper library (lib/razorpay.ts) *)
(* ================================================================== *)

(** [process.env]: an unset variable reads as the empty string
    ([process.env.X || '']). *)
Record Env := {
  RAZORPAY_KEY_ID : string;
  RAZORPAY_KEY_SECRET : string;
  RAZORPAY_WEBHOOK_SECRET : string
}.

Definition isRazorpayConfigured (env : Env) : bool :=
  Js.truthy (RAZORPAY_KEY_ID env) && Js.truthy (RAZORPAY_KEY_SECRET env).

Definition verifyRazorpaySignature (env : Env) (orderId paymentId signature : string) : bool :=
  String.eqb
    (Crypto.hmac_sha256_hex (RAZORPAY_KEY_SECRET env)
       (orderId ++ "|" ++ paymentId)%string)
    signature.

(** Called by the router without the optional [secret] argument. *)
Definition verifyWebhookSignature (env : Env) (body signature : string) : bool :=
  String.eqb (Crypto.hmac_sha256_hex (RAZORPAY_WEBHOOK_SECRET env) body) signature.

(* ================================================================== *)
(** ** JSON request bodies and [JSON.stringify] *)
(* ================================================================== *)

Module Json.
Local Open Scope string_scope.

(** A parsed body: an object is the list of its keys, in the order
    received, with their values.  The bodies modelled are those with
    distinct keys whose numbers are integers of magnitude at most 2^53
    ([wellformed]): on these [stringify] is [JSON.stringify]. *)
#[local] Unset Elimination Schemes.
Inductive t :=
| JNull
| JBool (b : bool)
| JNum (z : Z)
| JStr (s : string)
| JArr (items : list t)
| JObj (fields : list (string * t)).
#[local] Set Elimination Schemes.

(** [v.k]: a property of [undefined] or [null] is a TypeError; a value
    that is no object has no such property. *)
Definition get (k : string) (v : option t) : Res (option t) :=
  match v with
  | None | Some JNull => Throw
  | Some (JObj fields) => Ok (assoc k fields)
  | Some _ => Ok None
  end.

Definition dquote : string := String (ascii_of_nat 34) EmptyString.
Definition backslash : string := String (ascii_of_nat 92) EmptyString.

Definition escape_char (c : ascii) : string :=
  let n := nat_of_ascii c in
  if Nat.eqb n 34 then backslash ++ dquote
  else if Nat.eqb n 92 then backslash ++ backslash
  else if Nat.eqb n 8 then backslash ++ "b"
  else if Nat.eqb n 9 then backslash ++ "t"
  else if Nat.eqb n 10 then backslash ++ "n"
  else if Nat.eqb n 12 then backslash ++ "f"
  else if Nat.eqb n 13 then backslash ++ "r"
  else if Nat.ltb n 32 then
    backslash ++ "u00" ++ Crypto.hex [Z.of_nat n]
  else String c EmptyString.

Fixpoint escape (s : string) : string :=
  match s with
  | EmptyString => EmptyString
  | String c rest => escape_char c ++ escape rest
  end.

Definition quote (s : string) : string := dquote ++ escape s ++ dquote.

Fixpoint digits (fuel : nat) (n : Z) (acc : string) : string :=
  match fuel with
  | O => acc
  | S fuel' =>
      let acc' := String (ascii_of_N (Z.to_N (48 + n mod 10))) acc in
      if (n / 10 =? 0)%Z then acc' else digits fuel' (n / 10) acc'
  end.

(** Decimal text of an integer, as [String(n)] gives it. *)
Definition string_of_Z (z : Z) : string :=
  if (z <? 0)%Z then "-" ++ digits (Z.to_nat (Z.log2 (- z)) + 1) (- z) EmptyString
  else digits (Z.to_nat (Z.log2 z) + 1) z EmptyString.

Definition join (sep : string) (parts : list string) : string :=
  match parts with
  | [] => EmptyString
  | p :: rest => fold_left (fun acc q => acc ++ sep ++ q) rest p
  end.

Fixpoint digits_value (s : string) (acc : Z) : option Z :=
  match s with
  | EmptyString => Some acc
  | String c rest =>
      let n := Z.of_nat (nat_of_ascii c) in
      if ((48 <=? n) && (n <=? 57))%Z then digits_value rest (10 * acc + (n - 48))%Z
      else None
  end.

(** An array index: the canonical decimal text of an integer from 0 to
    2^32 - 2. *)
Definition array_index (k : string) : option Z :=
  match k with
  | EmptyString => None
  | String c rest =>
      if Nat.eqb (nat_of_ascii c) 48 && negb (String.eqb rest EmptyString) then None
      else match digits_value k 0 with
           | Some n => if (n <=? 4294967294)%Z then Some n else None
           | None => None
           end
  end.

Fixpoint insert_index {V} (n : Z) (x : V) (l : list (Z * V)) : list (Z * V) :=
  match l with
  | [] => [(n, x)]
  | (m, y) :: rest =>
      if (n <? m)%Z then (n, x) :: (m, y) :: rest else (m, y) :: insert_index n x rest
  end.

(** The order in which the properties of an object are enumerated: the
    array indices in ascending order, then the other keys in the order
    they were created. *)
Definition own_properties {V} (fields : list (string * V)) : list (string * V) :=
  (map snd
     (fold_left (fun acc kv =>
                   match array_index (fst kv) with
                   | Some n => insert_index n kv acc
                   | None => acc
                   end) fields [])
   ++ filter (fun kv => match array_index (fst kv) with
                        | Some _ => false
                        | None => true
                        end) fields)%list.

Fixpoint stringify (v : t) : string :=
  match v with
  | JNull => "null"
  | JBool true => "true"
  | JBool false => "false"
  | JNum z => string_of_Z z
  | JStr s => quote s
  | JArr items => "[" ++ join "," (map stringify items) ++ "]"
  | JObj fields =>
      "{" ++ join ","
               (map snd
                  (own_properties
                     (map (fun kv => (fst kv, quote (fst kv) ++ ":" ++ stringify (snd kv)))
                          fields)))
          ++ "}"
  end.

Fixpoint distinct (keys : list string) : bool :=
  match keys with
  | [] => true
  | k :: rest => negb (existsb (String.eqb k) rest) && distinct rest
  end.

(** The bodies on which the model is the runtime's: keys are distinct,
    and a number is an integer that a binary64 value holds exactly and
    that is printed with all its digits. *)
Fixpoint wellformed (v : t) : bool :=
  match v with
  | JNull | JBool _ | JStr _ => true
  | JNum z => (Z.abs z <=? 2 ^ 53)%Z
  | JArr items => forallb wellformed items
  | JObj fields =>
      distinct (map fst fields) && forallb (fun kv => wellformed (snd kv)) fields
  end.

End Json.

(* ================================================================== *)
(** ** Subscription router (routes/subscription.ts) *)
(* ================================================================== *)

(** What a handler reads from outside the database during one request:
    the clock ([new Date()], with its calendar year and month), the random
    bytes of the invoice number, and what the gateway answers. *)
Record Ambient := {
  now : Z;
  getFullYear : Z;
  getMonth : Z;                       (* 0 .. 11 *)
  randomBytes_hex : string;           (* [randomBytes(4)], upper-case hex *)
  fetched_method : option string;     (* [paymentDetails?.method]; [None] when the fetch threw *)
  gateway_order : option (string * float * string);  (* id, amount, currency; [None]: the call threw *)
  new_row_id : string                 (* the id Prisma gives a created row *)
}.

(** *** POST /create-order *)

Record CreateOrderBody := {
  co_planId : option string;
  co_billingCycle : option BillingCycle
}.

Definition float_truthy (x : float) : bool :=
  negb (PrimFloat.eqb x 0%float) && PrimFloat.eqb x x.

(** The amount in paise. *)
Definition order_amount (billingCycle : BillingCycle) (plan : Plan.t) : float :=
  match billingCycle, Plan.yearlyPrice plan with
  | YEARLY, Some y =>
      if float_truthy y then Js.Math_round (y * 100)%float
      else Js.Math_round (Plan.monthlyPrice plan * 100)%float
  | _, _ => Js.Math_round (Plan.monthlyPrice plan * 100)%float
  end.

Definition cycle_label (c : BillingCycle) : string :=
  match c with YEARLY => "Yearly" | MONTHLY => "Monthly" end.

Definition cycle_name (c : BillingCycle) : string :=
  match c with YEARLY => "YEARLY" | MONTHLY => "MONTHLY" end.

(** [s.slice(-6)] *)
Definition slice_last6 (s : string) : string :=
  let n := String.length s in substring (n - 6) 6 s.

Definition create_order (env : Env) (amb : Ambient) (uid : string) (body : CreateOrderBody)
    : World -> Response * World :=
  try_catch
    (if negb (isRazorpayConfigured env) then
       ret (status_json 503
              [("error", VStr "Payment gateway not configured. Please contact support.")])
     else
       let billingCycle := match co_billingCycle body with Some c => c | None => MONTHLY end in
       if negb (Js.truthy_opt (co_planId body)) then
         ret (status_json 400 [("error", VStr "Plan ID is required")])
       else
         user <- query (user_findUnique uid) ;;
         match user with
         | None => ret (status_json 400 [("error", VStr "No organization found")])
         | Some u =>
           if negb (Js.truthy_opt (User.organizationId u)) then
             ret (status_json 400 [("error", VStr "No organization found")])
           else
             let org := Js.or_else (User.organizationId u) "" in
             plan <- query (plan_findUnique (Js.or_else (co_planId body) "")) ;;
             match plan with
             | None => ret (status_json 404 [("error", VStr "Plan not found")])
             | Some plan =>
               if Plan.isCustom plan then
                 ret (status_json 400
                        [("error", VStr "Enterprise plan requires contacting sales")])
               else
                 let amount := order_amount billingCycle plan in
                 let receipt :=
                   ("rcpt_" ++ slice_last6 org ++ "_" ++ Json.string_of_Z (now amb))%string in
                 match gateway_order amb with
                 | None => throw
                 | Some (order_id, order_amt, order_currency) =>
                   subscription <- query (subscription_findUnique_org org) ;;
                   match subscription with
                   | None => ret (status_json 404 [("error", VStr "No subscription found")])
                   | Some s =>
                     prisma (payment_create
                       (Payment.mk (new_row_id amb) (Subscription.id s)
                          (amount / 100)%float (Plan.currency plan) order_id
                          None None CREATED None receipt
                          (Plan.name plan ++ " Plan - " ++ cycle_label billingCycle
                             ++ " Subscription")%string
                          None None None None)) ;;;
                     ret (json
                       [("data", VObj
                          [("orderId", VStr order_id);
                           ("amount", VFloat order_amt);
                           ("currency", VStr order_currency);
                           ("keyId", VStr (RAZORPAY_KEY_ID env));
                           ("planName", VStr (Plan.name plan));
                           ("billingCycle", VStr (cycle_name billingCycle));
                           ("description",
                            VStr (Plan.name plan ++ " Plan - " ++ cycle_label billingCycle)%string)])])
                   end
                 end
             end
         end)
    (status_json 500 [("error", VStr "Failed to create payment order")]).

(** *** POST /verify-payment *)

Record VerifyPaymentBody := {
  razorpay_order_id : option string;
  razorpay_payment_id : option string;
  razorpay_signature : option string;
  vp_planId : option string;
  vp_billingCycle : option BillingCycle
}.

(** [findUnique({ where: { razorpayOrderId }, include: { subscription:
    { include: { plan: true } } } })]; both relations are required. *)
Definition payment_with_subscription (oid : string) (d : Db)
    : Res (option (Payment.t * Subscription.t)) * Db :=
  match payment_findUnique_order oid d with
  | None => (Ok None, d)
  | Some p =>
      match subscription_findUnique_id (Payment.subscriptionId p) d with
      | None => (Throw, d)
      | Some s =>
          match plan_findUnique (Subscription.planId s) d with
          | Some _ => (Ok (Some (p, s)), d)
          | None => (Throw, d)
          end
      end
  end.

Definition period_length (c : BillingCycle) : Z :=
  match c with
  | YEARLY => 365 * 24 * 60 * 60 * 1000
  | MONTHLY => 30 * 24 * 60 * 60 * 1000
  end.

Definition capture_by_verify (paymentId signature : string) (method : option string)
    (t : Z) (p : Payment.t) : Payment.t :=
  Payment.mk (Payment.id p) (Payment.subscriptionId p) (Payment.amount p)
    (Payment.currency p) (Payment.razorpayOrderId p)
    (Some paymentId) (Some signature) CAPTURED method
    (Payment.receipt p) (Payment.description p)
    (Payment.errorCode p) (Payment.errorDescription p) (Some t) (Payment.refundedAt p).

Definition activate (planId : string) (t periodEnd : Z) (c : BillingCycle)
    (s : Subscription.t) : Subscription.t :=
  Subscription.mk (Subscription.id s) (Subscription.organizationId s) planId ACTIVE
    (Some t) (Some t) (Some periodEnd) c (Subscription.metadata s).

Definition pad2 (n : Z) : string :=
  if n <? 10 then ("0" ++ Json.string_of_Z n)%string else Json.string_of_Z n.

Definition invoiceNumber_of (amb : Ambient) : string :=
  ("INV-" ++ Json.string_of_Z (getFullYear amb) ++ pad2 (getMonth amb + 1) ++ "-"
          ++ randomBytes_hex amb)%string.

(** 18% GST on the payment's amount. *)
Definition invoice_tax (amount : float) : float :=
  (Js.Math_round (amount * 0.18 * 100) / 100)%float.

Definition invoice_total (amount : float) : float :=
  (Js.Math_round (amount * 1.18 * 100) / 100)%float.

Definition invoice_of (amb : Ambient) (p : Payment.t) (periodEnd : Z) : Invoice.t :=
  Invoice.mk (Payment.subscriptionId p) (invoiceNumber_of amb)
    (Payment.amount p) (invoice_tax (Payment.amount p)) (invoice_total (Payment.amount p))
    (Payment.currency p) (now amb) periodEnd "PAID" (now amb) (now amb).

Definition subscription_info_id (sid : string) (d : Db) : Res (option SubscriptionInfo) * Db :=
  match subscription_findUnique_id sid d with
  | None => (Ok None, d)
  | Some s =>
      match plan_findUnique (Subscription.planId s) d with
      | Some p => (Ok (Some {| info_subscription := s; info_plan := p |}), d)
      | None => (Throw, d)
      end
  end.

Definition verify_payment (env : Env) (amb : Ambient) (uid : string)
    (body : VerifyPaymentBody) : World -> Response * World :=
  try_catch
    (let billingCycle := match vp_billingCycle body with Some c => c | None => MONTHLY end in
     if negb (Js.truthy_opt (razorpay_order_id body))
        || negb (Js.truthy_opt (razorpay_payment_id body))
        || negb (Js.truthy_opt (razorpay_signature body)) then
       ret (status_json 400 [("error", VStr "Missing payment details")])
     else
       let order_id := Js.or_else (razorpay_order_id body) "" in
       let payment_id := Js.or_else (razorpay_payment_id body) "" in
       let signature := Js.or_else (razorpay_signature body) "" in
       if negb (verifyRazorpaySignature env order_id payment_id signature) then
         ret (status_json 400
                [("error", VStr "Invalid payment signature. Payment verification failed.")])
       else
         payment <- prisma (payment_with_subscription order_id) ;;
         match payment with
         | None => ret (status_json 404 [("error", VStr "Payment record not found")])
         | Some (payment, subscription) =>
           let periodStart := now amb in
           let periodEnd := now amb + period_length billingCycle in
           let targetPlanId := Js.or_else (vp_planId body) (Subscription.planId subscription) in
           prisma (payment_update (Payment.id payment)
                     (capture_by_verify payment_id signature
                        (match fetched_method amb with
                         | Some m => if Js.truthy m then Some m else None
                         | None => None
                         end) (now amb))) ;;;
           prisma (subscription_update (Payment.subscriptionId payment)
                     (activate targetPlanId periodStart periodEnd billingCycle)) ;;;
           prisma (invoice_create (invoice_of amb payment periodEnd)) ;;;
           prisma (auditLog_create
                     (AuditLog.mk uid "PAYMENT" "Subscription"
                        (Payment.subscriptionId payment))) ;;;
           updatedSubscription <- prisma (subscription_info_id (Payment.subscriptionId payment)) ;;
           ret (json
             [("success", VBool true);
              ("data", VObj
                 [("subscription", VObj
                     [("status",
                       match updatedSubscription with
                       | Some i => VStr (status_name (Subscription.status (info_subscription i)))
                       | None => VNull
                       end);
                      ("plan",
                       match updatedSubscription with
                       | Some i => VStr (Plan.name (info_plan i))
                       | None => VNull
                       end);
                      ("currentPeriodStart", VDate periodStart);
                      ("currentPeriodEnd", VDate periodEnd);
                      ("billingCycle", VStr (cycle_name billingCycle))]);
                  ("payment", VObj
                     [("id", VStr (Payment.id payment));
                      ("amount", VFloat (Payment.amount payment));
                      ("status", VStr "CAPTURED")]);
                  ("invoice", VObj [("number", VStr (invoiceNumber_of amb))])])])
         end)
    (status_json 500 [("error", VStr "Payment verification failed")]).

(** *** POST /change-plan *)

Definition cannot_downgrade (employeeCount limit : Z) : Response :=
  status_json 400
    [("error", VStr "Cannot downgrade");
     ("currentCount", VNum employeeCount);
     ("newPlanLimit", VNum limit)].

Definition date_value (d : option Z) : Value :=
  match d with Some t => VDate t | None => VNull end.

Definition change_plan (uid : string) (planId : option string)
    : World -> Response * World :=
  try_catch
    (if negb (Js.truthy_opt planId) then
       ret (status_json 400 [("error", VStr "Plan ID is required")])
     else
       user <- query (user_findUnique uid) ;;
       match user with
       | None => ret (status_json 400 [("error", VStr "No organization found")])
       | Some u =>
         if negb (Js.truthy_opt (User.organizationId u)) then
           ret (status_json 400 [("error", VStr "No organization found")])
         else
           let org := Js.or_else (User.organizationId u) "" in
           newPlan <- query (plan_findUnique (Js.or_else planId "")) ;;
           match newPlan with
           | None => ret (status_json 404 [("error", VStr "Plan not found or inactive")])
           | Some newPlan =>
             if negb (Plan.isActive newPlan) then
               ret (status_json 404 [("error", VStr "Plan not found or inactive")])
             else
               subscription <- prisma (subscription_with_plan org) ;;
               match subscription with
               | None => ret (status_json 404 [("error", VStr "No subscription found")])
               | Some info =>
                 let subscription := info_subscription info in
                 (* after the seat check *)
                 let proceed : M Response :=
                   match Subscription.status subscription with
                   | TRIAL =>
                       prisma (subscription_update (Subscription.id subscription)
                                 (Subscription.set_planId (Plan.id newPlan))) ;;;
                       ret (json
                         [("success", VBool true);
                          ("data", VObj [("plan", VStr (Plan.name newPlan));
                                         ("status", VStr "TRIAL")])])
                   | _ =>
                       let isUpgrade :=
                         PrimFloat.ltb (Plan.monthlyPrice (info_plan info))
                                       (Plan.monthlyPrice newPlan) in
                       if isUpgrade then
                         ret (json
                           [("success", VBool true);
                            ("requiresPayment", VBool true);
                            ("data", VObj
                               [("currentPlan", VStr (Plan.name (info_plan info)));
                                ("newPlan", VStr (Plan.name newPlan));
                                ("currentPrice", VFloat (Plan.monthlyPrice (info_plan info)));
                                ("newPrice", VFloat (Plan.monthlyPrice newPlan));
                                ("planId", VStr (Plan.id newPlan))])])
                       else
                         prisma (subscription_update (Subscription.id subscription)
                                   (Subscription.set_metadata
                                      (Some {| pendingPlanChange := Plan.id newPlan;
                                               pendingPlanName := Plan.name newPlan;
                                               changeEffectiveDate :=
                                                 Subscription.currentPeriodEnd subscription |}))) ;;;
                         ret (json
                           [("success", VBool true);
                            ("data", VObj
                               [("currentPlan", VStr (Plan.name (info_plan info)));
                                ("newPlan", VStr (Plan.name newPlan));
                                ("effectiveDate",
                                 date_value (Subscription.currentPeriodEnd subscription))])])
                   end in
                 if negb (Plan.maxEmployees newPlan =? -1) then
                   employeeCount <- query (countActiveSeats org) ;;
                   if Plan.maxEmployees newPlan <? employeeCount then
                     ret (cannot_downgrade employeeCount (Plan.maxEmployees newPlan))
                   else proceed
                 else proceed
               end
           end
       end)
    (status_json 500 [("error", VStr "Failed to change plan")]).

(** *** POST /webhook *)

Record WebhookRequest := {
  x_razorpay_signature : option string;  (* the header, when sent *)
  raw_body : string;                     (* the bytes received; the handler has only [req.body] *)
  wh_body : Json.t                       (* [req.body], the parsed JSON *)
}.

(** A value handed to Prisma for a nullable string column: [undefined]
    leaves the column, [null] clears it, anything but a string is a
    validation error. *)
Definition column (v : option Json.t) (old : option string) : Res (option string) :=
  match v with
  | None => Ok old
  | Some Json.JNull => Ok None
  | Some (Json.JStr s) => Ok (Some s)
  | Some _ => Throw
  end.

(** A unique key handed to [findUnique]: it has to be a string. *)
Definition unique_key (v : option Json.t) : Res string :=
  match v with
  | Some (Json.JStr s) => Ok s
  | _ => Throw
  end.

Definition lift {A} (r : Res A) : M A := fun w => (r, w).

(** [event.payload.<kind>.entity] *)
Definition payload_entity (kind : string) (event : Json.t) : M (option Json.t) :=
  payload <- lift (Json.get "payload" (Some event)) ;;
  inner <- lift (Json.get kind payload) ;;
  lift (Json.get "entity" inner).

Definition capture_by_webhook (paymentId method : option string) (t : Z)
    (p : Payment.t) : Payment.t :=
  Payment.mk (Payment.id p) (Payment.subscriptionId p) (Payment.amount p)
    (Payment.currency p) (Payment.razorpayOrderId p)
    paymentId (Payment.razorpaySignature p) CAPTURED method
    (Payment.receipt p) (Payment.description p)
    (Payment.errorCode p) (Payment.errorDescription p) (Some t) (Payment.refundedAt p).

Definition fail_by_webhook (paymentId errorCode errorDescription : option string)
    (p : Payment.t) : Payment.t :=
  Payment.mk (Payment.id p) (Payment.subscriptionId p) (Payment.amount p)
    (Payment.currency p) (Payment.razorpayOrderId p)
    paymentId (Payment.razorpaySignature p) FAILED (Payment.method p)
    (Payment.receipt p) (Payment.description p)
    errorCode errorDescription (Payment.paidAt p) (Payment.refundedAt p).

Definition refund_by_webhook (t : Z) (p : Payment.t) : Payment.t :=
  Payment.mk (Payment.id p) (Payment.subscriptionId p) (Payment.amount p)
    (Payment.currency p) (Payment.razorpayOrderId p)
    (Payment.razorpayPaymentId p) (Payment.razorpaySignature p) REFUNDED (Payment.method p)
    (Payment.receipt p) (Payment.description p)
    (Payment.errorCode p) (Payment.errorDescription p) (Payment.paidAt p) (Some t).

Definition received : Response := status_json 200 [("received", VBool true)].

Definition is_event (name : string) (eventType : option Json.t) : bool :=
  match eventType with
  | Some (Json.JStr s) => String.eqb s name
  | _ => false
  end.

Definition webhook_switch (t : Z) (event : Json.t) : M unit :=
  eventType <- lift (Json.get "event" (Some event)) ;;
  if is_event "payment.captured" eventType then
    paymentEntity <- payload_entity "payment" event ;;
    order_id <- lift (Json.get "order_id" paymentEntity) ;;
    key <- lift (unique_key order_id) ;;
    payment <- query (payment_findUnique_order key) ;;
    match payment with
    | Some p =>
        if negb (PaymentStatus_eqb (Payment.status p) CAPTURED) then
          id <- lift (Json.get "id" paymentEntity) ;;
          method <- lift (Json.get "method" paymentEntity) ;;
          id' <- lift (column id (Payment.razorpayPaymentId p)) ;;
          method' <- lift (column method (Payment.method p)) ;;
          prisma (payment_update (Payment.id p) (capture_by_webhook id' method' t))
        else ret tt
    | None => ret tt
    end
  else if is_event "payment.failed" eventType then
    paymentEntity <- payload_entity "payment" event ;;
    order_id <- lift (Json.get "order_id" paymentEntity) ;;
    key <- lift (unique_key order_id) ;;
    payment <- query (payment_findUnique_order key) ;;
    match payment with
    | Some p =>
        id <- lift (Json.get "id" paymentEntity) ;;
        error_code <- lift (Json.get "error_code" paymentEntity) ;;
        error_description <- lift (Json.get "error_description" paymentEntity) ;;
        id' <- lift (column id (Payment.razorpayPaymentId p)) ;;
        code' <- lift (column error_code (Payment.errorCode p)) ;;
        description' <- lift (column error_description (Payment.errorDescription p)) ;;
        prisma (payment_update (Payment.id p) (fail_by_webhook id' code' description'))
    | None => ret tt
    end
  else if is_event "refund.created" eventType then
    refundEntity <- payload_entity "refund" event ;;
    payment_id <- lift (Json.get "payment_id" refundEntity) ;;
    key <- lift (unique_key payment_id) ;;
    payment <- query (payment_findUnique_paymentId key) ;;
    match payment with
    | Some p => prisma (payment_update (Payment.id p) (refund_by_webhook t))
    | None => ret tt
    end
  else ret tt.

Definition webhook (env : Env) (t : Z) (req : WebhookRequest) : World -> Response * World :=
  try_catch
    (let signature := x_razorpay_signature req in
     let body := Json.stringify (wh_body req) in
     if Js.truthy_opt signature
        && negb (verifyWebhookSignature env body (Js.or_else signature "")) then
       ret (status_json 400 [("error", VStr "Invalid signature")])
     else
       webhook_switch t (wh_body req) ;;;
       ret received)
    received.

(** *** GET /usage *)

(** [prisma.employee.count({ where: { user: { organizationId } } })]: an
    employee row belongs to exactly one user. *)
Definition countEmployees (org : string) (d : Db) : Z :=
  Z.of_nat (List.length (filter (fun u =>
     match User.organizationId u with
     | Some o => String.eqb o org
     | None => false
     end && User.employee u) (users d))).

(** [prisma.user.count({ where: { organizationId } })] *)
Definition countUsers (org : string) (d : Db) : Z :=
  Z.of_nat (List.length (filter (fun u =>
     match User.organizationId u with
     | Some o => String.eqb o org
     | None => false
     end) (users d))).

(** [maxEmployees === -1 ? -1 : Math.max(0, maxEmployees - activeEmployees)] *)
Definition seats_remaining (maxEmployees activeEmployees : Z) : Z :=
  if maxEmployees =? -1 then -1 else Z.max 0 (maxEmployees - activeEmployees).

(** [maxEmployees === -1 ? 0 : Math.round((activeEmployees / maxEmployees) * 100)] *)
Definition percent_used (maxEmployees activeEmployees : Z) : float :=
  if maxEmployees =? -1 then 0%float
  else Js.Math_round (Js.float_of_Z activeEmployees / Js.float_of_Z maxEmployees * 100)%float.

(** The three counts are awaited together ([Promise.all]); each is one
    persistence call. *)
Definition usage (uid : string) : World -> Response * World :=
  try_catch
    (user <- query (user_findUnique uid) ;;
     match user with
     | None => ret (status_json 404 [("error", VStr "No organization found")])
     | Some u =>
       if negb (Js.truthy_opt (User.organizationId u)) then
         ret (status_json 404 [("error", VStr "No organization found")])
       else
         let org := Js.or_else (User.organizationId u) "" in
         subscription <- prisma (subscription_with_plan org) ;;
         match subscription with
         | None => ret (status_json 404 [("error", VStr "No subscription found")])
         | Some info =>
           let plan := info_plan info in
           totalEmployees <- query (countEmployees org) ;;
           activeEmployees <- query (countActiveSeats org) ;;
           totalUsers <- query (countUsers org) ;;
           ret (json
             [("data", VObj
                [("employees", VObj
                    [("total", VNum totalEmployees);
                     ("active", VNum activeEmployees);
                     ("limit", VNum (Plan.maxEmployees plan));
                     ("remaining",
                      VNum (seats_remaining (Plan.maxEmployees plan) activeEmployees));
                     ("percentUsed",
                      VFloat (percent_used (Plan.maxEmployees plan) activeEmployees))]);
                 ("totalUsers", VNum totalUsers);
                 ("plan", VStr (Plan.name plan));
                 ("features", VObj
                    [("payroll", VBool (Plan.hasPayroll plan));
                     ("advancedAnalytics", VBool (Plan.hasAdvancedAnalytics plan));
                     ("customIntegrations", VBool (Plan.hasCustomIntegrations plan));
                     ("prioritySupport", VBool (Plan.hasPrioritySupport plan))])])])
         end
     end)
    internal_error.

(** *** GET /invoices *)

(** What the route answers: [{ data: invoices }] with status 200, or an
    error body. *)
Inductive InvoicesAnswer :=
| Listed (data : list Invoice.t)
| NotListed (r : Response).

(** [findMany({ where: { subscriptionId }, orderBy: { createdAt: 'desc' } })]:
    the table is kept in the order the rows were created, so the newest
    row comes first in the answer. *)
Definition invoice_findMany (sid : string) (d : Db) : list Invoice.t :=
  rev (filter (fun i => String.eqb (Invoice.subscriptionId i) sid) (invoices d)).

Definition list_invoices (uid : string) : World -> InvoicesAnswer * World :=
  try_catch
    (user <- query (user_findUnique uid) ;;
     match user with
     | None => ret (NotListed (status_json 404 [("error", VStr "No organization found")]))
     | Some u =>
       if negb (Js.truthy_opt (User.organizationId u)) then
         ret (NotListed (status_json 404 [("error", VStr "No organization found")]))
       else
         subscription <- query (subscription_findUnique_org
                                  (Js.or_else (User.organizationId u) "")) ;;
         match subscription with
         | None => ret (Listed [])
         | Some s =>
           invoices <- query (invoice_findMany (Subscription.id s)) ;;
           ret (Listed invoices)
         end
     end)
    (NotListed internal_error).

(* ================================================================== *)
(** ** Cancellation (routes/subscription.ts, /cancel and /reactivate) *)
(* ================================================================== *)

(** The two routes read and write four more columns of the subscription
    row.  [Lifecycle] holds the full row: the columns above ([core]) and
    the cancellation columns; [view] is the database as the other
    handlers see it. *)
Module Lifecycle.

Record Row := mkRow {
  core : Subscription.t;
  autoRenew : bool;
  cancelledAt : option Z;
  cancelReason : option string;
  cancelsAtPeriodEnd : bool
}.

Record Store := mkStore {
  s_users : list User.t;
  s_plans : list Plan.t;
  s_rows : list Row;
  s_payments : list Payment.t;
  s_invoices : list Invoice.t;
  s_auditLogs : list AuditLog.t
}.

Definition view (st : Store) : Db :=
  mkDb (s_users st) (s_plans st) (map core (s_rows st)) (s_payments st)
       (s_invoices st) (s_auditLogs st).

(** The handler monad over the store, with the same fault schedule. *)
Definition MS (A : Type) : Type := Store * list bool -> Res A * (Store * list bool).

Definition sret {A} (a : A) : MS A := fun w => (Ok a, w).

Definition sbind {A B} (m : MS A) (k : A -> MS B) : MS B :=
  fun w =>
    match m w with
    | (Ok a, w') => k a w'
    | (Throw, w') => (Throw, w')
    end.

Definition sprisma {A} (f : Store -> Res A * Store) : MS A :=
  fun w =>
    match snd w with
    | true :: fs => (Throw, (fst w, fs))
    | false :: fs => let (r, st) := f (fst w) in (r, (st, fs))
    | [] => let (r, st) := f (fst w) in (r, (st, []))
    end.

Definition squery {A} (f : Store -> A) : MS A :=
  sprisma (fun st => (Ok (f st), st)).

Definition stry {A} (body : MS A) (handler : A)
    : Store * list bool -> A * (Store * list bool) :=
  fun w =>
    match body w with
    | (Ok a, w') => (a, w')
    | (Throw, w') => (handler, w')
    end.

Notation "x <~ m ;; k" := (sbind m (fun x => k))
  (at level 61, m at next level, right associativity).
Notation "m ;;~ k" := (sbind m (fun _ => k))
  (at level 61, right associativity).

Definition row_findUnique_org (org : string) (st : Store) : option Row :=
  find (fun r => String.eqb (Subscription.organizationId (core r)) org) (s_rows st).

Definition row_update (sid : string) (f : Row -> Row) (st : Store) : Res unit * Store :=
  match find (fun r => String.eqb (Subscription.id (core r)) sid) (s_rows st) with
  | Some _ =>
      (Ok tt,
       mkStore (s_users st) (s_plans st)
         (update_rows (fun r => Subscription.id (core r)) sid f (s_rows st))
         (s_payments st) (s_invoices st) (s_auditLogs st))
  | None => (Throw, st)
  end.

Definition audit (a : AuditLog.t) (st : Store) : Res unit * Store :=
  (Ok tt,
   mkStore (s_users st) (s_plans st) (s_rows st) (s_payments st) (s_invoices st)
           (s_auditLogs st ++ [a])).

(** *** POST /cancel *)

Record CancelBody := {
  reason : option string;
  immediate : option bool
}.

Definition cancel_now (t : Z) (why : string) (r : Row) : Row :=
  mkRow (Subscription.set_status CANCELLED (core r)) false (Some t) (Some why)
        (cancelsAtPeriodEnd r).

Definition cancel_at_period_end (t : Z) (why : string) (r : Row) : Row :=
  mkRow (core r) false (Some t) (Some why) true.

Definition is_trial (st : SubscriptionStatus) : bool :=
  match st with TRIAL => true | _ => false end.

Definition cancel (t : Z) (uid : string) (body : CancelBody)
    : Store * list bool -> Response * (Store * list bool) :=
  stry
    (let immediate := match immediate body with Some b => b | None => false end in
     user <~ squery (fun st => user_findUnique uid (view st)) ;;
     match user with
     | None => sret (status_json 400 [("error", VStr "No organization found")])
     | Some u =>
       if negb (Js.truthy_opt (User.organizationId u)) then
         sret (status_json 400 [("error", VStr "No organization found")])
       else
         subscription <~ squery (row_findUnique_org (Js.or_else (User.organizationId u) "")) ;;
         match subscription with
         | None => sret (status_json 404 [("error", VStr "No subscription found")])
         | Some row =>
           let subscription := core row in
           match Subscription.status subscription with
           | CANCELLED | EXPIRED =>
               sret (status_json 400
                       [("error", VStr "Subscription is already cancelled/expired")])
           | _ =>
               let why := Js.or_else (reason body) "User requested cancellation" in
               sprisma (row_update (Subscription.id subscription)
                          (if immediate || is_trial (Subscription.status subscription)
                           then cancel_now t why
                           else cancel_at_period_end t why)) ;;~
               sprisma (audit (AuditLog.mk uid "CANCEL" "Subscription"
                                 (Subscription.id subscription))) ;;~
               sret (json
                 [("success", VBool true);
                  ("data", VObj
                     [("status",
                       VStr (if immediate then "CANCELLED"
                             else status_name (Subscription.status subscription)));
                      ("cancelsAtPeriodEnd", VBool (negb immediate));
                      ("effectiveDate",
                       if immediate then VDate t
                       else date_value (Subscription.currentPeriodEnd subscription))])])
           end
         end
     end)
    (status_json 500 [("error", VStr "Failed to cancel subscription")]).

(** *** POST /reactivate *)

Definition resume (r : Row) : Row := mkRow (core r) true None None false.

(** [cancelsAtPeriodEnd && currentPeriodEnd && new Date() < currentPeriodEnd] *)
Definition can_resume (t : Z) (r : Row) : bool :=
  cancelsAtPeriodEnd r &&
  match Subscription.currentPeriodEnd (core r) with
  | Some pe => t <? pe
  | None => false
  end.

Definition reactivate (t : Z) (uid : string)
    : Store * list bool -> Response * (Store * list bool) :=
  stry
    (user <~ squery (fun st => user_findUnique uid (view st)) ;;
     match user with
     | None => sret (status_json 400 [("error", VStr "No organization found")])
     | Some u =>
       if negb (Js.truthy_opt (User.organizationId u)) then
         sret (status_json 400 [("error", VStr "No organization found")])
       else
         subscription <~ squery (row_findUnique_org (Js.or_else (User.organizationId u) "")) ;;
         match subscription with
         | None => sret (status_json 404 [("error", VStr "No subscription found")])
         | Some row =>
           if can_resume t row then
             sprisma (row_update (Subscription.id (core row)) resume) ;;~
             sret (json [("success", VBool true)])
           else
             sret (json [("success", VBool false); ("requiresPayment", VBool true)])
         end
     end)
    (status_json 500 [("error", VStr "Failed to reactivate subscription")]).

End Lifecycle.

(* ================================================================== *)
(** * Vocabulary of the properties *)
(* ================================================================== *)

(** ** What a handler found *)

(** A world in which every persistence call goes through. *)
Definition quiet (d : Db) : World := mkWorld d [].

(** The guard's two reads find the caller's organization [org] and its
    subscription [info] (with the plan). *)
Definition guard_reads (req : Request) (d : Db) (org : string) (info : SubscriptionInfo) : Prop :=
  exists uid u,
    req_user req = Some uid /\ Js.truthy uid = true /\
    user_findUnique uid d = Some u /\
    User.organizationId u = Some org /\ Js.truthy org = true /\
    subscription_with_plan org d = (Ok (Some info), d).

(** The caller is authenticated and has no organization: the user row has
    none (or an empty one), or there is no such row. *)
Definition no_organization (req : Request) (d : Db) : Prop :=
  exists uid,
    req_user req = Some uid /\ Js.truthy uid = true /\
    match user_findUnique uid d with
    | Some u => Js.truthy_opt (User.organizationId u) = false
    | None => True
    end.

(** The status stored for [org]'s subscription. *)
Definition stored_status (org : string) (d : Db) : option SubscriptionStatus :=
  option_map Subscription.status (subscription_findUnique_org org d).

(** ** Concrete tenants and requests *)

(** Fixtures: a tenant, the plan catalog, one checkout. *)
Module Fixture.

Definition day : Z := 24 * 60 * 60 * 1000.

Definition starter : Plan.t :=
  Plan.mk "plan_starter" "Starter" 499 (Some 4990%float) "INR" 25 true false
          false false false false false false false false.

Definition professional : Plan.t :=
  Plan.mk "plan_pro" "Professional" 1499 (Some 14990%float) "INR" 200 true false
          true true false true false false false false.

Definition enterprise : Plan.t :=
  Plan.mk "plan_ent" "Enterprise" 0 None "INR" (-1) true true
          true true true true true true true true.

Definition org : string := "org_acme_000001".

Definition admin : User.t := User.mk "u_admin" (Some org) "ACTIVE" true.
Definition loner : User.t := User.mk "u_loner" None "ACTIVE" false.

(** [n] active employees of the tenant besides the admin. *)
Definition staff (n : nat) : list User.t :=
  map (fun i => User.mk ("u_emp" ++ Json.string_of_Z (Z.of_nat i)) (Some org) "ACTIVE" true)
      (seq 0 n).

Definition subscription (planId : string) (st : SubscriptionStatus)
    (trialEnd periodEnd : option Z) : Subscription.t :=
  Subscription.mk "sub_1" org planId st trialEnd None periodEnd MONTHLY None.

Definition checkout (amount : float) (st : PaymentStatus) : Payment.t :=
  Payment.mk "pay_row_1" "sub_1" amount "INR" "order_1" None None st None
             "rcpt_000001_0" "Professional Plan - Monthly Subscription"
             None None None None.

Definition database (s : Subscription.t) (ps : list Payment.t) (n : nat) : Db :=
  mkDb (admin :: loner :: staff n) [starter; professional; enterprise] [s] ps [] [].

Definition request (uid : string) : Request :=
  mkRequest (Some uid) Js.Undefined Js.Undefined None None.

Definition env : Env :=
  {| RAZORPAY_KEY_ID := "rzp_test_key";
     RAZORPAY_KEY_SECRET := "key_secret";
     RAZORPAY_WEBHOOK_SECRET := "webhook_secret" |}.

End Fixture.

(** ** Outcomes *)

(** The code the guard answers with, by the status it read. *)
Definition denial_code (stored : SubscriptionStatus) : string :=
  match stored with
  | TRIAL => "TRIAL_EXPIRED"
  | ACTIVE => "SUBSCRIPTION_PAST_DUE"
  | PAST_DUE => "SUBSCRIPTION_SUSPENDED"
  | EXPIRED | CANCELLED | SUSPENDED => "SUBSCRIPTION_INACTIVE"
  end.

(** change-plan's reads find the caller's organization, the active target
    plan and the subscription. *)
Definition change_plan_reads (uid pid : string) (d : Db) (org : string)
    (newPlan : Plan.t) (info : SubscriptionInfo) : Prop :=
  Js.truthy pid = true /\
  exists u,
    user_findUnique uid d = Some u /\
    User.organizationId u = Some org /\ Js.truthy org = true /\
    plan_findUnique pid d = Some newPlan /\ Plan.isActive newPlan = true /\
    subscription_with_plan org d = (Ok (Some info), d).

(** The record change-plan stores in [metadata] for a deferred change. *)
Definition pending_change (newPlan : Plan.t) (s : Subscription.t) : PendingPlanChange :=
  {| pendingPlanChange := Plan.id newPlan;
     pendingPlanName := Plan.name newPlan;
     changeEffectiveDate := Subscription.currentPeriodEnd s |}.

(** ** Relations between the database before and after *)

(** [m] takes every database to one related to it by [R], whatever the
    fault schedule and whether it returns or throws. *)
Definition preserves {A} (R : Db -> Db -> Prop) (m : M A) : Prop :=
  forall w, R (db w) (db (snd (m w))).

(** A read that may throw leaves the database alone. *)
Definition read_only {A} (f : Db -> Res A * Db) : Prop := forall d, snd (f d) = d.

(** Every subscription keeps its plan and its pending-change record. *)
Definition same_plans (d d' : Db) : Prop :=
  map (fun s => (Subscription.id s, Subscription.planId s, Subscription.metadata s))
      (subscriptions d')
  = map (fun s => (Subscription.id s, Subscription.planId s, Subscription.metadata s))
        (subscriptions d).

(** A payment row after an operation that writes [target]: the row as it
    was, or the same payment with status [target]. *)
Definition writes (target : PaymentStatus) (p p' : Payment.t) : Prop :=
  p' = p \/ (Payment.id p' = Payment.id p /\ Payment.status p' = target).

(** The payments table after an operation: row by row [writes target], or
    the same table when the operation writes no status. *)
Definition payments_rel (target : option PaymentStatus) (d d' : Db) : Prop :=
  match target with
  | Some t => Forall2 (writes t) (payments d) (payments d')
  | None => payments d' = payments d
  end.

(** The status the handler of a webhook event writes, if any. *)
Definition event_status (event : Json.t) : option PaymentStatus :=
  match Json.get "event" (Some event) with
  | Ok eventType =>
      if is_event "payment.captured" eventType then Some CAPTURED
      else if is_event "payment.failed" eventType then Some FAILED
      else if is_event "refund.created" eventType then Some REFUNDED
      else None
  | Throw => None
  end.

(** Gateway events and signed webhook requests. *)
Module Event.

Definition payment (name order_id payment_id : string) : Json.t :=
  Json.JObj
    [("event", Json.JStr name);
     ("payload", Json.JObj
        [("payment", Json.JObj
           [("entity", Json.JObj
              [("id", Json.JStr payment_id);
               ("order_id", Json.JStr order_id);
               ("amount", Json.JNum 149900);
               ("method", Json.JStr "card");
               ("error_code", Json.JStr "BAD_REQUEST_ERROR");
               ("error_description", Json.JStr "Payment failed")])])])].

(** A request signed over the text [raw] that was sent. *)
Definition signed (env : Env) (raw : string) (body : Json.t) : WebhookRequest :=
  {| x_razorpay_signature := Some (Crypto.hmac_sha256_hex (RAZORPAY_WEBHOOK_SECRET env) raw);
     raw_body := raw;
     wh_body := body |}.

Definition unsigned (body : Json.t) : WebhookRequest :=
  {| x_razorpay_signature := None; raw_body := Json.stringify body; wh_body := body |}.

End Event.

(** A line feed, as a body may end with. *)
Definition newline : string := String (ascii_of_nat 10) EmptyString.

(** The request is complete, its signature verifies, the payment of the
    order is found with its subscription, and the plan to activate exists. *)
Definition verify_reads (env : Env) (body : VerifyPaymentBody) (d : Db)
    (order_id payment_id signature : string) (p : Payment.t) (s : Subscription.t) : Prop :=
  razorpay_order_id body = Some order_id /\ Js.truthy order_id = true /\
  razorpay_payment_id body = Some payment_id /\ Js.truthy payment_id = true /\
  razorpay_signature body = Some signature /\ Js.truthy signature = true /\
  verifyRazorpaySignature env order_id payment_id signature = true /\
  payment_with_subscription order_id d = (Ok (Some (p, s)), d) /\
  exists plan,
    plan_findUnique (Js.or_else (vp_planId body) (Subscription.planId s)) d = Some plan.

(** The billing cycle of a verify-payment body ([MONTHLY] by default). *)
Definition billingCycle_of (body : VerifyPaymentBody) : BillingCycle :=
  match vp_billingCycle body with Some c => c | None => MONTHLY end.

(** The database a successful verify-payment leaves. *)
Definition verified_db (amb : Ambient) (uid : string) (body : VerifyPaymentBody)
    (payment_id signature : string) (p : Payment.t) (s : Subscription.t) (d : Db) : Db :=
  let periodEnd := now amb + period_length (billingCycle_of body) in
  mkDb (users d) (plans d)
    (update_rows Subscription.id (Payment.subscriptionId p)
       (activate (Js.or_else (vp_planId body) (Subscription.planId s))
                 (now amb) periodEnd (billingCycle_of body))
       (subscriptions d))
    (update_rows Payment.id (Payment.id p)
       (capture_by_verify payment_id signature
          (match fetched_method amb with
           | Some m => if Js.truthy m then Some m else None
           | None => None
           end) (now amb))
       (payments d))
    (invoices d ++ [invoice_of amb p periodEnd])
    (auditLogs d ++ [AuditLog.mk uid "PAYMENT" "Subscription" (Payment.subscriptionId p)]).

(** A checkout on the fixture tenant: the verify-payment request of order
    [order_1], correctly signed, and the ambient values of a request. *)
Module Checkout.

Definition body : VerifyPaymentBody :=
  {| razorpay_order_id := Some "order_1";
     razorpay_payment_id := Some "pay_1";
     razorpay_signature := Some (Crypto.hmac_sha256_hex "key_secret" "order_1|pay_1");
     vp_planId := Some "plan_pro";
     vp_billingCycle := Some MONTHLY |}.

Definition at_time (t : Z) (random : string) : Ambient :=
  {| now := t; getFullYear := 2025; getMonth := 0; randomBytes_hex := random;
     fetched_method := Some "card";
     gateway_order := Some ("order_1", 149900%float, "INR");
     new_row_id := "pay_row_1" |}.

(** The tenant in trial on Starter, with the CREATED payment of the order. *)
Definition trial_db (amount : float) : Db :=
  Fixture.database
    (Fixture.subscription "plan_starter" TRIAL (Some (14 * Fixture.day)) None)
    [Fixture.checkout amount CREATED] 3.

End Checkout.

(** No invoice is created and no subscription row changes. *)
Definition same_ledger (d d' : Db) : Prop :=
  invoices d' = invoices d /\ subscriptions d' = subscriptions d.

(** ** More of the middleware *)

(** The feature names [requireFeature] knows. *)
Definition known_features : list string :=
  ["payroll"; "advancedAnalytics"; "customIntegrations"; "prioritySupport";
   "dedicatedManager"; "customWorkflows"; "sla"; "onPremise"].

(** The request carries the subscription and organization that
    [checkSubscription] attaches. *)
Definition entitled (req : Request) (org : string) (info : SubscriptionInfo) : Prop :=
  req_subscription req = Js.Obj info /\ req_organizationId req = Js.Obj org
  /\ Js.truthy org = true.

(** A middleware answered 403 with the given code. *)
Definition denied (code : string) (out : Outcome) : Prop :=
  exists r, out = Respond r /\ res_status r = 403 /\ field "code" r = Some (VStr code).

(** One subscription row across a guard read at [now]: left as it is, or
    moved along one of the three repair edges, the edge's condition holding. *)
Definition repair_step (now : Z) (s s' : Subscription.t) : Prop :=
  s' = s
  \/ (Subscription.status s = TRIAL /\ date_gt now (Subscription.trialEndDate s) = true
      /\ s' = Subscription.set_status EXPIRED s)
  \/ (Subscription.status s = ACTIVE /\ date_gt now (Subscription.currentPeriodEnd s) = true
      /\ s' = Subscription.set_status PAST_DUE s)
  \/ (Subscription.status s = PAST_DUE /\ grace_over now (Subscription.currentPeriodEnd s) = true
      /\ s' = Subscription.set_status SUSPENDED s).

(** Every table but [subscriptions] is the same. *)
Definition same_but_subscriptions (d d' : Db) : Prop :=
  users d' = users d /\ plans d' = plans d /\ payments d' = payments d
  /\ invoices d' = invoices d /\ auditLogs d' = auditLogs d.

(** ** More of the router *)

(** Only payments were added, each CREATED: every other table, and every
    payment there was, is as before. *)
Definition opens_payments (d d' : Db) : Prop :=
  users d' = users d /\ plans d' = plans d /\ subscriptions d' = subscriptions d
  /\ invoices d' = invoices d /\ auditLogs d' = auditLogs d
  /\ exists l, payments d' = payments d ++ l
               /\ Forall (fun p => Payment.status p = CREATED) l.

(** The billing cycle of a create-order body ([MONTHLY] by default). *)
Definition co_cycle (body : CreateOrderBody) : BillingCycle :=
  match co_billingCycle body with Some c => c | None => MONTHLY end.

(** create-order's checks pass: the gateway is configured, the caller has
    an organization [org] with subscription [s], the plan asked for exists
    and is not custom, and the gateway answers with [order]. *)
Definition create_order_reads (env : Env) (amb : Ambient) (uid : string)
    (body : CreateOrderBody) (d : Db) (org : string) (plan : Plan.t)
    (s : Subscription.t) (order : string * float * string) : Prop :=
  isRazorpayConfigured env = true /\
  exists pid u,
    co_planId body = Some pid /\ Js.truthy pid = true /\
    user_findUnique uid d = Some u /\
    User.organizationId u = Some org /\ Js.truthy org = true /\
    plan_findUnique pid d = Some plan /\ Plan.isCustom plan = false /\
    gateway_order amb = Some order /\
    subscription_findUnique_org org d = Some s.

(** The payment row create-order stores. *)
Definition opened_payment (amb : Ambient) (body : CreateOrderBody) (org : string)
    (plan : Plan.t) (s : Subscription.t) (order_id : string) : Payment.t :=
  Payment.mk (new_row_id amb) (Subscription.id s)
    (order_amount (co_cycle body) plan / 100)%float (Plan.currency plan) order_id
    None None CREATED None
    ("rcpt_" ++ slice_last6 org ++ "_" ++ Json.string_of_Z (now amb))%string
    (Plan.name plan ++ " Plan - " ++ cycle_label (co_cycle body) ++ " Subscription")%string
    None None None None.

(** A verify-payment body that is complete and correctly signed for the
    order and the gateway payment. *)
Definition signed_body (env : Env) (body : VerifyPaymentBody)
    (order_id payment_id signature : string) : Prop :=
  razorpay_order_id body = Some order_id /\ Js.truthy order_id = true /\
  razorpay_payment_id body = Some payment_id /\ Js.truthy payment_id = true /\
  razorpay_signature body = Some signature /\ Js.truthy signature = true /\
  verifyRazorpaySignature env order_id payment_id signature = true.

(** The user [uid] is stored with organization [org]. *)
Definition member_of (uid : string) (d : Db) (org : string) : Prop :=
  exists u, user_findUnique uid d = Some u
            /\ User.organizationId u = Some org /\ Js.truthy org = true.

(** [paymentDetails?.method || null] *)
Definition method_of (amb : Ambient) : option string :=
  match fetched_method amb with
  | Some m => if Js.truthy m then Some m else None
  | None => None
  end.
(** [v.k1.k2...] on a response value. *)
Fixpoint at_path (path : list string) (v : Value) : option Value :=
  match path with
  | [] => Some v
  | k :: rest =>
      match v with
      | VObj fields =>
          match assoc k fields with
          | Some v' => at_path rest v'
          | None => None
          end
      | _ => None
      end
  end.

(** What the body of a response holds at [data.k1.k2...]. *)
Definition data_at (path : list string) (r : Response) : option Value :=
  match field "data" r with
  | Some v => at_path path v
  | None => None
  end.
(** The webhook's writes: no table but payments changes, and every payment
    keeps its id, subscription, amount, currency, order id and receipt. *)
Definition same_orders (d d' : Db) : Prop :=
  users d' = users d /\ plans d' = plans d /\ subscriptions d' = subscriptions d
  /\ invoices d' = invoices d /\ auditLogs d' = auditLogs d
  /\ map (fun p => (Payment.id p, Payment.subscriptionId p, Payment.amount p,
                    Payment.currency p, Payment.razorpayOrderId p, Payment.receipt p))
         (payments d')
     = map (fun p => (Payment.id p, Payment.subscriptionId p, Payment.amount p,
                      Payment.currency p, Payment.razorpayOrderId p, Payment.receipt p))
           (payments d).
(** The terms of every subscription (whose it is, status, trial end,
    period, billing cycle) and every other table are as before: only a
    plan or a pending change may differ. *)
Definition same_terms (d d' : Db) : Prop :=
  users d' = users d /\ plans d' = plans d /\ payments d' = payments d
  /\ invoices d' = invoices d /\ auditLogs d' = auditLogs d
  /\ map (fun s => (Subscription.id s, Subscription.organizationId s, Subscription.status s,
                    Subscription.trialEndDate s, Subscription.currentPeriodStart s,
                    Subscription.currentPeriodEnd s, Subscription.billingCycle s))
         (subscriptions d')
     = map (fun s => (Subscription.id s, Subscription.organizationId s, Subscription.status s,
                      Subscription.trialEndDate s, Subscription.currentPeriodStart s,
                      Subscription.currentPeriodEnd s, Subscription.billingCycle s))
           (subscriptions d).
(** ** Cancellation *)

(** A store in which every persistence call goes through. *)
Definition squiet (st : Lifecycle.Store) : Lifecycle.Store * list bool := (st, []).

(** The reads of /cancel and /reactivate find the caller's organization
    and its subscription row. *)
Definition lifecycle_reads (uid : string) (st : Lifecycle.Store) (org : string)
    (row : Lifecycle.Row) : Prop :=
  member_of uid (Lifecycle.view st) org /\ Lifecycle.row_findUnique_org org st = Some row.

(** [m] relates the store before to the store after by [R], whatever the
    fault schedule and whether it returns or throws. *)
Definition spreserves {A} (R : Lifecycle.Store -> Lifecycle.Store -> Prop)
    (m : Lifecycle.MS A) : Prop :=
  forall w, R (fst w) (fst (snd (m w))).

(** Of a subscription row only the status may have changed, and only to
    CANCELLED; users, plans, payments and invoices are as before, and the
    audit log only grew by CANCEL entries. *)
Definition cancels_only (st st' : Lifecycle.Store) : Prop :=
  Lifecycle.s_users st' = Lifecycle.s_users st
  /\ Lifecycle.s_plans st' = Lifecycle.s_plans st
  /\ Lifecycle.s_payments st' = Lifecycle.s_payments st
  /\ Lifecycle.s_invoices st' = Lifecycle.s_invoices st
  /\ Forall2 (fun r r' =>
                Lifecycle.core r' = Lifecycle.core r
                \/ Lifecycle.core r' = Subscription.set_status CANCELLED (Lifecycle.core r))
       (Lifecycle.s_rows st) (Lifecycle.s_rows st')
  /\ exists l, Lifecycle.s_auditLogs st' = Lifecycle.s_auditLogs st ++ l
               /\ Forall (fun a => AuditLog.action a = "CANCEL") l.

(** The reason /cancel stores. *)
Definition reason_of (body : Lifecycle.CancelBody) : string :=
  Js.or_else (Lifecycle.reason body) "User requested cancellation".

(** [immediate] of a /cancel body ([false] by default). *)
Definition immediate_of (body : Lifecycle.CancelBody) : bool :=
  match Lifecycle.immediate body with Some b => b | None => false end.

(** What /cancel writes to the row. *)
Definition cancel_write (t : Z) (body : Lifecycle.CancelBody) (row : Lifecycle.Row)
    : Lifecycle.Row -> Lifecycle.Row :=
  if immediate_of body || Lifecycle.is_trial (Subscription.status (Lifecycle.core row))
  then Lifecycle.cancel_now t (reason_of body)
  else Lifecycle.cancel_at_period_end t (reason_of body).

(** The store with the rows of [row]'s id rewritten by [f]. *)
Definition with_row (f : Lifecycle.Row -> Lifecycle.Row) (row : Lifecycle.Row)
    (st : Lifecycle.Store) : Lifecycle.Store :=
  Lifecycle.mkStore (Lifecycle.s_users st) (Lifecycle.s_plans st)
    (update_rows (fun r => Subscription.id (Lifecycle.core r))
       (Subscription.id (Lifecycle.core row)) f (Lifecycle.s_rows st))
    (Lifecycle.s_payments st) (Lifecycle.s_invoices st) (Lifecycle.s_auditLogs st).

(** The store a successful /cancel leaves. *)
Definition cancelled_store (t : Z) (uid : string) (body : Lifecycle.CancelBody)
    (row : Lifecycle.Row) (st : Lifecycle.Store) : Lifecycle.Store :=
  snd (Lifecycle.audit
         (AuditLog.mk uid "CANCEL" "Subscription" (Subscription.id (Lifecycle.core row)))
         (with_row (cancel_write t body row) row st)).
(** ** Histories *)

(** A request to one of the handlers over the database. *)
Inductive Op :=
| OpGuard (now : Z) (req : Request)
| OpSeats (req : Request)
| OpCreateOrder (env : Env) (amb : Ambient) (uid : string) (body : CreateOrderBody)
| OpVerifyPayment (env : Env) (amb : Ambient) (uid : string) (body : VerifyPaymentBody)
| OpChangePlan (uid : string) (planId : option string)
| OpWebhook (env : Env) (t : Z) (req : WebhookRequest)
| OpUsage (uid : string)
| OpInvoices (uid : string).

(** The world after the handler has answered. *)
Definition run_op (o : Op) (w : World) : World :=
  match o with
  | OpGuard now req => snd (checkSubscription now req w)
  | OpSeats req => snd (enforceEmployeeLimit req w)
  | OpCreateOrder env amb uid body => snd (create_order env amb uid body w)
  | OpVerifyPayment env amb uid body => snd (verify_payment env amb uid body w)
  | OpChangePlan uid planId => snd (change_plan uid planId w)
  | OpWebhook env t req => snd (webhook env t req w)
  | OpUsage uid => snd (usage uid w)
  | OpInvoices uid => snd (list_invoices uid w)
  end.

(** The requests of a history, handled one after the other. *)
Definition run_ops (ops : list Op) (w : World) : World :=
  fold_left (fun w o => run_op o w) ops w.

(** The database only grew: users and plans are the same; the same
    subscriptions exist, each of the same organization; every payment there
    was is still there, in its place, for the same subscription, order and
    amount; every invoice is still there, unchanged; payments, invoices and
    audit entries may have been added. *)
Definition grows (d d' : Db) : Prop :=
  users d' = users d /\ plans d' = plans d
  /\ map (fun s => (Subscription.id s, Subscription.organizationId s)) (subscriptions d')
     = map (fun s => (Subscription.id s, Subscription.organizationId s)) (subscriptions d)
  /\ (exists l,
        map (fun p => (Payment.id p, Payment.subscriptionId p, Payment.razorpayOrderId p,
                       Payment.amount p)) (payments d')
        = map (fun p => (Payment.id p, Payment.subscriptionId p, Payment.razorpayOrderId p,
                         Payment.amount p)) (payments d) ++ l)
  /\ (exists l, invoices d' = invoices d ++ l)
  /\ (exists l, auditLogs d' = auditLogs d ++ l).
(** The status a guard read at [now] stores for the subscription it
    read, if it stores one. *)
Definition repair_of (now : Z) (s : Subscription.t) : option SubscriptionStatus :=
  match Subscription.status s with
  | TRIAL => if date_gt now (Subscription.trialEndDate s) then Some EXPIRED else None
  | ACTIVE => if date_gt now (Subscription.currentPeriodEnd s) then Some PAST_DUE else None
  | PAST_DUE => if grace_over now (Subscription.currentPeriodEnd s) then Some SUSPENDED else None
  | EXPIRED | CANCELLED | SUSPENDED => None
  end.

(** The database with the status [st] stored for the rows of [s]'s id. *)
Definition with_status (st : SubscriptionStatus) (s : Subscription.t) (d : Db) : Db :=
  with_subscriptions
    (update_rows Subscription.id (Subscription.id s) (Subscription.set_status st)
       (subscriptions d)) d.

(** The requests that are no business of the guard: the seat guard, an
    order, a webhook event, the usage report, the invoice listing. *)
Definition beside_the_guard (o : Op) : bool :=
  match o with
  | OpSeats _ | OpCreateOrder _ _ _ _ | OpWebhook _ _ _ | OpUsage _ | OpInvoices _ => true
  | OpGuard _ _ | OpVerifyPayment _ _ _ _ | OpChangePlan _ _ => false
  end.

(** The tables the guard reads are the same. *)
Definition same_for_guard (d d' : Db) : Prop :=
  users d' = users d /\ plans d' = plans d /\ subscriptions d' = subscriptions d.

(** From a world in which every call goes through, [m] leads to one. *)
Definition stays_quiet {A} (m : M A) : Prop :=
  forall d, exists d', snd (m (quiet d)) = quiet d'.
(** Two databases that differ at most in who the audit entries name. *)
Definition same_but_auditor (d d' : Db) : Prop :=
  users d' = users d /\ plans d' = plans d /\ subscriptions d' = subscriptions d
  /\ payments d' = payments d /\ invoices d' = invoices d
  /\ map (fun a => (AuditLog.action a, AuditLog.entityType a, AuditLog.entityId a))
         (auditLogs d')
     = map (fun a => (AuditLog.action a, AuditLog.entityType a, AuditLog.entityId a))
           (auditLogs d).

(** [m] and [m'] run in step: from related worlds with the same fault
    schedule they return the same and leave related worlds. *)
Definition in_step {A} (R : Db -> Db -> Prop) (m m' : M A) : Prop :=
  forall w w',
    R (db w) (db w') -> faults w' = faults w ->
    fst (m' w') = fst (m w)
    /\ R (db (snd (m w))) (db (snd (m' w')))
    /\ faults (snd (m' w')) = faults (snd (m w)).

(** A CREATED payment carries no gateway payment id: create-order stores
    none, and a handler writes one only together with CAPTURED or FAILED. *)
Definition created_unpaid (d : Db) : Prop :=
  Forall (fun p => Payment.status p = CREATED -> Payment.razorpayPaymentId p = None)
         (payments d).

(** Where a payment that was CREATED may be after an operation. *)
Definition from_created (p p' : Payment.t) : Prop :=
  Payment.status p = CREATED ->
  Payment.status p' = CREATED \/ Payment.status p' = CAPTURED \/ Payment.status p' = FAILED.

(* ================================================================== *)
(** * Properties *)
(* ================================================================== *)

(** ** Test vectors of the library models *)

Example sha256_abc :
  Crypto.hex (Crypto.sha256 (Crypto.bytes_of_string "abc"))
  = "ba7816bf8f01cfea414140de5dae2223b00361a396177a9cb410ff61f20015ad".
Proof. vm_compute. reflexivity. Qed.

Example sha256_two_blocks :
  Crypto.hex (Crypto.sha256 (Crypto.bytes_of_string
     "abcdbcdecdefdefgefghfghighijhijkijkljklmklmnlmnomnopnopq"))
  = "248d6a61d20638b8e5c026930c3e6039a33ce45964ff2167f6ecedd419db06c1".
Proof. vm_compute. reflexivity. Qed.

Example hmac_rfc4231_case2 :
  Crypto.hmac_sha256_hex "Jefe" "what do ya want for nothing?"
  = "5bdcc146bf60754e6a042426089575c75a003f089d2739839dec58b964ec3843".
Proof. vm_compute. reflexivity. Qed.

Example Math_round_ties :
  Js.Math_round 22.5%float = 23%float
  /\ Js.Math_round (-2.5)%float = (-2)%float
  /\ Js.Math_round 22.25%float = 22%float
  /\ Js.Math_round 149900%float = 149900%float.
Proof. vm_compute. repeat split. Qed.

Example stringify_key_order :
  Json.stringify
    (Json.JObj [("b", Json.JNum 1); ("10", Json.JNum 2); ("2", Json.JNum 3);
                ("01", Json.JNum 4); ("0", Json.JNull)])
  = ("{" ++ Json.quote "0" ++ ":null," ++ Json.quote "2" ++ ":3," ++ Json.quote "10" ++ ":2,"
         ++ Json.quote "b" ++ ":1," ++ Json.quote "01" ++ ":4}")%string.
Proof. vm_compute. reflexivity. Qed.

Example stringify_event :
  Json.stringify
    (Json.JObj [("event", Json.JStr "payment.captured");
                ("n", Json.JArr [Json.JNum 149900; Json.JNum (-7); Json.JNull])])
  = ("{" ++ Json.quote "event" ++ ":" ++ Json.quote "payment.captured" ++ ","
         ++ Json.quote "n" ++ ":[149900,-7,null]}")%string.
Proof. vm_compute. reflexivity. Qed.

(** ** Running the monad *)

Lemma bind_ret {A B} (a : A) (k : A -> M B) w : bind (ret a) k w = k a w.
Proof. reflexivity. Qed.

Lemma bind_lift {A B} (r : Res A) (k : A -> M B) w :
  bind (lift r) k w = match r with Ok a => k a w | Throw => (Throw, w) end.
Proof. unfold bind, lift. destruct r; reflexivity. Qed.

Lemma prisma_quiet {A} (f : Db -> Res A * Db) d :
  prisma f (quiet d) = (fst (f d), quiet (snd (f d))).
Proof. unfold prisma, quiet. simpl. destruct (f d); reflexivity. Qed.

Lemma bind_prisma_quiet {A B} (f : Db -> Res A * Db) (k : A -> M B) d :
  bind (prisma f) k (quiet d)
  = match fst (f d) with
    | Ok a => k a (quiet (snd (f d)))
    | Throw => (Throw, quiet (snd (f d)))
    end.
Proof. unfold bind. rewrite prisma_quiet. reflexivity. Qed.

Lemma bind_query_quiet {A B} (f : Db -> A) (k : A -> M B) d :
  bind (query f) k (quiet d) = k (f d) (quiet d).
Proof. unfold query. rewrite bind_prisma_quiet. reflexivity. Qed.

Lemma bind_throw {A B} (k : A -> M B) w : bind throw k w = (Throw, w).
Proof. reflexivity. Qed.

Lemma bind_prisma_scheduled {A B} (f : Db -> Res A * Db) (k : A -> M B) d (b : bool) fs :
  bind (prisma f) k (mkWorld d (b :: fs))
  = if b then (Throw, mkWorld d fs)
    else match fst (f d) with
         | Ok a => k a (mkWorld (snd (f d)) fs)
         | Throw => (Throw, mkWorld (snd (f d)) fs)
         end.
Proof. unfold bind, prisma. simpl. destruct b; [reflexivity|]. destruct (f d); reflexivity. Qed.

Lemma bind_assoc {A B C} (m : M A) (k1 : A -> M B) (k2 : B -> M C) w :
  bind (bind m k1) k2 w = bind m (fun a => bind (k1 a) k2) w.
Proof. unfold bind. destruct (m w) as [[a|] w1]; reflexivity. Qed.

Lemma prisma_run {A} (f : Db -> Res A * Db) d fs :
  prisma f (mkWorld d fs)
  = match fs with
    | true :: fs' => (Throw, mkWorld d fs')
    | false :: fs' => (fst (f d), mkWorld (snd (f d)) fs')
    | [] => (fst (f d), mkWorld (snd (f d)) [])
    end.
Proof. unfold prisma. simpl. destruct fs as [|[|] fs']; try reflexivity; destruct (f d); reflexivity. Qed.

(** One persistence call of a handler, the next entry of the fault
    schedule taken apart. *)
Ltac step_prisma :=
  unfold bind at 1; rewrite prisma_run;
  repeat match goal with
  | |- context [match ?l with [] => _ | _ :: _ => _ end] =>
      is_var l; destruct l as [|[|] ?]
  end;
  cbn [fst snd].

(** Runs the pure steps of a handler, using the equations at hand. *)
Ltac run_lifts :=
  repeat first
    [ rewrite bind_assoc
    | rewrite bind_lift
    | progress cbv beta iota
    | match goal with
      | H : ?x = Ok _ |- context [match ?x with Ok _ => _ | Throw => _ end] => rewrite H
      | H : ?x = Throw |- context [match ?x with Ok _ => _ | Throw => _ end] => rewrite H
      | H : ?x = true |- context [if ?x then _ else _] => rewrite H
      | H : ?x = false |- context [if ?x then _ else _] => rewrite H
      end ].

(** ** Tables: lookups after an update *)

Lemma find_witness {A} (f g : A -> bool) (l : list A) (x : A) :
  find f l = Some x -> g x = true -> exists y, find g l = Some y.
Proof.
  intros Hf Hg. apply find_some in Hf. destruct Hf as [Hin _].
  destruct (find g l) as [y|] eqn:E; [now exists y|].
  pose proof (find_none g l E x Hin) as Hn. congruence.
Qed.

Lemma find_update_rows {R} (key : R -> string) (p : R -> bool) (rid : string)
    (f : R -> R) (rows : list R) :
  (forall r, p (f r) = p r) ->
  find p (update_rows key rid f rows)
  = option_map (fun r => if String.eqb (key r) rid then f r else r) (find p rows).
Proof.
  intros Hp. induction rows as [|r rows IH]; simpl; [reflexivity|].
  destruct (String.eqb (key r) rid) eqn:E.
  - rewrite Hp. destruct (p r); simpl; [now rewrite E | exact IH].
  - destruct (p r); simpl; [now rewrite E | exact IH].
Qed.

Lemma row_of_key {R} (key : R -> string) (l : list R) (a b : R) :
  NoDup (map key l) -> In a l -> In b l -> key a = key b -> a = b.
Proof.
  induction l as [|x l IH]; simpl; [tauto|].
  intros Hnd [Ha|Ha] [Hb|Hb] Hk; inversion Hnd as [|? ? Hx Hl]; subst.
  - reflexivity.
  - exfalso. apply Hx. rewrite Hk. now apply in_map.
  - exfalso. apply Hx. rewrite <- Hk. now apply in_map.
  - now apply IH.
Qed.

(** With unique keys, an update by the key of a row of the table changes
    that row and no other. *)
Lemma update_rows_one {R} (key : R -> string) (f : R -> R) (l : list R) (s : R) :
  NoDup (map key l) -> In s l ->
  Forall2 (fun r r' => r' = r \/ (r = s /\ r' = f s)) l (update_rows key (key s) f l).
Proof.
  intros Hnd Hin.
  assert (H : forall r, In r l ->
            (if String.eqb (key r) (key s) then f r else r) = r
            \/ (r = s /\ (if String.eqb (key r) (key s) then f r else r) = f s)).
  { intros r Hr. destruct (String.eqb (key r) (key s)) eqn:E; [|now left].
    apply String.eqb_eq in E. right.
    assert (r = s) by (eapply row_of_key; eassumption). now subst. }
  clear Hnd Hin. unfold update_rows.
  induction l as [|x l IH]; simpl; constructor.
  - apply H. now left.
  - apply IH. intros r Hr. apply H. now right.
Qed.

(** ** The entitlement guard *)

Lemma guard_reads_row req d org info :
  guard_reads req d org info ->
  subscription_findUnique_org org d = Some (info_subscription info)
  /\ exists s0, subscription_findUnique_id (Subscription.id (info_subscription info)) d = Some s0.
Proof.
  intros (uid & u & _ & _ & _ & _ & _ & Hsub).
  unfold subscription_with_plan in Hsub.
  destruct (subscription_findUnique_org org d) as [s|] eqn:Es; [|discriminate].
  destruct (plan_findUnique (Subscription.planId s) d) eqn:Ep; [|discriminate].
  inversion Hsub; subst; simpl. split; [reflexivity|].
  unfold subscription_findUnique_org in Es. unfold subscription_findUnique_id.
  eapply find_witness; [exact Es|]. apply String.eqb_refl.
Qed.

Lemma stored_status_set_status org d sid st s :
  subscription_findUnique_org org d = Some s ->
  Subscription.id s = sid ->
  stored_status org
    (with_subscriptions (update_rows Subscription.id sid (Subscription.set_status st)
                           (subscriptions d)) d)
  = Some st.
Proof.
  intros Hs Hid. unfold stored_status, subscription_findUnique_org in *. simpl.
  rewrite find_update_rows by reflexivity.
  rewrite Hs. simpl. rewrite Hid, String.eqb_refl. reflexivity.
Qed.

(** What the guard does once its reads succeeded, by stored status. *)
Lemma checkSubscription_cases now req d org info :
  guard_reads req d org info ->
  let s := info_subscription info in
  let repaired st :=
    quiet (with_subscriptions
             (update_rows Subscription.id (Subscription.id s) (Subscription.set_status st)
                (subscriptions d)) d) in
  let pass := (Next (attach_subscription (Js.Obj info) (Js.Obj org) req), quiet d) in
  let deny code w := exists r, checkSubscription now req (quiet d) = (Respond r, w)
                               /\ res_status r = 403 /\ field "code" r = Some (VStr code) in
  match Subscription.status s with
  | TRIAL =>
      if date_gt now (Subscription.trialEndDate s)
      then deny "TRIAL_EXPIRED" (repaired EXPIRED)
      else checkSubscription now req (quiet d) = pass
  | ACTIVE =>
      if date_gt now (Subscription.currentPeriodEnd s)
      then deny "SUBSCRIPTION_PAST_DUE" (repaired PAST_DUE)
      else checkSubscription now req (quiet d) = pass
  | PAST_DUE =>
      if grace_over now (Subscription.currentPeriodEnd s)
      then deny "SUBSCRIPTION_SUSPENDED" (repaired SUSPENDED)
      else checkSubscription now req (quiet d) = pass
  | EXPIRED | CANCELLED | SUSPENDED => deny "SUBSCRIPTION_INACTIVE" (quiet d)
  end.
Proof.
  intros H. pose proof (guard_reads_row _ _ _ _ H) as [_ [s0 Hid]].
  destruct H as (uid & u & Hu & Ht & Hfind & Horg & Hto & Hsub).
  unfold checkSubscription, try_catch.
  rewrite Hu. cbn [Js.truthy_opt Js.or_else]. rewrite Ht. cbn [negb].
  rewrite bind_query_quiet, Hfind, Horg. cbn [Js.truthy_opt Js.or_else]. rewrite Hto.
  rewrite bind_prisma_quiet, Hsub. cbn [fst snd].
  destruct (Subscription.status (info_subscription info));
    [ destruct (date_gt now (Subscription.trialEndDate _))
    | destruct (date_gt now (Subscription.currentPeriodEnd _))
    | destruct (grace_over now (Subscription.currentPeriodEnd _))
    | | | ];
    try reflexivity;
    try (rewrite bind_prisma_quiet; unfold subscription_update; rewrite Hid; cbn [fst snd]);
    try reflexivity; eexists; repeat split; reflexivity.
Qed.

(** ** C10: a user without organization passes the whole chain *)

(** C10. For every authenticated request of a user with no organizationId,
    checkSubscription attaches a null subscription and calls next() without
    touching the database; enforceEmployeeLimit and requireFeature (for any
    feature) then pass the request through as well, so the whole chain ends
    in next() and no status, seat-limit or feature check applies. *)
Theorem no_organization_is_unrestricted (feature : string) (now : Z) (req : Request) (d : Db) :
  no_organization req d ->
  let req' := attach_subscription Js.Null (req_organizationId req) req in
  checkSubscription now req (quiet d) = (Next req', quiet d)
  /\ req_subscription req' = Js.Null
  /\ enforceEmployeeLimit req' (quiet d) = (Next req', quiet d)
  /\ requireFeature feature req' = Next req'
  /\ entitlement_chain feature now req (quiet d) = (Next req', quiet d).
Proof.
  intros (uid & Hu & Ht & Hno) req'.
  assert (Hcheck : checkSubscription now req (quiet d) = (Next req', quiet d)).
  { unfold checkSubscription, try_catch.
    rewrite Hu. cbn [Js.truthy_opt Js.or_else]. rewrite Ht. cbn [negb].
    rewrite bind_query_quiet.
    destruct (user_findUnique uid d) as [u|]; [rewrite Hno|]; reflexivity. }
  assert (Hlimit : enforceEmployeeLimit req' (quiet d) = (Next req', quiet d)) by reflexivity.
  repeat split; try assumption.
  unfold entitlement_chain. rewrite Hcheck, Hlimit. reflexivity.
Qed.

Lemma no_organization_is_unrestricted_witness :
  entitlement_chain "payroll" 0 (Fixture.request "u_loner")
    (quiet (Fixture.database (Fixture.subscription "plan_starter" EXPIRED None None) [] 30))
  = (Next (attach_subscription Js.Null Js.Undefined (Fixture.request "u_loner")),
     quiet (Fixture.database (Fixture.subscription "plan_starter" EXPIRED None None) [] 30)).
Proof.
  refine (proj2 (proj2 (proj2 (proj2
    (no_organization_is_unrestricted "payroll" 0 (Fixture.request "u_loner")
       (Fixture.database (Fixture.subscription "plan_starter" EXPIRED None None) [] 30) _))))).
  exists "u_loner". repeat split.
Defined.

(** ** C8: the grace period of a past-due subscription *)

(** C8. For a subscription stored as PAST_DUE with a period end [pe], a
    guard read at [now] leaves SUSPENDED stored exactly when [now] is
    strictly later than [pe] plus 3 days (259 200 000 ms): at exactly three
    days the stored status is still PAST_DUE, one second later it is
    SUSPENDED. *)
Theorem past_due_suspended_after_grace (now : Z) (req : Request) (d : Db) (org : string)
    (info : SubscriptionInfo) (pe : Z) :
  guard_reads req d org info ->
  Subscription.status (info_subscription info) = PAST_DUE ->
  Subscription.currentPeriodEnd (info_subscription info) = Some pe ->
  let d' := db (snd (checkSubscription now req (quiet d))) in
  (stored_status org d' = Some SUSPENDED <-> pe + 259200000 < now)
  /\ (now = pe + 259200000 -> stored_status org d' = Some PAST_DUE)
  /\ (now = pe + 259200000 + 1000 -> stored_status org d' = Some SUSPENDED).
Proof.
  intros H Hst Hpe d'.
  pose proof (guard_reads_row _ _ _ _ H) as [Hrow _].
  pose proof (checkSubscription_cases now req d org info H) as Hc.
  cbv zeta in Hc. rewrite Hst, Hpe in Hc. unfold grace_over, gracePeriod in Hc.
  assert (Hd' : stored_status org d'
                = Some (if pe + 3 * 24 * 60 * 60 * 1000 <? now then SUSPENDED else PAST_DUE)).
  { subst d'. destruct (pe + 3 * 24 * 60 * 60 * 1000 <? now).
    - destruct Hc as (r & -> & _). cbn [snd db quiet].
      eapply stored_status_set_status; [exact Hrow | reflexivity].
    - rewrite Hc. cbn [snd db quiet]. unfold stored_status. rewrite Hrow.
      simpl. now rewrite Hst. }
  rewrite Hd'. repeat split.
  - destruct (pe + 3 * 24 * 60 * 60 * 1000 <? now) eqn:E; [lia | discriminate].
  - intros Hlt. destruct (pe + 3 * 24 * 60 * 60 * 1000 <? now) eqn:E; [reflexivity | lia].
  - intros ->. destruct (pe + 3 * 24 * 60 * 60 * 1000 <? pe + 259200000) eqn:E;
      [lia | reflexivity].
  - intros ->. destruct (pe + 3 * 24 * 60 * 60 * 1000 <? pe + 259200000 + 1000) eqn:E;
      [reflexivity | lia].
Qed.

Lemma past_due_suspended_after_grace_witness :
  let d := Fixture.database
             (Fixture.subscription "plan_starter" PAST_DUE None (Some (30 * Fixture.day))) [] 3 in
  stored_status Fixture.org
    (db (snd (checkSubscription (33 * Fixture.day + 1000) (Fixture.request "u_admin") (quiet d))))
  = Some SUSPENDED.
Proof.
  intro d.
  refine (proj2 (proj2
    (past_due_suspended_after_grace (33 * Fixture.day + 1000) (Fixture.request "u_admin") d
       Fixture.org {| info_subscription := _; info_plan := Fixture.starter |}
       (30 * Fixture.day) _ _ _)) _).
  - exists "u_admin", Fixture.admin. repeat split.
  - reflexivity.
  - reflexivity.
  - reflexivity.
Defined.

(** ** C5: what the guard denies *)

(** C5, as the claim states it, fails: a subscription stored as PAST_DUE
    one day after its period end (inside the three-day grace window) is
    passed through by the guard, with the subscription attached, and is not
    answered with 403. *)
Lemma past_due_in_grace_passes :
  stored_status Fixture.org
    (Fixture.database
       (Fixture.subscription "plan_starter" PAST_DUE None (Some (30 * Fixture.day))) [] 3)
  = Some PAST_DUE
  /\ checkSubscription (31 * Fixture.day) (Fixture.request "u_admin")
       (quiet (Fixture.database
          (Fixture.subscription "plan_starter" PAST_DUE None (Some (30 * Fixture.day))) [] 3))
     = (Next (attach_subscription
                (Js.Obj {| info_subscription :=
                             Fixture.subscription "plan_starter" PAST_DUE None
                               (Some (30 * Fixture.day));
                           info_plan := Fixture.starter |})
                (Js.Obj Fixture.org) (Fixture.request "u_admin")),
        quiet (Fixture.database
          (Fixture.subscription "plan_starter" PAST_DUE None (Some (30 * Fixture.day))) [] 3)).
Proof. split; vm_compute; reflexivity. Qed.

(** C5, amended. What the guard does is fixed by the status it reads and
    the clock.  It answers 403, and does not call next(), exactly in these
    cases: a TRIAL whose trial end has passed (code TRIAL_EXPIRED, EXPIRED
    is stored); an ACTIVE whose period end has passed (code
    SUBSCRIPTION_PAST_DUE, PAST_DUE is stored); a PAST_DUE whose period end
    lies more than three days back (code SUBSCRIPTION_SUSPENDED, SUSPENDED
    is stored); a stored EXPIRED, CANCELLED or SUSPENDED (code
    SUBSCRIPTION_INACTIVE, nothing written).  In every other case (a TRIAL
    or ACTIVE that has not run out, a PAST_DUE within the three days or
    without period end) the request is passed through with the
    subscription attached and nothing is written.  In particular, whenever
    the status left stored is EXPIRED, CANCELLED or SUSPENDED, or is
    PAST_DUE repaired from ACTIVE, the answer is the 403 of the status
    read. *)
Theorem guard_denies_by_repaired_status (now : Z) (req : Request) (d : Db) (org : string)
    (info : SubscriptionInfo) :
  guard_reads req d org info ->
  let s := info_subscription info in
  let stored := Subscription.status s in
  let out := checkSubscription now req (quiet d) in
  let repaired := stored_status org (db (snd out)) in
  let passes := out = (Next (attach_subscription (Js.Obj info) (Js.Obj org) req), quiet d) in
  (stored = TRIAL ->
     if date_gt now (Subscription.trialEndDate s)
     then denied "TRIAL_EXPIRED" (fst out) /\ repaired = Some EXPIRED
     else passes)
  /\ (stored = ACTIVE ->
      if date_gt now (Subscription.currentPeriodEnd s)
      then denied "SUBSCRIPTION_PAST_DUE" (fst out) /\ repaired = Some PAST_DUE
      else passes)
  /\ (stored = PAST_DUE ->
      if grace_over now (Subscription.currentPeriodEnd s)
      then denied "SUBSCRIPTION_SUSPENDED" (fst out) /\ repaired = Some SUSPENDED
      else passes)
  /\ (stored = EXPIRED \/ stored = CANCELLED \/ stored = SUSPENDED ->
      denied "SUBSCRIPTION_INACTIVE" (fst out) /\ snd out = quiet d)
  /\ ((repaired = Some EXPIRED \/ repaired = Some CANCELLED \/ repaired = Some SUSPENDED
       \/ (repaired = Some PAST_DUE /\ stored = ACTIVE)) ->
      exists r, fst out = Respond r /\ res_status r = 403
                /\ field "code" r = Some (VStr (denial_code stored))).
Proof.
  intros H s stored out repaired passes.
  pose proof (guard_reads_row _ _ _ _ H) as [Hrow _].
  pose proof (checkSubscription_cases now req d org info H) as Hc.
  cbv zeta in Hc. fold s in Hc, Hrow. fold stored in Hc. fold out in Hc.
  assert (Hkeep : passes -> repaired = Some stored).
  { intros E. subst repaired passes. rewrite E. cbn [snd db quiet].
    unfold stored_status. now rewrite Hrow. }
  assert (Hdeny : forall code st,
            (exists r, out = (Respond r,
                              quiet (with_subscriptions
                                       (update_rows Subscription.id (Subscription.id s)
                                          (Subscription.set_status st) (subscriptions d)) d))
                       /\ res_status r = 403 /\ field "code" r = Some (VStr code)) ->
            denied code (fst out) /\ repaired = Some st).
  { intros code st (r & E & H403 & Hcode). subst repaired. rewrite E. cbn [fst snd db quiet].
    split; [exists r; now repeat split|].
    eapply stored_status_set_status; [exact Hrow | reflexivity]. }
  repeat split.
  - intros Es. rewrite Es in Hc.
    destruct (date_gt now (Subscription.trialEndDate s)); [now apply Hdeny | exact Hc].
  - intros Es. rewrite Es in Hc.
    destruct (date_gt now (Subscription.currentPeriodEnd s)); [now apply Hdeny | exact Hc].
  - intros Es. rewrite Es in Hc.
    destruct (grace_over now (Subscription.currentPeriodEnd s)); [now apply Hdeny | exact Hc].
  - destruct H0 as [Es|[Es|Es]]; rewrite Es in Hc; destruct Hc as (r & E & H403 & Hcode);
      rewrite E; exists r; now repeat split.
  - destruct H0 as [Es|[Es|Es]]; rewrite Es in Hc; destruct Hc as (r & E & H403 & Hcode);
      rewrite E; reflexivity.
  - intros Hrep.
    destruct stored eqn:Es;
      [ destruct (date_gt now (Subscription.trialEndDate _))
      | destruct (date_gt now (Subscription.currentPeriodEnd _))
      | destruct (grace_over now (Subscription.currentPeriodEnd _))
      | | | ];
      try (destruct Hc as (r & Hout & H403 & Hcode); exists r; rewrite Hout;
           repeat split; assumption);
      specialize (Hkeep Hc); rewrite Hkeep in Hrep;
      destruct Hrep as [E|[E|[E|[E E']]]]; discriminate.
Qed.

(** An ACTIVE subscription whose period ended on day 30, read on day 100,
    and a trial that ended on day 14, read on day 15. *)
Lemma guard_denies_by_repaired_status_witness :
  let lapsed := Fixture.subscription "plan_starter" ACTIVE None (Some (30 * Fixture.day)) in
  let trial := Fixture.subscription "plan_starter" TRIAL (Some (14 * Fixture.day)) None in
  let read now s :=
    checkSubscription now (Fixture.request "u_admin") (quiet (Fixture.database s [] 3)) in
  (denied "SUBSCRIPTION_PAST_DUE" (fst (read (100 * Fixture.day) lapsed))
   /\ stored_status Fixture.org (db (snd (read (100 * Fixture.day) lapsed))) = Some PAST_DUE)
  /\ (denied "TRIAL_EXPIRED" (fst (read (15 * Fixture.day) trial))
      /\ stored_status Fixture.org (db (snd (read (15 * Fixture.day) trial))) = Some EXPIRED).
Proof.
  intros lapsed trial read. split.
  - refine (proj1 (proj2
      (guard_denies_by_repaired_status (100 * Fixture.day) (Fixture.request "u_admin")
         (Fixture.database lapsed [] 3) Fixture.org
         {| info_subscription := lapsed; info_plan := Fixture.starter |} _)) _).
    + exists "u_admin", Fixture.admin. repeat split.
    + reflexivity.
  - refine (proj1
      (guard_denies_by_repaired_status (15 * Fixture.day) (Fixture.request "u_admin")
         (Fixture.database trial [] 3) Fixture.org
         {| info_subscription := trial; info_plan := Fixture.starter |} _) _).
    + exists "u_admin", Fixture.admin. repeat split.
    + reflexivity.
Defined.

(** ** C7: the seat check of change-plan *)

Lemma change_plan_cases uid pid d org newPlan info :
  change_plan_reads uid pid d org newPlan info ->
  let s := info_subscription info in
  let N := Plan.maxEmployees newPlan in
  let c := countActiveSeats org d in
  let out := change_plan uid (Some pid) (quiet d) in
  let updated f :=
    quiet (with_subscriptions (update_rows Subscription.id (Subscription.id s) f
                                 (subscriptions d)) d) in
  if negb (N =? -1) && (N <? c) then out = (cannot_downgrade c N, quiet d)
  else
    res_status (fst out) = 200 /\ field "success" (fst out) = Some (VBool true) /\
    match Subscription.status s with
    | TRIAL => snd out = updated (Subscription.set_planId (Plan.id newPlan))
    | _ =>
        if PrimFloat.ltb (Plan.monthlyPrice (info_plan info)) (Plan.monthlyPrice newPlan)
        then snd out = quiet d /\ field "requiresPayment" (fst out) = Some (VBool true)
        else snd out = updated (Subscription.set_metadata (Some (pending_change newPlan s)))
             /\ field "requiresPayment" (fst out) = None
    end.
Proof.
  intros (Hp & u & Hfind & Horg & Hto & Hplan & Hact & Hsub).
  assert (Hid : exists s0,
            subscription_findUnique_id (Subscription.id (info_subscription info)) d = Some s0).
  { unfold subscription_with_plan in Hsub.
    destruct (subscription_findUnique_org org d) as [s|] eqn:Es; [|discriminate].
    destruct (plan_findUnique (Subscription.planId s) d); [|discriminate].
    inversion Hsub; subst; simpl.
    eapply find_witness; [exact Es | apply String.eqb_refl]. }
  destruct Hid as [s0 Hid].
  cbv zeta. unfold change_plan, try_catch.
  cbn [Js.truthy_opt Js.or_else]. rewrite Hp. cbn [negb].
  rewrite bind_query_quiet, Hfind, Horg. cbn [Js.truthy_opt Js.or_else]. rewrite Hto.
  cbn [negb]. rewrite bind_query_quiet, Hplan, Hact. cbn [negb].
  rewrite bind_prisma_quiet, Hsub. cbn [fst snd].
  destruct (Plan.maxEmployees newPlan =? -1); cbn [negb andb];
    [| rewrite bind_query_quiet; destruct (Plan.maxEmployees newPlan <? countActiveSeats org d);
       [reflexivity|] ];
    (destruct (Subscription.status (info_subscription info));
     [ | destruct (PrimFloat.ltb _ _) .. ];
     try (rewrite bind_prisma_quiet; unfold subscription_update; rewrite Hid; cbn [fst snd]);
     repeat split; reflexivity).
Qed.

(** C7. With the reads of change-plan succeeding and a target plan of
    ceiling [N]: when [N] is not -1 and the active-seat count is strictly
    greater than [N], the answer is the 400 "Cannot downgrade" error and the
    database (the current plan included) is untouched; when the count is at
    most [N], or when [N] is -1, the request is not rejected (it answers 200
    with success). *)
Theorem change_plan_seat_limit (uid pid : string) (d : Db) (org : string)
    (newPlan : Plan.t) (info : SubscriptionInfo) :
  change_plan_reads uid pid d org newPlan info ->
  let N := Plan.maxEmployees newPlan in
  let c := countActiveSeats org d in
  let out := change_plan uid (Some pid) (quiet d) in
  (N <> -1 -> N < c ->
     fst out = cannot_downgrade c N /\ res_status (fst out) = 400
     /\ field "error" (fst out) = Some (VStr "Cannot downgrade")
     /\ snd out = quiet d)
  /\ (N <> -1 -> c <= N ->
        res_status (fst out) = 200 /\ field "success" (fst out) = Some (VBool true))
  /\ (N = -1 ->
        res_status (fst out) = 200 /\ field "success" (fst out) = Some (VBool true)).
Proof.
  intros H N c out.
  pose proof (change_plan_cases uid pid d org newPlan info H) as Hc.
  cbv zeta in Hc. fold N c out in Hc.
  split; [|split].
  - intros Hn Hlt.
    assert (E : negb (N =? -1) && (N <? c) = true)
      by (apply andb_true_iff; split; [apply negb_true_iff|]; lia).
    rewrite E in Hc. rewrite Hc. repeat split.
  - intros Hn Hle.
    assert (E : negb (N =? -1) && (N <? c) = false)
      by (apply andb_false_iff; right; lia).
    rewrite E in Hc. split; apply Hc.
  - intros Hn.
    assert (E : negb (N =? -1) && (N <? c) = false)
      by (apply andb_false_iff; left; apply negb_false_iff; lia).
    rewrite E in Hc. split; apply Hc.
Qed.

(** Professional (200 seats) to Starter (25 seats) with 31 active seats. *)
Lemma change_plan_seat_limit_witness :
  let d := Fixture.database
             (Fixture.subscription "plan_pro" ACTIVE None (Some (30 * Fixture.day))) [] 30 in
  fst (change_plan "u_admin" (Some "plan_starter") (quiet d)) = cannot_downgrade 31 25
  /\ res_status (fst (change_plan "u_admin" (Some "plan_starter") (quiet d))) = 400
  /\ field "error" (fst (change_plan "u_admin" (Some "plan_starter") (quiet d)))
     = Some (VStr "Cannot downgrade")
  /\ snd (change_plan "u_admin" (Some "plan_starter") (quiet d)) = quiet d.
Proof.
  intro d.
  refine (proj1
    (change_plan_seat_limit "u_admin" "plan_starter" d Fixture.org Fixture.starter
       {| info_subscription := _; info_plan := Fixture.professional |} _) _ _).
  - split; [reflexivity|]. exists Fixture.admin. repeat split.
  - discriminate.
  - vm_compute. reflexivity.
Defined.

(** ** Relating the database before and after a handler *)

Section Preserves.
Variable R : Db -> Db -> Prop.
Hypothesis R_refl : forall d, R d d.
Hypothesis R_trans : forall a b c, R a b -> R b c -> R a c.

Lemma preserves_ret {A} (a : A) : preserves R (ret a).
Proof. intros w. apply R_refl. Qed.

Lemma preserves_throw {A} : preserves R (@throw A).
Proof. intros w. apply R_refl. Qed.

Lemma preserves_lift {A} (r : Res A) : preserves R (lift r).
Proof. intros w. apply R_refl. Qed.

Lemma preserves_prisma {A} (f : Db -> Res A * Db) :
  (forall d, R d (snd (f d))) -> preserves R (prisma f).
Proof.
  intros Hf w. unfold prisma.
  destruct (faults w) as [|[|] fs]; simpl; try apply R_refl;
    specialize (Hf (db w)); destruct (f (db w)); exact Hf.
Qed.

Lemma preserves_query {A} (f : Db -> A) : preserves R (query f).
Proof. apply preserves_prisma. intros d. apply R_refl. Qed.

Lemma preserves_bind {A B} (m : M A) (k : A -> M B) :
  preserves R m -> (forall a, preserves R (k a)) -> preserves R (bind m k).
Proof.
  intros Hm Hk w. unfold bind. specialize (Hm w).
  destruct (m w) as [[a|] w1]; simpl in *; [|exact Hm].
  eapply R_trans; [exact Hm | apply Hk].
Qed.

Lemma preserves_try_catch {A} (m : M A) (h : A) w :
  preserves R m -> R (db w) (db (snd (try_catch m h w))).
Proof.
  intros Hm. unfold try_catch. specialize (Hm w). destruct (m w) as [[a|] w1]; exact Hm.
Qed.
End Preserves.

Lemma subscription_with_plan_reads org : read_only (subscription_with_plan org).
Proof.
  intros d. unfold subscription_with_plan.
  destruct (subscription_findUnique_org org d); [|reflexivity].
  destruct (plan_findUnique _ d); reflexivity.
Qed.

Lemma payment_with_subscription_reads oid : read_only (payment_with_subscription oid).
Proof.
  intros d. unfold payment_with_subscription.
  destruct (payment_findUnique_order oid d); [|reflexivity].
  destruct (subscription_findUnique_id _ d); [|reflexivity].
  destruct (plan_findUnique _ d); reflexivity.
Qed.

Lemma subscription_info_id_reads sid : read_only (subscription_info_id sid).
Proof.
  intros d. unfold subscription_info_id.
  destruct (subscription_findUnique_id sid d); [|reflexivity].
  destruct (plan_findUnique _ d); reflexivity.
Qed.

(** Splits a handler into its steps; what is left are the writes. *)
Ltac preserve_steps Hrefl Htrans :=
  repeat first
    [ apply (preserves_ret _ Hrefl)
    | apply (preserves_throw _ Hrefl)
    | apply (preserves_lift _ Hrefl)
    | apply (preserves_query _ Hrefl)
    | apply (preserves_bind _ Htrans); [|intros]
    | match goal with
      | |- preserves _ (match ?x with _ => _ end) => destruct x
      end
    | progress cbv zeta ].

(** ** The guard never applies a plan change *)

Lemma same_plans_refl d : same_plans d d.
Proof. reflexivity. Qed.

Lemma same_plans_trans a b c : same_plans a b -> same_plans b c -> same_plans a c.
Proof. unfold same_plans. congruence. Qed.

Lemma set_status_same_plans sid st d :
  same_plans d (snd (subscription_update sid (Subscription.set_status st) d)).
Proof.
  unfold subscription_update, same_plans.
  destruct (subscription_findUnique_id sid d); [|reflexivity].
  simpl. unfold update_rows. rewrite map_map. apply map_ext.
  intros s. destruct (String.eqb (Subscription.id s) sid); reflexivity.
Qed.

(** Whatever the time, the request and the fault schedule, a guard read
    leaves every subscription's plan and pending-change record as stored. *)
Lemma checkSubscription_keeps_plans now req w :
  same_plans (db w) (db (snd (checkSubscription now req w))).
Proof.
  unfold checkSubscription. apply preserves_try_catch.
  preserve_steps same_plans_refl same_plans_trans;
    try (apply (preserves_prisma _ same_plans_refl); intros d0;
         first [ rewrite subscription_with_plan_reads; apply same_plans_refl
               | apply set_status_same_plans ]).
Qed.

(** ** C4: which statuses the operations write *)

Lemma webhook_world env t req w :
  snd (webhook env t req w)
  = if Js.truthy_opt (x_razorpay_signature req)
       && negb (verifyWebhookSignature env (Json.stringify (wh_body req))
                  (Js.or_else (x_razorpay_signature req) ""))
    then w else snd (webhook_switch t (wh_body req) w).
Proof.
  unfold webhook, try_catch. cbv zeta. destruct (_ && _); [reflexivity|].
  unfold bind. destruct (webhook_switch t (wh_body req) w) as [[u|] w1]; reflexivity.
Qed.

Lemma Forall2_writes_refl t l : Forall2 (writes t) l l.
Proof. induction l; constructor; [now left | assumption]. Qed.

Lemma Forall2_writes_trans t l1 : forall l2 l3,
  Forall2 (writes t) l1 l2 -> Forall2 (writes t) l2 l3 -> Forall2 (writes t) l1 l3.
Proof.
  induction l1 as [|p l1 IH]; intros l2 l3 H12 H23.
  - inversion H12; subst. inversion H23; subst. constructor.
  - inversion H12 as [|? p2 ? l2' Hp12 Hl12]; subst.
    inversion H23 as [|? p3 ? l3' Hp23 Hl23]; subst.
    constructor; [|eapply IH; eassumption].
    destruct Hp12 as [->|[Hid Hst]]; [exact Hp23|].
    destruct Hp23 as [->|[Hid' Hst']]; [right; now split|].
    right. split; congruence.
Qed.

Lemma payments_rel_refl target d : payments_rel target d d.
Proof. destruct target; simpl; [apply Forall2_writes_refl | reflexivity]. Qed.

Lemma payments_rel_trans target a b c :
  payments_rel target a b -> payments_rel target b c -> payments_rel target a c.
Proof.
  destruct target; simpl; [apply Forall2_writes_trans | congruence].
Qed.

Lemma payments_rel_same target d d' : payments d' = payments d -> payments_rel target d d'.
Proof.
  intros E. destruct target; simpl; [rewrite E; apply Forall2_writes_refl | exact E].
Qed.

Lemma payment_update_writes t pid f d :
  (forall p, Payment.id (f p) = Payment.id p /\ Payment.status (f p) = t) ->
  payments_rel (Some t) d (snd (payment_update pid f d)).
Proof.
  intros Hf. unfold payment_update.
  destruct (find _ (payments d)); [|apply payments_rel_refl].
  simpl. induction (payments d) as [|p l IH]; simpl; constructor; [|exact IH].
  destruct (String.eqb (Payment.id p) pid); [right; apply Hf | now left].
Qed.

Lemma subscription_update_payments target sid f d :
  payments_rel target d (snd (subscription_update sid f d)).
Proof.
  apply payments_rel_same. unfold subscription_update.
  destruct (subscription_findUnique_id sid d); reflexivity.
Qed.

Lemma preserves_bind_lift {A B} (R : Db -> Db -> Prop) (r : Res A) (k : A -> M B) :
  (forall d, R d d) ->
  (forall a, r = Ok a -> preserves R (k a)) -> preserves R (bind (lift r) k).
Proof.
  intros Hrefl Hk w. rewrite bind_lift. destruct r as [a|]; [now apply Hk | apply Hrefl].
Qed.

Lemma verify_payment_writes env amb uid body w :
  payments_rel (Some CAPTURED) (db w) (db (snd (verify_payment env amb uid body w))).
Proof.
  unfold verify_payment. apply preserves_try_catch.
  preserve_steps (payments_rel_refl (Some CAPTURED)) (payments_rel_trans (Some CAPTURED));
    apply (preserves_prisma _ (payments_rel_refl (Some CAPTURED))); intros d0.
  - rewrite payment_with_subscription_reads. apply payments_rel_refl.
  - apply payment_update_writes. intros q. split; reflexivity.
  - apply subscription_update_payments.
  - apply payments_rel_same. reflexivity.
  - apply payments_rel_same. reflexivity.
  - rewrite subscription_info_id_reads. apply payments_rel_refl.
Qed.

Lemma webhook_switch_writes t event :
  preserves (payments_rel (event_status event)) (webhook_switch t event).
Proof.
  unfold webhook_switch, event_status.
  apply preserves_bind_lift; [apply payments_rel_refl|].
  intros eventType ->.
  destruct (is_event "payment.captured" eventType);
    [| destruct (is_event "payment.failed" eventType);
       [| destruct (is_event "refund.created" eventType) ] ];
    unfold payload_entity;
    match goal with
    | |- preserves (payments_rel ?tg) _ =>
        preserve_steps (payments_rel_refl tg) (payments_rel_trans tg);
        apply (preserves_prisma _ (payments_rel_refl tg)); intros d0;
        apply payment_update_writes; intros q; split; reflexivity
    end.
Qed.

Lemma webhook_writes env t req w :
  payments_rel (event_status (wh_body req)) (db w) (db (snd (webhook env t req w))).
Proof.
  unfold webhook. apply preserves_try_catch. cbv zeta.
  destruct (_ && _).
  - apply preserves_ret. apply payments_rel_refl.
  - apply preserves_bind; [apply payments_rel_trans | apply webhook_switch_writes |].
    intros _. apply preserves_ret. apply payments_rel_refl.
Qed.

Lemma writes_not_created t p p' :
  t <> CREATED -> writes t p p' -> Payment.status p' = CREATED -> Payment.status p = CREATED.
Proof. intros Ht [->|[_ Hst]] H; [exact H | congruence]. Qed.

Lemma event_status_not_created event t : event_status event = Some t -> t <> CREATED.
Proof.
  unfold event_status. destruct (Json.get "event" (Some event)) as [ty|]; [|discriminate].
  destruct (is_event "payment.captured" ty); [intros [= <-]; discriminate|].
  destruct (is_event "payment.failed" ty); [intros [= <-]; discriminate|].
  destruct (is_event "refund.created" ty); [intros [= <-]; discriminate|discriminate].
Qed.

(** *** The payments the handlers leave CREATED *)

Lemma created_unpaid_same d d' :
  payments d' = payments d -> created_unpaid d -> created_unpaid d'.
Proof. unfold created_unpaid. now intros ->. Qed.

Lemma payment_update_created_unpaid pid f d :
  (forall p, Payment.status (f p) <> CREATED) ->
  created_unpaid d -> created_unpaid (snd (payment_update pid f d)).
Proof.
  intros Hf H. unfold payment_update. destruct (find _ (payments d)); [|exact H].
  unfold created_unpaid in *. cbn [snd payments with_payments]. unfold update_rows.
  apply Forall_map. eapply Forall_impl; [|exact H]. intros p Hp.
  destruct (String.eqb (Payment.id p) pid); [|exact Hp].
  intros E. exfalso. exact (Hf p E).
Qed.

(** Closes the goals [preserve_steps] leaves for [created_unpaid]. *)
Ltac created_unpaid_writes :=
  apply (preserves_prisma (fun d d' => created_unpaid d -> created_unpaid d')
           (fun d H => H));
  intros ?;
  first
    [ rewrite subscription_with_plan_reads; exact (fun H => H)
    | rewrite payment_with_subscription_reads; exact (fun H => H)
    | rewrite subscription_info_id_reads; exact (fun H => H)
    | apply payment_update_created_unpaid; intros ?; discriminate
    | apply created_unpaid_same; unfold subscription_update;
      match goal with |- context [subscription_findUnique_id ?a ?b] =>
        destruct (subscription_findUnique_id a b) end; reflexivity
    | apply created_unpaid_same; reflexivity
    | intros H; unfold created_unpaid in *; cbn [snd payment_create payments with_payments];
      apply Forall_app; split; [exact H | constructor; [reflexivity | constructor]] ].

Lemma run_op_created_unpaid o w :
  created_unpaid (db w) -> created_unpaid (db (run_op o w)).
Proof.
  set (R := fun d d' => created_unpaid d -> created_unpaid d').
  assert (Hrefl : forall d, R d d) by (intros d H; exact H).
  assert (Htrans : forall a b c, R a b -> R b c -> R a c) by (unfold R; auto).
  change (R (db w) (db (run_op o w))).
  destruct o; cbn [run_op].
  - unfold checkSubscription. apply preserves_try_catch.
    preserve_steps Hrefl Htrans; created_unpaid_writes.
  - unfold enforceEmployeeLimit. apply preserves_try_catch.
    preserve_steps Hrefl Htrans.
  - unfold create_order. apply preserves_try_catch.
    preserve_steps Hrefl Htrans; created_unpaid_writes.
  - unfold verify_payment. apply preserves_try_catch.
    preserve_steps Hrefl Htrans; created_unpaid_writes.
  - unfold change_plan. apply preserves_try_catch.
    preserve_steps Hrefl Htrans; created_unpaid_writes.
  - rewrite webhook_world. destruct (_ && _); [apply Hrefl|].
    assert (Hp : preserves R (webhook_switch t (wh_body req))); [|apply Hp].
    unfold webhook_switch, payload_entity.
    preserve_steps Hrefl Htrans; created_unpaid_writes.
  - unfold usage. apply preserves_try_catch.
    preserve_steps Hrefl Htrans; created_unpaid_writes.
  - unfold list_invoices. apply preserves_try_catch.
    preserve_steps Hrefl Htrans.
Qed.

Lemma run_ops_created_unpaid ops : forall w,
  created_unpaid (db w) -> created_unpaid (db (run_ops ops w)).
Proof.
  induction ops as [|o ops IH]; intros w H; cbn [run_ops fold_left]; [exact H|].
  apply IH. now apply run_op_created_unpaid.
Qed.

Lemma Forall2_diag {A} (P : A -> A -> Prop) (l : list A) :
  (forall a, P a a) -> Forall2 P l l.
Proof. intros H. induction l; constructor; auto. Qed.

(** With unique payment ids, the handler of refund.created leaves every
    CREATED payment as it is: the payment it looks up carries the gateway
    payment id of the refund, which no CREATED payment does. *)
Lemma refund_keeps_created t event w :
  event_status event = Some REFUNDED ->
  NoDup (map Payment.id (payments (db w))) -> created_unpaid (db w) ->
  Forall2 (fun p p' => Payment.status p = CREATED -> p' = p)
    (payments (db w)) (payments (db (snd (webhook_switch t event w)))).
Proof.
  destruct w as [d fs]. cbn [db]. intros Hev Hnd Hinv.
  assert (Hsame : Forall2 (fun p p' => Payment.status p = CREATED -> p' = p)
                    (payments d) (payments d)) by (apply Forall2_diag; auto).
  unfold event_status in Hev. unfold webhook_switch, payload_entity.
  destruct (Json.get "event" (Some event)) as [ty|] eqn:Ety; [|discriminate].
  destruct (is_event "payment.captured" ty) eqn:E1; [discriminate|].
  destruct (is_event "payment.failed" ty) eqn:E2; [discriminate|].
  destruct (is_event "refund.created" ty) eqn:E3; [|discriminate].
  destruct (Json.get "payload" (Some event)) as [payload|] eqn:P1;
    [|run_lifts; exact Hsame].
  destruct (Json.get "refund" payload) as [inner|] eqn:P2; [|run_lifts; exact Hsame].
  destruct (Json.get "entity" inner) as [entity|] eqn:P3; [|run_lifts; exact Hsame].
  destruct (Json.get "payment_id" entity) as [payment_id|] eqn:P4;
    [|run_lifts; exact Hsame].
  destruct (unique_key payment_id) as [k|] eqn:P5; [|run_lifts; exact Hsame].
  run_lifts. unfold query. step_prisma; try exact Hsame.
  all: destruct (payment_findUnique_paymentId k d) as [p|] eqn:Ep; [|exact Hsame].
  all: rewrite prisma_run.
  all: repeat match goal with
       | |- context [match ?l with [] => _ | _ :: _ => _ end] =>
           is_var l; destruct l as [|[|] ?]
       end; cbn [fst snd db]; try exact Hsame.
  all: unfold payment_findUnique_paymentId in Ep; apply find_some in Ep;
    destruct Ep as [Hin Hkey].
  all: unfold payment_update; destruct (find _ (payments d)); cbn [snd]; [|exact Hsame].
  all: cbn [payments with_payments].
  all: eapply Forall2_impl;
    [| apply (update_rows_one Payment.id (refund_by_webhook t) _ p Hnd Hin) ].
  all: intros r r' [->|[-> ->]] Hst; [reflexivity|].
  all: unfold created_unpaid in Hinv; rewrite Forall_forall in Hinv.
  all: rewrite (Hinv p Hin Hst) in Hkey; discriminate.
Qed.

(** C4, as the claim states it, fails: a payment.failed event (properly
    signed) for the order of a CAPTURED payment rewrites its status to
    FAILED, and a payment.captured event for the order of a FAILED payment
    rewrites its status to CAPTURED. *)
Lemma captured_payment_marked_failed :
  let d := Fixture.database
             (Fixture.subscription "plan_pro" ACTIVE None (Some (30 * Fixture.day)))
             [Fixture.checkout 1499 CAPTURED] 3 in
  let event := Event.payment "payment.failed" "order_1" "pay_2" in
  let d' := Fixture.database
              (Fixture.subscription "plan_pro" ACTIVE None (Some (30 * Fixture.day)))
              [Fixture.checkout 1499 FAILED] 3 in
  let event' := Event.payment "payment.captured" "order_1" "pay_3" in
  (map Payment.status (payments d) = [CAPTURED]
   /\ map Payment.status
        (payments (db (snd (webhook Fixture.env (2 * Fixture.day)
                              (Event.signed Fixture.env (Json.stringify event) event)
                              (quiet d)))))
      = [FAILED])
  /\ (map Payment.status (payments d') = [FAILED]
      /\ map Payment.status
           (payments (db (snd (webhook Fixture.env (2 * Fixture.day)
                                 (Event.signed Fixture.env (Json.stringify event') event')
                                 (quiet d')))))
         = [CAPTURED]).
Proof. vm_compute. repeat split. Qed.

(** C4, amended. Each operation writes one fixed status, whatever the
    status the payment has: after verify-payment every payment row is as
    before or has status CAPTURED; after a webhook request every row is as
    before or has the status of the event's handler (CAPTURED for
    payment.captured, FAILED for payment.failed, REFUNDED for
    refund.created), and the table is as before for any other event.  In
    no case does a payment that was not CREATED become CREATED.  This
    holds under every fault schedule.

    From CREATED a payment moves only to CAPTURED or FAILED.  No handler
    leaves a CREATED payment with a gateway payment id (create-order
    stores none, and one is written only together with CAPTURED or
    FAILED): this holds after every history of requests from a database
    where it holds, the empty one for instance.  On such a database, with
    payment ids unique, every payment that is CREATED is CREATED, CAPTURED
    or FAILED after verify-payment and after any webhook request, under
    every fault schedule. *)
Theorem payment_status_writes (env : Env) (amb : Ambient) (uid : string)
    (body : VerifyPaymentBody) (t : Z) (req : WebhookRequest) (ops : list Op) (w : World) :
  let after_verify := db (snd (verify_payment env amb uid body w)) in
  let after_webhook := db (snd (webhook env t req w)) in
  Forall2 (writes CAPTURED) (payments (db w)) (payments after_verify)
  /\ payments_rel (event_status (wh_body req)) (db w) after_webhook
  /\ Forall2 (fun p p' => Payment.status p' = CREATED -> Payment.status p = CREATED)
       (payments (db w)) (payments after_verify)
  /\ Forall2 (fun p p' => Payment.status p' = CREATED -> Payment.status p = CREATED)
       (payments (db w)) (payments after_webhook)
  /\ (payments (db w) = [] -> created_unpaid (db w))
  /\ (created_unpaid (db w) -> created_unpaid (db (run_ops ops w)))
  /\ (NoDup (map Payment.id (payments (db w))) -> created_unpaid (db w) ->
      Forall2 from_created (payments (db w)) (payments after_verify)
      /\ Forall2 from_created (payments (db w)) (payments after_webhook)).
Proof.
  cbv zeta.
  pose proof (verify_payment_writes env amb uid body w) as Hv.
  pose proof (webhook_writes env t req w) as Hw.
  simpl in Hv. split; [exact Hv|]. split; [exact Hw|]. split; [|split].
  - eapply Forall2_impl; [|exact Hv]. intros p p'. apply writes_not_created. discriminate.
  - destruct (event_status (wh_body req)) as [tg|] eqn:E; simpl in Hw.
    + eapply Forall2_impl; [|exact Hw]. intros p p'. apply writes_not_created.
      eapply event_status_not_created; exact E.
    + rewrite Hw. clear. induction (payments (db w)); constructor; auto.
  - split; [|split].
    + unfold created_unpaid. intros ->. constructor.
    + apply run_ops_created_unpaid.
    + intros Hnd Hinv. split.
      * eapply Forall2_impl; [|exact Hv]. intros p p' [->|[_ Hst]] Hc; [now left|].
        right. now left.
      * destruct (event_status (wh_body req)) as [[| | |]|] eqn:E; simpl in Hw.
        -- exfalso. now apply (event_status_not_created _ _ E).
        -- eapply Forall2_impl; [|exact Hw]. intros p p' [->|[_ Hst]] Hc; [now left|].
           right. now left.
        -- eapply Forall2_impl; [|exact Hw]. intros p p' [->|[_ Hst]] Hc; [now left|].
           right. now right.
        -- rewrite webhook_world. destruct (_ && _).
           ++ apply Forall2_diag. intros p Hc. now left.
           ++ eapply Forall2_impl; [|apply (refund_keeps_created t _ w E Hnd Hinv)].
              intros p p' Hk Hc. rewrite (Hk Hc). now left.
        -- rewrite Hw. apply Forall2_diag. intros p Hc. now left.
Qed.

(** A refund event for the captured payment of the fixture tenant, which
    has an open order besides: the open order stays CREATED. *)
Lemma payment_status_writes_witness :
  let paid := capture_by_verify "pay_1" "sig" (Some "card") Fixture.day
                (Fixture.checkout 1499 CREATED) in
  let open := Payment.mk "pay_row_2" "sub_1" 1499 "INR" "order_2" None None CREATED None
                "rcpt_000001_1" "Professional Plan - Monthly Subscription"
                None None None None in
  let d := Fixture.database
             (Fixture.subscription "plan_pro" ACTIVE None (Some (30 * Fixture.day)))
             [paid; open] 3 in
  let event := Json.JObj
                 [("event", Json.JStr "refund.created");
                  ("payload", Json.JObj
                     [("refund", Json.JObj
                        [("entity", Json.JObj [("payment_id", Json.JStr "pay_1")])])])] in
  Forall2 from_created (payments d)
    (payments (db (snd (webhook Fixture.env (2 * Fixture.day) (Event.unsigned event)
                          (quiet d)))))
  /\ map Payment.status
       (payments (db (snd (webhook Fixture.env (2 * Fixture.day) (Event.unsigned event)
                             (quiet d)))))
     = [REFUNDED; CREATED].
Proof.
  intros paid open d event. split.
  - refine (proj2 (proj2 (proj2 (proj2 (proj2 (proj2 (proj2
      (payment_status_writes Fixture.env (Checkout.at_time Fixture.day "9F3A00C1") "u_admin"
         Checkout.body (2 * Fixture.day) (Event.unsigned event) [] (quiet d))))))) _ _)).
    + cbn. repeat constructor; cbn; intuition discriminate.
    + repeat constructor; cbn; intros; try discriminate; reflexivity.
  - vm_compute. reflexivity.
Defined.

(** ** C3: the webhook's signature check *)

(** C3, as the claim states it, fails, in both of its parts.
    (a) A payment.captured event sent with no signature header is not
        verified: it is answered 200 and the payment is written CAPTURED.
    (b) The digest is taken over [JSON.stringify(req.body)], not over the
        bytes received: for a body sent with a trailing newline, the
        signature of the bytes received is answered 400 (nothing written),
        while a signature that does not verify over the bytes received
        (it is the digest of the re-serialized text) is answered 200 and
        the payment is written CAPTURED. *)
Lemma webhook_unsigned_or_reserialized_accepted :
  let d := Fixture.database
             (Fixture.subscription "plan_starter" TRIAL (Some (14 * Fixture.day)) None)
             [Fixture.checkout 1499 CREATED] 3 in
  let event := Event.payment "payment.captured" "order_1" "pay_1" in
  let raw := (Json.stringify event ++ newline)%string in
  let resigned :=
    {| x_razorpay_signature :=
         Some (Crypto.hmac_sha256_hex "webhook_secret" (Json.stringify event));
       raw_body := raw;
       wh_body := event |} in
  (* (a) *)
  (fst (webhook Fixture.env Fixture.day (Event.unsigned event) (quiet d)) = received
   /\ map Payment.status
        (payments (db (snd (webhook Fixture.env Fixture.day (Event.unsigned event) (quiet d)))))
      = [CAPTURED])
  (* (b) *)
  /\ (verifyWebhookSignature Fixture.env raw
        (Crypto.hmac_sha256_hex "webhook_secret" raw) = true
      /\ webhook Fixture.env Fixture.day (Event.signed Fixture.env raw event) (quiet d)
         = (status_json 400 [("error", VStr "Invalid signature")], quiet d))
  /\ (verifyWebhookSignature Fixture.env raw
        (Crypto.hmac_sha256_hex "webhook_secret" (Json.stringify event)) = false
      /\ fst (webhook Fixture.env Fixture.day resigned (quiet d)) = received
      /\ map Payment.status
           (payments (db (snd (webhook Fixture.env Fixture.day resigned (quiet d)))))
         = [CAPTURED]).
Proof. vm_compute. repeat split. Qed.

(** C3, amended. For every webhook request that carries a (non-empty)
    signature header and whose parsed body has distinct keys and integer
    numbers of magnitude at most 2^53 (as the events of the gateway have):
    when the signature is not the HMAC-SHA256 hex digest,
    under the webhook secret, of [JSON.stringify] of the parsed body, the
    endpoint answers 400 and leaves the world (database and all) as it was;
    when it is that digest, the request is processed, that is, the world
    it leaves is the one the event switch leaves on the parsed body, and
    it is answered 200. *)
Theorem webhook_signature_check (env : Env) (t : Z) (req : WebhookRequest) (sig : string)
    (w : World) :
  Json.wellformed (wh_body req) = true ->
  x_razorpay_signature req = Some sig ->
  Js.truthy sig = true ->
  let expected :=
    Crypto.hmac_sha256_hex (RAZORPAY_WEBHOOK_SECRET env) (Json.stringify (wh_body req)) in
  (sig <> expected ->
     webhook env t req w = (status_json 400 [("error", VStr "Invalid signature")], w))
  /\ (sig = expected ->
        fst (webhook env t req w) = received
        /\ snd (webhook env t req w) = snd (webhook_switch t (wh_body req) w)).
Proof.
  intros _ Hs Ht expected. unfold webhook, try_catch, verifyWebhookSignature.
  rewrite Hs. cbn [Js.truthy_opt Js.or_else]. rewrite Ht. fold expected. split; intros H.
  - replace (String.eqb expected sig) with false
      by (symmetry; apply String.eqb_neq; congruence).
    reflexivity.
  - replace (String.eqb expected sig) with true by (symmetry; apply String.eqb_eq; congruence).
    cbn [negb andb]. unfold bind.
    destruct (webhook_switch t (wh_body req) w) as [[u|] w1]; split; reflexivity.
Qed.

(** A payment.captured event for the open order of the fixture tenant: sent
    with a signature that is not the digest it is answered 400 and nothing
    is written; sent with the digest it is answered 200 and the payment is
    written CAPTURED. *)
Lemma webhook_signature_check_witness :
  let d := Fixture.database
             (Fixture.subscription "plan_starter" TRIAL (Some (14 * Fixture.day)) None)
             [Fixture.checkout 1499 CREATED] 3 in
  let event := Event.payment "payment.captured" "order_1" "pay_1" in
  let forged := {| x_razorpay_signature := Some "deadbeef";
                   raw_body := Json.stringify event;
                   wh_body := event |} in
  let signed := Event.signed Fixture.env (Json.stringify event) event in
  webhook Fixture.env Fixture.day forged (quiet d)
  = (status_json 400 [("error", VStr "Invalid signature")], quiet d)
  /\ fst (webhook Fixture.env Fixture.day signed (quiet d)) = received
  /\ map Payment.status (payments (db (snd (webhook Fixture.env Fixture.day signed (quiet d)))))
     = [CAPTURED].
Proof.
  intros d event forged signed. split; [|split].
  - refine (proj1 (webhook_signature_check Fixture.env Fixture.day forged "deadbeef"
                     (quiet d) _ _ _) _).
    + reflexivity.
    + reflexivity.
    + reflexivity.
    + intros H. vm_compute in H. discriminate H.
  - refine (proj1 (proj2 (webhook_signature_check Fixture.env Fixture.day signed
                            (Crypto.hmac_sha256_hex (RAZORPAY_WEBHOOK_SECRET Fixture.env)
                               (Json.stringify event))
                            (quiet d) _ _ _) _)).
    + reflexivity.
    + reflexivity.
    + vm_compute. reflexivity.
    + reflexivity.
  - rewrite (proj2 (proj2 (webhook_signature_check Fixture.env Fixture.day signed
                             (Crypto.hmac_sha256_hex (RAZORPAY_WEBHOOK_SECRET Fixture.env)
                                (Json.stringify event))
                             (quiet d) eq_refl eq_refl eq_refl) eq_refl)).
    vm_compute. reflexivity.
Defined.

(** ** verify-payment when everything goes through *)

Lemma plan_findUnique_plans pid d' d :
  plans d' = plans d -> plan_findUnique pid d' = plan_findUnique pid d.
Proof. unfold plan_findUnique. now intros ->. Qed.

Lemma find_id_after_update {R} (key : R -> string) rid (f : R -> R) rows r0 :
  (forall r, key (f r) = key r) ->
  find (fun r => String.eqb (key r) rid) rows = Some r0 ->
  find (fun r => String.eqb (key r) rid) (update_rows key rid f rows) = Some (f r0).
Proof.
  intros Hk Hf. rewrite find_update_rows by (intros r; now rewrite Hk).
  rewrite Hf. simpl. apply find_some in Hf. destruct Hf as [_ E]. now rewrite E.
Qed.

Lemma verify_payment_success env amb uid body d order_id payment_id signature p s :
  verify_reads env body d order_id payment_id signature p s ->
  exists r,
    verify_payment env amb uid body (quiet d)
    = (r, quiet (verified_db amb uid body payment_id signature p s d))
    /\ res_status r = 200 /\ field "success" r = Some (VBool true).
Proof.
  intros (Ho & Hto & Hp & Htp & Hs & Hts & Hsig & Hread & plan & Hplan).
  assert (Hrows : payment_findUnique_order order_id d = Some p
                  /\ subscription_findUnique_id (Payment.subscriptionId p) d = Some s).
  { unfold payment_with_subscription in Hread.
    destruct (payment_findUnique_order order_id d) as [p0|]; [|discriminate].
    destruct (subscription_findUnique_id (Payment.subscriptionId p0) d) as [s0|] eqn:Es;
      [|discriminate].
    destruct (plan_findUnique (Subscription.planId s0) d); [|discriminate].
    inversion Hread; subst. now split. }
  destruct Hrows as [Hprow Hsrow].
  assert (Hpid : exists p0, find (fun q => String.eqb (Payment.id q) (Payment.id p))
                                 (payments d) = Some p0).
  { eapply find_witness; [exact Hprow | apply String.eqb_refl]. }
  destruct Hpid as [p0 Hpid].
  unfold verify_payment, try_catch.
  rewrite Ho, Hp, Hs. cbn [Js.truthy_opt Js.or_else]. rewrite Hto, Htp, Hts.
  cbn [negb orb]. rewrite Hsig. cbn [negb].
  rewrite bind_prisma_quiet, Hread. cbn [fst snd].
  rewrite bind_prisma_quiet. unfold payment_update at 1 2 3. rewrite Hpid. cbn [fst snd].
  rewrite bind_prisma_quiet. unfold subscription_update at 1 2 3.
  unfold subscription_findUnique_id at 1 2 3. cbn [subscriptions with_payments].
  fold (subscription_findUnique_id (Payment.subscriptionId p) d). rewrite Hsrow. cbn [fst snd].
  rewrite bind_prisma_quiet. cbn [invoice_create fst snd].
  rewrite bind_prisma_quiet. cbn [auditLog_create fst snd].
  rewrite bind_prisma_quiet.
  unfold subscription_info_id at 1 2 3. unfold subscription_findUnique_id at 1 2 3.
  cbn [subscriptions plans with_payments with_subscriptions with_invoices with_auditLogs
       plan_findUnique].
  unfold subscription_findUnique_id in Hsrow.
  rewrite (find_id_after_update Subscription.id _ _ _ s) by (reflexivity || exact Hsrow).
  cbn [activate Subscription.planId].
  rewrite (plan_findUnique_plans _ _ d) by reflexivity. rewrite Hplan. cbn [fst snd].
  eexists. split; [reflexivity|]. split; reflexivity.
Qed.

Example checkout_signature :
  razorpay_signature Checkout.body
  = Some "dd0f51ec9e75790ad1f7cc8e1a83d12f0a58a9641601a3cffa5c695972543c82".
Proof. vm_compute. reflexivity. Qed.

(** ** C9: the amounts of the invoice *)

(** C9, as the claim states it, fails.  A plan priced 1.25 is checked out
    monthly: create-order stores a payment of amount 1.25, and
    verify-payment creates the invoice with subtotal 1.25, tax 0.22 and
    total 1.48, although subtotal + tax is 1.47.  (In binary64,
    1.25 * 0.18 * 100 is just below 22.5 and rounds to 22, while
    1.25 * 1.18 * 100 is 147.5 and rounds to 148.) *)
Lemma invoice_total_is_not_subtotal_plus_tax :
  let micro := Plan.mk "plan_micro" "Micro" 1.25 None "INR" 5 true false
                 false false false false false false false false in
  let d0 := mkDb [Fixture.admin] [micro]
                 [Fixture.subscription "plan_micro" TRIAL (Some (14 * Fixture.day)) None]
                 [] [] [] in
  let amb := {| now := Fixture.day; getFullYear := 2025; getMonth := 0;
                randomBytes_hex := "9F3A00C1"; fetched_method := Some "upi";
                gateway_order := Some ("order_1", 125%float, "INR");
                new_row_id := "pay_row_1" |} in
  let w1 := snd (create_order Fixture.env amb "u_admin"
                   {| co_planId := Some "plan_micro"; co_billingCycle := None |} (quiet d0)) in
  let body := {| razorpay_order_id := Some "order_1";
                 razorpay_payment_id := Some "pay_1";
                 razorpay_signature :=
                   Some (Crypto.hmac_sha256_hex "key_secret" "order_1|pay_1");
                 vp_planId := None; vp_billingCycle := None |} in
  let out := verify_payment Fixture.env amb "u_admin" body w1 in
  map Payment.amount (payments (db w1)) = [1.25%float]
  /\ res_status (fst out) = 200
  /\ map (fun i => (Invoice.subtotal i, Invoice.tax i, Invoice.total i))
         (invoices (db (snd out)))
     = [(1.25%float, 0.22%float, 1.48%float)]
  /\ (1.25 + 0.22)%float = 1.47%float
  /\ PrimFloat.eqb 1.48 (1.25 + 0.22) = false.
Proof. vm_compute. repeat split. Qed.

(** C9, amended. Every invoice created by a successful verify-payment for
    a payment of amount A has subtotal A, tax [Math.round(A*0.18*100)/100]
    and total [Math.round(A*1.18*100)/100], each rounded on its own in
    binary64 arithmetic (the total is not computed as subtotal + tax).  A
    monthly order for a plan priced 1499 is of 149900 paise and stores the
    amount 1499, and for that amount the invoice has tax 269.82 and total
    1768.82, which there is subtotal + tax. *)
Theorem invoice_tax_and_total (env : Env) (amb : Ambient) (uid : string)
    (body : VerifyPaymentBody) (d : Db) (order_id payment_id signature : string)
    (p : Payment.t) (s : Subscription.t) :
  verify_reads env body d order_id payment_id signature p s ->
  (exists inv,
     invoices (db (snd (verify_payment env amb uid body (quiet d)))) = invoices d ++ [inv]
     /\ Invoice.subtotal inv = Payment.amount p
     /\ Invoice.tax inv = (Js.Math_round (Payment.amount p * 0.18 * 100) / 100)%float
     /\ Invoice.total inv = (Js.Math_round (Payment.amount p * 1.18 * 100) / 100)%float
     /\ (Payment.amount p = 1499%float ->
         Invoice.tax inv = 269.82%float /\ Invoice.total inv = 1768.82%float
         /\ Invoice.total inv = (Invoice.subtotal inv + Invoice.tax inv)%float))
  /\ (forall plan, Plan.monthlyPrice plan = 1499%float ->
        order_amount MONTHLY plan = 149900%float
        /\ (order_amount MONTHLY plan / 100)%float = 1499%float).
Proof.
  intros H. split.
  - destruct (verify_payment_success env amb uid body d _ _ _ _ _ H) as (r & -> & _).
    cbn [snd db quiet verified_db invoices].
    eexists. split; [reflexivity|]. cbn [invoice_of Invoice.subtotal Invoice.tax Invoice.total].
    do 3 (split; [reflexivity|]). intros E. rewrite E. vm_compute. repeat split.
  - intros plan Hprice. unfold order_amount. cbn. rewrite Hprice.
    split; vm_compute; reflexivity.
Qed.

Lemma invoice_tax_and_total_witness :
  exists inv,
    invoices (db (snd (verify_payment Fixture.env (Checkout.at_time Fixture.day "9F3A00C1")
                         "u_admin" Checkout.body (quiet (Checkout.trial_db 1499)))))
    = invoices (Checkout.trial_db 1499) ++ [inv]
    /\ Invoice.subtotal inv = 1499%float
    /\ Invoice.tax inv = (Js.Math_round (1499 * 0.18 * 100) / 100)%float
    /\ Invoice.total inv = (Js.Math_round (1499 * 1.18 * 100) / 100)%float
    /\ (1499%float = 1499%float ->
        Invoice.tax inv = 269.82%float /\ Invoice.total inv = 1768.82%float
        /\ Invoice.total inv = (Invoice.subtotal inv + Invoice.tax inv)%float).
Proof.
  refine (proj1 (invoice_tax_and_total Fixture.env (Checkout.at_time Fixture.day "9F3A00C1")
                   "u_admin" Checkout.body (Checkout.trial_db 1499)
                   "order_1" "pay_1" (Crypto.hmac_sha256_hex "key_secret" "order_1|pay_1")
                   (Fixture.checkout 1499 CREATED)
                   (Fixture.subscription "plan_starter" TRIAL (Some (14 * Fixture.day)) None)
                   _)).
  repeat split; try (vm_compute; reflexivity).
  exists Fixture.professional. reflexivity.
Defined.

(** ** C1: a capture processed more than once *)

(** A successful verify-payment does not look at the payment's status:
    also for a payment that is already CAPTURED it adds one invoice and
    sets the subscription's period to start now. *)
Lemma verify_payment_ignores_status env amb uid body d order_id payment_id signature p s :
  verify_reads env body d order_id payment_id signature p s ->
  Payment.status p = CAPTURED ->
  let d' := db (snd (verify_payment env amb uid body (quiet d))) in
  List.length (invoices d') = S (List.length (invoices d))
  /\ option_map Subscription.currentPeriodEnd
       (subscription_findUnique_id (Payment.subscriptionId p) d')
     = Some (Some (now amb + period_length (billingCycle_of body))).
Proof.
  intros H _ d'. subst d'.
  destruct (verify_payment_success env amb uid body d _ _ _ _ _ H) as (r & -> & _).
  cbn [snd db quiet verified_db invoices subscriptions]. split.
  - rewrite length_app. simpl. lia.
  - destruct H as (_ & _ & _ & _ & _ & _ & _ & Hread & _).
    unfold payment_with_subscription in Hread.
    destruct (payment_findUnique_order order_id d) as [p0|]; [|discriminate].
    destruct (subscription_findUnique_id (Payment.subscriptionId p0) d) as [s0|] eqn:Es;
      [|discriminate].
    destruct (plan_findUnique (Subscription.planId s0) d); [|discriminate].
    inversion Hread; subst. unfold subscription_findUnique_id in *.
    unfold verified_db. cbn [subscriptions].
    rewrite (find_id_after_update Subscription.id _ _ _ s)
      by (reflexivity || exact Es).
    reflexivity.
Qed.

(** C1 fails on the code.  verify-payment called twice for the same order
    (both calls correctly signed, a day apart) answers 200 both times,
    creates a second invoice and moves the period end a second time.  A
    payment.captured webhook on its own marks the payment CAPTURED and
    creates no invoice and extends nothing. *)
Lemma verify_payment_twice_applies_twice :
  let d0 := Checkout.trial_db 1499 in
  let out1 := verify_payment Fixture.env (Checkout.at_time (5 * Fixture.day) "9F3A00C1")
                "u_admin" Checkout.body (quiet d0) in
  let out2 := verify_payment Fixture.env (Checkout.at_time (6 * Fixture.day) "0B77E2D4")
                "u_admin" Checkout.body (snd out1) in
  let event := Event.payment "payment.captured" "order_1" "pay_1" in
  let hook := webhook Fixture.env (5 * Fixture.day)
                (Event.signed Fixture.env (Json.stringify event) event) (quiet d0) in
  (res_status (fst out1) = 200
   /\ List.length (invoices (db (snd out1))) = 1%nat
   /\ map Subscription.currentPeriodEnd (subscriptions (db (snd out1)))
      = [Some (35 * Fixture.day)])
  /\ (res_status (fst out2) = 200
      /\ List.length (invoices (db (snd out2))) = 2%nat
      /\ map Subscription.currentPeriodEnd (subscriptions (db (snd out2)))
         = [Some (36 * Fixture.day)])
  /\ (res_status (fst hook) = 200
      /\ map Payment.status (payments (db (snd hook))) = [CAPTURED]
      /\ invoices (db (snd hook)) = []
      /\ subscriptions (db (snd hook)) = subscriptions d0).
Proof. vm_compute. repeat split. Qed.

(** ** C2: a write of verify-payment that fails *)

(** Whenever verify-payment's reads succeed and its subscription update
    then rejects, the answer is 500, the payment update stays in place and
    neither the subscription nor the invoices changed. *)
Lemma verify_payment_keeps_first_write env amb uid body d order_id payment_id signature p s :
  verify_reads env body d order_id payment_id signature p s ->
  let out := verify_payment env amb uid body (mkWorld d [false; false; true]) in
  res_status (fst out) = 500
  /\ payments (db (snd out))
     = update_rows Payment.id (Payment.id p)
         (capture_by_verify payment_id signature
            (match fetched_method amb with
             | Some m => if Js.truthy m then Some m else None
             | None => None
             end) (now amb))
         (payments d)
  /\ subscriptions (db (snd out)) = subscriptions d
  /\ invoices (db (snd out)) = invoices d.
Proof.
  intros (Ho & Hto & Hp & Htp & Hs & Hts & Hsig & Hread & _).
  assert (Hpid : exists p0, find (fun q => String.eqb (Payment.id q) (Payment.id p))
                                 (payments d) = Some p0).
  { unfold payment_with_subscription in Hread.
    destruct (payment_findUnique_order order_id d) as [p0|] eqn:Ep; [|discriminate].
    destruct (subscription_findUnique_id (Payment.subscriptionId p0) d); [|discriminate].
    destruct (plan_findUnique _ d); [|discriminate].
    inversion Hread; subst. eapply find_witness; [exact Ep | apply String.eqb_refl]. }
  destruct Hpid as [p0 Hpid]. intros out.
  assert (E : out = (status_json 500 [("error", VStr "Payment verification failed")],
                     mkWorld (snd (payment_update (Payment.id p)
                                     (capture_by_verify payment_id signature
                                        (match fetched_method amb with
                                         | Some m => if Js.truthy m then Some m else None
                                         | None => None
                                         end) (now amb)) d)) [])).
  { subst out. unfold verify_payment, try_catch.
    rewrite Ho, Hp, Hs. cbn [Js.truthy_opt Js.or_else]. rewrite Hto, Htp, Hts.
    cbn [negb orb]. rewrite Hsig. cbn [negb].
    rewrite bind_prisma_scheduled, Hread. cbn [fst snd].
    rewrite bind_prisma_scheduled. unfold payment_update at 1 2. rewrite Hpid. cbn [fst snd].
    rewrite bind_prisma_scheduled. unfold payment_update. rewrite Hpid. reflexivity. }
  rewrite E. unfold payment_update. rewrite Hpid. repeat split.
Qed.

(** C2 fails on the code.  When the third persistence call of
    verify-payment (the subscription update) rejects, the request is
    answered 500 with the payment already stored as CAPTURED, the
    subscription still in TRIAL and no invoice. *)
Lemma verify_payment_partial_write :
  let w := mkWorld (Checkout.trial_db 1499) [false; false; true] in
  let out := verify_payment Fixture.env (Checkout.at_time (5 * Fixture.day) "9F3A00C1")
               "u_admin" Checkout.body w in
  res_status (fst out) = 500
  /\ map Payment.status (payments (db w)) = [CREATED]
  /\ map Payment.status (payments (db (snd out))) = [CAPTURED]
  /\ map Subscription.status (subscriptions (db (snd out))) = [TRIAL]
  /\ invoices (db (snd out)) = [].
Proof. vm_compute. repeat split. Qed.

(** ** C6: upgrades, downgrades and the pending plan change *)

(** The two parts of C6 that hold: for a subscription that is not in trial
    and passes the seat check, a higher-priced target answers
    "requires payment" and writes nothing; any other target leaves the
    plan and stores the pending change in [metadata]. *)
Lemma change_plan_deferred uid pid d org newPlan info :
  change_plan_reads uid pid d org newPlan info ->
  Subscription.status (info_subscription info) <> TRIAL ->
  (Plan.maxEmployees newPlan = -1 \/ countActiveSeats org d <= Plan.maxEmployees newPlan) ->
  let out := change_plan uid (Some pid) (quiet d) in
  let s := info_subscription info in
  if PrimFloat.ltb (Plan.monthlyPrice (info_plan info)) (Plan.monthlyPrice newPlan)
  then field "requiresPayment" (fst out) = Some (VBool true) /\ snd out = quiet d
  else option_map (fun s' => (Subscription.planId s', Subscription.metadata s'))
         (subscription_findUnique_org org (db (snd out)))
       = Some (Subscription.planId s, Some (pending_change newPlan s)).
Proof.
  intros H Hst Hseat.
  pose proof (change_plan_cases uid pid d org newPlan info H) as Hc. cbv zeta in *.
  replace (negb (Plan.maxEmployees newPlan =? -1)
           && (Plan.maxEmployees newPlan <? countActiveSeats org d)) with false in Hc
    by (symmetry; apply andb_false_iff; destruct Hseat;
        [left; apply negb_false_iff; lia | right; lia]).
  destruct Hc as (_ & _ & Hc).
  assert (Hrow : subscription_findUnique_org org d = Some (info_subscription info)).
  { destruct H as (_ & u & _ & _ & _ & _ & _ & Hsub). unfold subscription_with_plan in Hsub.
    destruct (subscription_findUnique_org org d) as [s|]; [|discriminate].
    destruct (plan_findUnique (Subscription.planId s) d); [|discriminate].
    now inversion Hsub. }
  destruct (Subscription.status (info_subscription info)); try congruence;
    destruct (PrimFloat.ltb _ _); try (destruct Hc; now split);
    destruct Hc as [-> _]; cbn [db quiet]; unfold subscription_findUnique_org in *;
    cbn [subscriptions with_subscriptions];
    rewrite find_update_rows by reflexivity; rewrite Hrow; simpl;
    rewrite String.eqb_refl; reflexivity.
Qed.

(** C6 fails on the code.  An ACTIVE subscription on Professional is
    downgraded to Starter: change-plan answers 200 and stores the pending
    change with the period end as its effective date.  The guard read after
    the period end stores PAST_DUE, and the one after the grace window
    SUSPENDED; the plan is still Professional and the pending change is
    still pending.  A renewal that names no plan keeps Professional too. *)
Lemma downgrade_is_never_applied :
  let d0 := Fixture.database
              (Fixture.subscription "plan_pro" ACTIVE None (Some (30 * Fixture.day)))
              [Fixture.checkout 1499 CREATED] 3 in
  let pending := {| pendingPlanChange := "plan_starter"; pendingPlanName := "Starter";
                    changeEffectiveDate := Some (30 * Fixture.day) |} in
  let out1 := change_plan "u_admin" (Some "plan_starter") (quiet d0) in
  let out2 := checkSubscription (30 * Fixture.day + 1000) (Fixture.request "u_admin")
                (snd out1) in
  let out3 := checkSubscription (34 * Fixture.day) (Fixture.request "u_admin") (snd out2) in
  let renew := {| razorpay_order_id := Some "order_1";
                  razorpay_payment_id := Some "pay_1";
                  razorpay_signature :=
                    Some (Crypto.hmac_sha256_hex "key_secret" "order_1|pay_1");
                  vp_planId := None; vp_billingCycle := None |} in
  let out4 := verify_payment Fixture.env (Checkout.at_time (35 * Fixture.day) "9F3A00C1")
                "u_admin" renew (snd out3) in
  let row w := map (fun s => (Subscription.status s, Subscription.planId s,
                              Subscription.metadata s)) (subscriptions (db w)) in
  res_status (fst out1) = 200
  /\ row (snd out1) = [(ACTIVE, "plan_pro", Some pending)]
  /\ row (snd out2) = [(PAST_DUE, "plan_pro", Some pending)]
  /\ row (snd out3) = [(SUSPENDED, "plan_pro", Some pending)]
  /\ res_status (fst out4) = 200
  /\ row (snd out4) = [(ACTIVE, "plan_pro", Some pending)].
Proof. vm_compute. repeat split. Qed.

(** ** The webhook only writes payments *)

Lemma same_ledger_refl d : same_ledger d d.
Proof. split; reflexivity. Qed.

Lemma same_ledger_trans a b c : same_ledger a b -> same_ledger b c -> same_ledger a c.
Proof. unfold same_ledger. intros [-> ->] [-> ->]. split; reflexivity. Qed.

Lemma payment_update_same_ledger pid f d : same_ledger d (snd (payment_update pid f d)).
Proof.
  unfold payment_update. destruct (find _ (payments d)); split; reflexivity.
Qed.

(** Whatever the event, the signature and the fault schedule, a webhook
    request creates no invoice and leaves every subscription (status,
    plan and period bounds) as it was. *)
Lemma webhook_keeps_ledger env t req w :
  same_ledger (db w) (db (snd (webhook env t req w))).
Proof.
  unfold webhook. apply preserves_try_catch. cbv zeta.
  destruct (_ && _); [apply preserves_ret; apply same_ledger_refl|].
  apply preserves_bind; [apply same_ledger_trans | | intros _; apply preserves_ret;
                                                     apply same_ledger_refl].
  unfold webhook_switch, payload_entity.
  preserve_steps same_ledger_refl same_ledger_trans;
    apply (preserves_prisma _ same_ledger_refl); intros d0; apply payment_update_same_ledger.
Qed.

(** A payment.captured event for an order whose payment is already
    CAPTURED changes nothing: a replay of the event is a no-op. *)
Lemma webhook_captured_replay_is_noop env t sig raw order_id payment_id d p :
  payment_findUnique_order order_id d = Some p ->
  Payment.status p = CAPTURED ->
  let req := {| x_razorpay_signature := sig; raw_body := raw;
                wh_body := Event.payment "payment.captured" order_id payment_id |} in
  snd (webhook env t req (quiet d)) = quiet d.
Proof.
  intros Hp Hst req.
  assert (Hsw : webhook_switch t (Event.payment "payment.captured" order_id payment_id) (quiet d)
                = (Ok tt, quiet d)).
  { unfold webhook_switch, payload_entity, Event.payment.
    repeat (rewrite ?bind_assoc, ?bind_lift;
            cbn [Json.get assoc String.eqb Ascii.eqb Bool.eqb is_event unique_key]).
    rewrite bind_query_quiet, Hp, Hst. reflexivity. }
  unfold webhook, try_catch. cbv zeta.
  destruct (_ && _); [reflexivity|].
  unfold bind. cbn [wh_body req]. rewrite Hsw. reflexivity.
Qed.

(* ================================================================== *)
(** * Further properties of the middleware and of the router *)
(* ================================================================== *)

(** ** enforceEmployeeLimit *)

(** X1. With a subscription and an organization attached and no
    persistence call failing, enforceEmployeeLimit never writes; it passes
    the request unchanged when the plan's ceiling is -1, answers 403
    EMPLOYEE_LIMIT_REACHED (with the count and the ceiling) when the count
    of active seats has reached the ceiling, and otherwise passes the
    request on with the count and the ceiling attached. *)
Theorem enforceEmployeeLimit_decision (req : Request) (d : Db) (org : string)
    (info : SubscriptionInfo) :
  entitled req org info ->
  let N := Plan.maxEmployees (info_plan info) in
  let c := countActiveSeats org d in
  let out := enforceEmployeeLimit req (quiet d) in
  snd out = quiet d
  /\ (N = -1 -> fst out = Next req)
  /\ (N <> -1 -> N <= c ->
      denied "EMPLOYEE_LIMIT_REACHED" (fst out)
      /\ exists r, fst out = Respond r
                   /\ field "currentCount" r = Some (VNum c)
                   /\ field "maxAllowed" r = Some (VNum N))
  /\ (N <> -1 -> c < N -> fst out = Next (attach_counts c N req)).
Proof.
  intros (Hs & Ho & Ht) N c out. subst out.
  unfold enforceEmployeeLimit, try_catch. rewrite Hs, Ho, Ht. cbn [negb]. fold N.
  destruct (N =? -1) eqn:E1.
  - apply Z.eqb_eq in E1. repeat split; intros; try lia; reflexivity.
  - apply Z.eqb_neq in E1. rewrite bind_query_quiet. fold c.
    destruct (N <=? c) eqn:E2.
    + apply Z.leb_le in E2. repeat split; intros; try lia.
      * eexists. repeat split.
      * eexists. repeat split.
    + apply Z.leb_gt in E2. repeat split; intros; try lia; reflexivity.
Qed.

(** A tenant of 26 active seats on Starter (25 seats). *)
Lemma enforceEmployeeLimit_decision_witness :
  denied "EMPLOYEE_LIMIT_REACHED"
    (fst (enforceEmployeeLimit
            (attach_subscription
               (Js.Obj {| info_subscription :=
                            Fixture.subscription "plan_starter" ACTIVE None None;
                          info_plan := Fixture.starter |})
               (Js.Obj Fixture.org) (Fixture.request "u_admin"))
            (quiet (Fixture.database
                      (Fixture.subscription "plan_starter" ACTIVE None None) [] 25)))).
Proof.
  refine (proj1 (proj1 (proj2 (proj2
    (enforceEmployeeLimit_decision _ _ Fixture.org
       {| info_subscription := Fixture.subscription "plan_starter" ACTIVE None None;
          info_plan := Fixture.starter |} _))) _ _)).
  - repeat split.
  - discriminate.
  - vm_compute. discriminate.
Defined.

(** ** requireFeature *)

(** X2. A feature name that is not one of the eight the middleware knows
    is never blocked, whatever the request; for a request with a
    subscription attached, each known name is passed exactly when the plan
    has the corresponding flag. *)
Theorem requireFeature_names (feature : string) (req : Request) :
  (~ In feature known_features -> requireFeature feature req = Next req)
  /\ (forall info, req_subscription req = Js.Obj info ->
      let p := info_plan info in
      let passes name := requireFeature name req = Next req in
      (passes "payroll" <-> Plan.hasPayroll p = true)
      /\ (passes "advancedAnalytics" <-> Plan.hasAdvancedAnalytics p = true)
      /\ (passes "customIntegrations" <-> Plan.hasCustomIntegrations p = true)
      /\ (passes "prioritySupport" <-> Plan.hasPrioritySupport p = true)
      /\ (passes "dedicatedManager" <-> Plan.hasDedicatedManager p = true)
      /\ (passes "customWorkflows" <-> Plan.hasCustomWorkflows p = true)
      /\ (passes "sla" <-> Plan.hasSLA p = true)
      /\ (passes "onPremise" <-> Plan.hasOnPremise p = true)).
Proof.
  split.
  - intros Hn. unfold requireFeature. destruct (req_subscription req) as [| |info];
      try reflexivity.
    unfold featureMap. cbn [assoc].
    repeat match goal with
    | |- context [String.eqb feature ?k] =>
        replace (String.eqb feature k) with false
          by (symmetry; apply String.eqb_neq; intros ->; apply Hn; simpl; tauto)
    end.
    reflexivity.
  - intros info Hs p passes. subst passes. unfold requireFeature. rewrite Hs.
    unfold featureMap. cbn [assoc String.eqb Ascii.eqb Bool.eqb]. fold p.
    repeat split; intros H;
      repeat match goal with
      | H : context [if ?b then _ else _] |- _ => destruct b eqn:?
      | |- context [if ?b then _ else _] => destruct b eqn:?
      | H : context [match ?b with true => _ | false => _ end] |- _ => destruct b eqn:?
      | |- context [match ?b with true => _ | false => _ end] => destruct b eqn:?
      end; try reflexivity; try discriminate; try congruence.
Qed.

Lemma requireFeature_names_witness :
  requireFeature "leave"
    (attach_subscription
       (Js.Obj {| info_subscription := Fixture.subscription "plan_starter" ACTIVE None None;
                  info_plan := Fixture.starter |})
       (Js.Obj Fixture.org) (Fixture.request "u_admin"))
  = Next (attach_subscription
       (Js.Obj {| info_subscription := Fixture.subscription "plan_starter" ACTIVE None None;
                  info_plan := Fixture.starter |})
       (Js.Obj Fixture.org) (Fixture.request "u_admin")).
Proof.
  refine (proj1 (requireFeature_names "leave" _) _).
  simpl. intros H. repeat (destruct H as [H|H]; [discriminate H|]). exact H.
Defined.

(** ** checkSubscription: errors, repair edges, the first read after a period *)

(** Under any fault schedule a guard read leaves the database as it was
    or applies one repair to the subscription it read. *)
Lemma checkSubscription_db now req w :
  db (snd (checkSubscription now req w)) = db w
  \/ exists org info st,
       subscription_with_plan org (db w) = (Ok (Some info), db w)
       /\ ((st = EXPIRED /\ Subscription.status (info_subscription info) = TRIAL
            /\ date_gt now (Subscription.trialEndDate (info_subscription info)) = true)
           \/ (st = PAST_DUE /\ Subscription.status (info_subscription info) = ACTIVE
               /\ date_gt now (Subscription.currentPeriodEnd (info_subscription info)) = true)
           \/ (st = SUSPENDED /\ Subscription.status (info_subscription info) = PAST_DUE
               /\ grace_over now (Subscription.currentPeriodEnd (info_subscription info))
                  = true))
       /\ db (snd (checkSubscription now req w))
          = with_subscriptions
              (update_rows Subscription.id (Subscription.id (info_subscription info))
                 (Subscription.set_status st) (subscriptions (db w))) (db w).
Proof.
  destruct w as [d fs]. cbn [db].
  remember (db (snd (checkSubscription now req (mkWorld d fs)))) as x eqn:Hx.
  revert Hx. unfold checkSubscription, try_catch.
  destruct (negb (Js.truthy_opt (req_user req))); [now left|].
  unfold query. step_prisma; try (now left).
  all: destruct (user_findUnique _ d) as [u|]; [|now left].
  all: destruct (Js.truthy_opt (User.organizationId u)); [|now left].
  all: pose proof (subscription_with_plan_reads (Js.or_else (User.organizationId u) "") d)
         as Hro.
  all: step_prisma; try (now left).
  all: destruct (subscription_with_plan (Js.or_else (User.organizationId u) "") d)
         as [[[info|]|] d1] eqn:Esub; cbn [fst snd] in *; subst d1; try (now left).
  all: destruct (Subscription.status (info_subscription info)) eqn:Est;
    [ destruct (date_gt now (Subscription.trialEndDate _)) eqn:Ec
    | destruct (date_gt now (Subscription.currentPeriodEnd _)) eqn:Ec
    | destruct (grace_over now (Subscription.currentPeriodEnd _)) eqn:Ec
    | | | ]; try (now left).
  all: unfold subscription_update; step_prisma; try (now left).
  all: destruct (subscription_findUnique_id _ d); cbn [fst snd db]; try (now left).
  all: intros ->; right; exists (Js.or_else (User.organizationId u) ""), info.
  all: first [ exists EXPIRED; split; [exact Esub|]; split; [left; now repeat split | reflexivity]
             | exists PAST_DUE; split; [exact Esub|]; split;
               [right; left; now repeat split | reflexivity]
             | exists SUSPENDED; split; [exact Esub|]; split;
               [right; right; now repeat split | reflexivity] ].
Qed.

(** X3. The guard's error answers: without a user id it answers 401 and
    leaves the world as it is, whatever the world; for a caller whose
    organization has no subscription it answers 403 NO_SUBSCRIPTION and
    writes nothing; and when its first persistence call rejects it answers
    500 and the database is untouched. *)
Theorem checkSubscription_errors (now : Z) (req : Request) :
  (forall w, Js.truthy_opt (req_user req) = false ->
     checkSubscription now req w
     = (Respond (status_json 401 [("error", VStr "Unauthorized")]), w))
  /\ (forall d uid u org,
        req_user req = Some uid -> Js.truthy uid = true ->
        user_findUnique uid d = Some u ->
        User.organizationId u = Some org -> Js.truthy org = true ->
        subscription_findUnique_org org d = None ->
        denied "NO_SUBSCRIPTION" (fst (checkSubscription now req (quiet d)))
        /\ snd (checkSubscription now req (quiet d)) = quiet d)
  /\ (forall d fs, Js.truthy_opt (req_user req) = true ->
        checkSubscription now req (mkWorld d (true :: fs))
        = (Respond internal_error, mkWorld d fs)).
Proof.
  repeat split.
  - intros w H. unfold checkSubscription, try_catch. now rewrite H.
  - unfold checkSubscription, try_catch.
    rewrite H. cbn [Js.truthy_opt Js.or_else]. rewrite H0. cbn [negb].
    rewrite bind_query_quiet, H1, H2. cbn [Js.truthy_opt Js.or_else]. rewrite H3.
    rewrite bind_prisma_quiet. unfold subscription_with_plan. rewrite H4. cbn [fst snd].
    eexists. repeat split.
  - unfold checkSubscription, try_catch.
    rewrite H. cbn [Js.truthy_opt Js.or_else]. rewrite H0. cbn [negb].
    rewrite bind_query_quiet, H1, H2. cbn [Js.truthy_opt Js.or_else]. rewrite H3.
    rewrite bind_prisma_quiet. unfold subscription_with_plan. rewrite H4. reflexivity.
  - intros d fs H. unfold checkSubscription, try_catch. rewrite H. cbn [negb].
    unfold query. rewrite bind_prisma_scheduled. reflexivity.
Qed.

(** A caller whose organization has no subscription. *)
Lemma checkSubscription_errors_witness :
  let d := mkDb [Fixture.admin] [Fixture.starter] [] [] [] [] in
  denied "NO_SUBSCRIPTION"
    (fst (checkSubscription Fixture.day (Fixture.request "u_admin") (quiet d)))
  /\ snd (checkSubscription Fixture.day (Fixture.request "u_admin") (quiet d)) = quiet d.
Proof.
  intro d.
  refine (proj1 (proj2 (checkSubscription_errors Fixture.day (Fixture.request "u_admin")))
            d "u_admin" Fixture.admin Fixture.org _ _ _ _ _ _); reflexivity.
Defined.

(** X4. Under every fault schedule, a guard read at [now] changes nothing
    but subscription rows, and (subscription ids being unique) every row
    is left as it was or moved along one repair edge: TRIAL to EXPIRED
    when the trial end has passed, ACTIVE to PAST_DUE when the period end
    has passed, PAST_DUE to SUSPENDED when the grace has run out; only the
    status column changes. *)
Theorem checkSubscription_repairs (now : Z) (req : Request) (w : World) :
  NoDup (map Subscription.id (subscriptions (db w))) ->
  let d' := db (snd (checkSubscription now req w)) in
  Forall2 (repair_step now) (subscriptions (db w)) (subscriptions d')
  /\ same_but_subscriptions (db w) d'.
Proof.
  intros Hnd d'. subst d'.
  destruct (checkSubscription_db now req w) as [->|(org & info & st & Hsub & Hst & ->)].
  - split; [|repeat split]. clear. induction (subscriptions (db w)); constructor; auto.
    now left.
  - split; [|repeat split]. cbn [subscriptions with_subscriptions].
    assert (Hin : In (info_subscription info) (subscriptions (db w))).
    { unfold subscription_with_plan in Hsub.
      destruct (subscription_findUnique_org org (db w)) as [s|] eqn:Es; [|discriminate].
      destruct (plan_findUnique _ (db w)); [|discriminate].
      inversion Hsub; subst. simpl. apply find_some in Es. tauto. }
    eapply Forall2_impl;
      [| apply (update_rows_one Subscription.id (Subscription.set_status st) _ _ Hnd Hin)].
    intros r r' [->|[-> ->]]; [now left|]. right.
    destruct Hst as [(-> & H1 & H2)|[(-> & H1 & H2)|(-> & H1 & H2)]]; tauto.
Qed.

Lemma checkSubscription_repairs_witness :
  let d := Fixture.database
             (Fixture.subscription "plan_starter" TRIAL (Some (14 * Fixture.day)) None) [] 3 in
  Forall2 (repair_step (15 * Fixture.day)) (subscriptions d)
    (subscriptions (db (snd (checkSubscription (15 * Fixture.day)
                               (Fixture.request "u_admin") (quiet d)))))
  /\ same_but_subscriptions d
       (db (snd (checkSubscription (15 * Fixture.day) (Fixture.request "u_admin") (quiet d)))).
Proof.
  intro d.
  refine (checkSubscription_repairs (15 * Fixture.day) (Fixture.request "u_admin") (quiet d) _).
  simpl. constructor; [intros []|constructor].
Defined.

(** X5. The first guard read after the period end of an ACTIVE
    subscription is answered 403 SUBSCRIPTION_PAST_DUE and stores
    PAST_DUE; every later read up to three days after the period end is
    passed through, with the subscription (now PAST_DUE) attached, and
    writes nothing. *)
Theorem first_read_after_period_end_is_denied (now now' : Z) (req : Request) (d : Db)
    (org : string) (info : SubscriptionInfo) (pe : Z) :
  guard_reads req d org info ->
  Subscription.status (info_subscription info) = ACTIVE ->
  Subscription.currentPeriodEnd (info_subscription info) = Some pe ->
  pe < now -> now' <= pe + 259200000 ->
  let first := checkSubscription now req (quiet d) in
  let later := checkSubscription now' req (snd first) in
  denied "SUBSCRIPTION_PAST_DUE" (fst first)
  /\ stored_status org (db (snd first)) = Some PAST_DUE
  /\ fst later
     = Next (attach_subscription
               (Js.Obj {| info_subscription :=
                            Subscription.set_status PAST_DUE (info_subscription info);
                          info_plan := info_plan info |})
               (Js.Obj org) req)
  /\ snd later = snd first.
Proof.
  intros H Hst Hpe Hlt Hle first later.
  pose proof (guard_reads_row _ _ _ _ H) as [Hrow _].
  pose proof (checkSubscription_cases now req d org info H) as Hc.
  destruct info as [s p]. cbn [info_subscription info_plan] in *.
  cbv zeta in Hc. rewrite Hst, Hpe in Hc. unfold date_gt in Hc.
  replace (pe <? now) with true in Hc by (symmetry; apply Z.ltb_lt; lia).
  destruct Hc as (r & Hfirst & H403 & Hcode).
  set (d1 := with_subscriptions
               (update_rows Subscription.id (Subscription.id s)
                  (Subscription.set_status PAST_DUE) (subscriptions d)) d) in *.
  assert (Hreads : guard_reads req d1 org
                     {| info_subscription := Subscription.set_status PAST_DUE s;
                        info_plan := p |}).
  { destruct H as (uid & u & Hu & Ht & Hfind & Horg & Hto & Hsub).
    exists uid, u. repeat split; try assumption.
    unfold subscription_with_plan in *. unfold subscription_findUnique_org in *.
    subst d1. cbn [subscriptions with_subscriptions].
    rewrite find_update_rows by reflexivity. rewrite Hrow in *. cbn [option_map].
    rewrite String.eqb_refl.
    destruct (plan_findUnique (Subscription.planId s) d) eqn:Ep; [|discriminate].
    injection Hsub as ->.
    rewrite (plan_findUnique_plans _ _ d) by reflexivity.
    cbn [Subscription.set_status Subscription.planId]. rewrite Ep. reflexivity. }
  pose proof (checkSubscription_cases now' req d1 _ _ Hreads) as Hc'.
  cbv zeta in Hc'. cbn [info_subscription Subscription.set_status Subscription.status
                        Subscription.currentPeriodEnd] in Hc'.
  rewrite Hpe in Hc'. unfold grace_over, gracePeriod in Hc'.
  replace (pe + 3 * 24 * 60 * 60 * 1000 <? now') with false in Hc'
    by (symmetry; apply Z.ltb_ge; lia).
  subst first later. rewrite Hfirst. cbn [fst snd quiet]. fold (quiet d1).
  repeat split.
  - exists r. now repeat split.
  - cbn [db quiet]. subst d1. eapply stored_status_set_status; [exact Hrow | reflexivity].
  - now rewrite Hc'.
  - now rewrite Hc'.
Qed.

Lemma first_read_after_period_end_is_denied_witness :
  let d := Fixture.database
             (Fixture.subscription "plan_starter" ACTIVE None (Some (30 * Fixture.day))) [] 3 in
  denied "SUBSCRIPTION_PAST_DUE"
    (fst (checkSubscription (30 * Fixture.day + 1) (Fixture.request "u_admin") (quiet d)))
  /\ stored_status Fixture.org
       (db (snd (checkSubscription (30 * Fixture.day + 1) (Fixture.request "u_admin")
                   (quiet d))))
     = Some PAST_DUE
  /\ fst (checkSubscription (31 * Fixture.day) (Fixture.request "u_admin")
            (snd (checkSubscription (30 * Fixture.day + 1) (Fixture.request "u_admin")
                    (quiet d))))
     = Next (attach_subscription
               (Js.Obj {| info_subscription :=
                            Subscription.set_status PAST_DUE
                              (Fixture.subscription "plan_starter" ACTIVE None
                                 (Some (30 * Fixture.day)));
                          info_plan := Fixture.starter |})
               (Js.Obj Fixture.org) (Fixture.request "u_admin"))
  /\ snd (checkSubscription (31 * Fixture.day) (Fixture.request "u_admin")
            (snd (checkSubscription (30 * Fixture.day + 1) (Fixture.request "u_admin")
                    (quiet d))))
     = snd (checkSubscription (30 * Fixture.day + 1) (Fixture.request "u_admin") (quiet d)).
Proof.
  intro d.
  refine (first_read_after_period_end_is_denied (30 * Fixture.day + 1) (31 * Fixture.day)
            (Fixture.request "u_admin") d Fixture.org
            {| info_subscription :=
                 Fixture.subscription "plan_starter" ACTIVE None (Some (30 * Fixture.day));
               info_plan := Fixture.starter |} (30 * Fixture.day) _ _ _ _ _).
  - exists "u_admin", Fixture.admin. repeat split.
  - reflexivity.
  - reflexivity.
  - vm_compute. reflexivity.
  - vm_compute. discriminate.
Defined.

(** ** The middlewares after the guard *)

Lemma enforceEmployeeLimit_db req w : db (snd (enforceEmployeeLimit req w)) = db w.
Proof.
  unfold enforceEmployeeLimit.
  apply (preserves_try_catch (fun d d' => d' = d)).
  destruct (req_subscription req) as [| |info]; try (intros w0; reflexivity).
  destruct (req_organizationId req) as [| |org]; try (intros w0; reflexivity).
  destruct (negb (Js.truthy org)); [intros w0; reflexivity|]. cbv zeta.
  destruct (_ =? -1); [intros w0; reflexivity|].
  apply preserves_bind; [congruence | apply preserves_query; reflexivity |].
  intros c. destruct (_ <=? c); intros w0; reflexivity.
Qed.

(** X6. Of the three middlewares of a guarded route only the guard writes:
    under every fault schedule the database after the whole chain is the
    database after checkSubscription alone, and an answer of the guard is
    the answer of the chain (the later middlewares do not run). *)
Theorem entitlement_chain_writes_by_guard (feature : string) (now : Z) (req : Request)
    (w : World) :
  db (snd (entitlement_chain feature now req w)) = db (snd (checkSubscription now req w))
  /\ (forall r, fst (checkSubscription now req w) = Respond r ->
        entitlement_chain feature now req w = (Respond r, snd (checkSubscription now req w)))
  /\ (forall req', db (snd (enforceEmployeeLimit req' w)) = db w).
Proof.
  unfold entitlement_chain. split; [|split].
  - destruct (checkSubscription now req w) as [[r|req1] w1]; [reflexivity|].
    pose proof (enforceEmployeeLimit_db req1 w1) as H.
    destruct (enforceEmployeeLimit req1 w1) as [[r|req2] w2]; exact H.
  - intros r H. destruct (checkSubscription now req w) as [[r0|req1] w1]; simpl in *.
    + congruence.
    + discriminate.
  - intros req'. apply enforceEmployeeLimit_db.
Qed.

(** ** create-order *)

Lemma opens_payments_refl d : opens_payments d d.
Proof.
  repeat split. exists []. split; [now rewrite app_nil_r | constructor].
Qed.

Lemma opens_payments_trans a b c :
  opens_payments a b -> opens_payments b c -> opens_payments a c.
Proof.
  intros (U1 & P1 & S1 & I1 & A1 & l1 & E1 & F1) (U2 & P2 & S2 & I2 & A2 & l2 & E2 & F2).
  repeat split; try congruence.
  exists (l1 ++ l2). split; [rewrite E2, E1, app_assoc; reflexivity | apply Forall_app; now split].
Qed.

(** X7. Under every fault schedule and for every request, create-order
    changes nothing but the payments table, and there it only adds rows of
    status CREATED: it never touches a subscription, an invoice or a
    payment that exists. *)
Theorem create_order_only_opens_payments (env : Env) (amb : Ambient) (uid : string)
    (body : CreateOrderBody) (w : World) :
  opens_payments (db w) (db (snd (create_order env amb uid body w))).
Proof.
  unfold create_order. apply preserves_try_catch.
  preserve_steps opens_payments_refl opens_payments_trans.
  apply (preserves_prisma _ opens_payments_refl). intros d0.
  cbn. repeat split. eexists. split; [reflexivity|]. constructor; [reflexivity|constructor].
Qed.

Lemma create_order_success env amb uid body d org plan s order :
  create_order_reads env amb uid body d org plan s order ->
  create_order env amb uid body (quiet d)
  = (json
       [("data", VObj
          [("orderId", VStr (fst (fst order)));
           ("amount", VFloat (snd (fst order)));
           ("currency", VStr (snd order));
           ("keyId", VStr (RAZORPAY_KEY_ID env));
           ("planName", VStr (Plan.name plan));
           ("billingCycle", VStr (cycle_name (co_cycle body)));
           ("description",
            VStr (Plan.name plan ++ " Plan - " ++ cycle_label (co_cycle body))%string)])],
     quiet (with_payments
              (payments d ++ [opened_payment amb body org plan s (fst (fst order))]) d)).
Proof.
  intros (Hc & pid & u & Hp & Htp & Hu & Ho & Hto & Hplan & Hcu & Hg & Hs).
  destruct order as [[oid amt] cur].
  unfold create_order, try_catch. rewrite Hc, Hp. cbn [negb Js.truthy_opt Js.or_else].
  rewrite Htp. cbn [negb].
  rewrite bind_query_quiet, Hu, Ho. cbn [Js.truthy_opt Js.or_else]. rewrite Hto. cbn [negb].
  rewrite bind_query_quiet, Hplan, Hcu, Hg.
  rewrite bind_query_quiet, Hs.
  rewrite bind_prisma_quiet. reflexivity.
Qed.
(** X8. What create-order refuses: when the gateway is not configured it
    answers 503 and makes no persistence call; when the gateway rejects the
    order, the answer is never 200 and nothing is written, under every
    fault schedule; a custom plan is answered 400 with nothing written. *)
Theorem create_order_refusals (env : Env) (amb : Ambient) (uid : string)
    (body : CreateOrderBody) :
  (forall w, isRazorpayConfigured env = false ->
     res_status (fst (create_order env amb uid body w)) = 503
     /\ snd (create_order env amb uid body w) = w)
  /\ (forall w, gateway_order amb = None ->
        res_status (fst (create_order env amb uid body w)) <> 200
        /\ db (snd (create_order env amb uid body w)) = db w)
  /\ (forall d pid u plan,
        isRazorpayConfigured env = true ->
        co_planId body = Some pid -> Js.truthy pid = true ->
        user_findUnique uid d = Some u -> Js.truthy_opt (User.organizationId u) = true ->
        plan_findUnique pid d = Some plan -> Plan.isCustom plan = true ->
        res_status (fst (create_order env amb uid body (quiet d))) = 400
        /\ snd (create_order env amb uid body (quiet d)) = quiet d).
Proof.
  split; [|split].
  - intros w H. unfold create_order, try_catch. rewrite H. split; reflexivity.
  - intros [d fs] Hg.
    remember (create_order env amb uid body (mkWorld d fs)) as x eqn:Hx. revert Hx.
    unfold create_order, try_catch. rewrite Hg.
    destruct (negb (isRazorpayConfigured env));
      [intros ->; split; [discriminate|reflexivity]|].
    destruct (negb (Js.truthy_opt (co_planId body)));
      [intros ->; split; [discriminate|reflexivity]|].
    unfold query. step_prisma; try (intros ->; split; [discriminate|reflexivity]).
    all: destruct (user_findUnique uid d) as [u|];
      [|intros ->; split; [discriminate|reflexivity]].
    all: destruct (negb (Js.truthy_opt (User.organizationId u)));
      [intros ->; split; [discriminate|reflexivity]|].
    all: step_prisma; try (intros ->; split; [discriminate|reflexivity]).
    all: destruct (plan_findUnique _ d) as [plan|];
      [|intros ->; split; [discriminate|reflexivity]].
    all: destruct (Plan.isCustom plan); intros ->; split; try discriminate; reflexivity.
  - intros d pid u plan Hc Hp Htp Hu Ho Hplan Hcu.
    unfold create_order, try_catch. rewrite Hc, Hp. cbn [negb Js.truthy_opt Js.or_else].
    rewrite Htp. cbn [negb].
    rewrite bind_query_quiet, Hu, Ho. cbn [negb].
    rewrite bind_query_quiet, Hplan, Hcu. split; reflexivity.
Qed.

(** An order for the Enterprise plan, which is custom. *)
Lemma create_order_refusals_witness :
  let d := Checkout.trial_db 1499 in
  let body := {| co_planId := Some "plan_ent"; co_billingCycle := None |} in
  let amb := Checkout.at_time Fixture.day "9F3A00C1" in
  res_status (fst (create_order Fixture.env amb "u_admin" body (quiet d))) = 400
  /\ snd (create_order Fixture.env amb "u_admin" body (quiet d)) = quiet d.
Proof.
  intros d body amb.
  refine (proj2 (proj2 (create_order_refusals Fixture.env amb "u_admin" body))
            d "plan_ent" Fixture.admin Fixture.enterprise _ _ _ _ _ _ _); reflexivity.
Defined.
(** ** From the order to the invoice *)

Lemma find_app_none {A} (f : A -> bool) (l l' : list A) :
  find f l = None -> find f (l ++ l') = find f l'.
Proof.
  induction l as [|x l IH]; simpl; [reflexivity|].
  destruct (f x); [discriminate | exact IH].
Qed.

Lemma update_rows_absent {R} (key : R -> string) (rid : string) (f : R -> R) (rows : list R) :
  ~ In rid (map key rows) -> update_rows key rid f rows = rows.
Proof.
  induction rows as [|r rows IH]; simpl; [reflexivity|].
  intros H. destruct (String.eqb (key r) rid) eqn:E.
  - apply String.eqb_eq in E. exfalso. apply H. now left.
  - f_equal. apply IH. intros Hin. apply H. now right.
Qed.

(** X9. The checkout round trip.  create-order for a gateway order whose id
    no stored payment carries, followed by verify-payment with a body
    signed for that order, answers 200 and leaves: the payments there were
    and the order's payment, CAPTURED, with the amount of the plan's price;
    one more invoice, whose subtotal is that amount; and the caller's
    subscription ACTIVE on the plan asked for, its period starting at the
    time of the verification. *)
Theorem checkout_round_trip (env : Env) (amb amb' : Ambient) (uid : string)
    (cbody : CreateOrderBody) (vbody : VerifyPaymentBody) (d : Db) (org : string)
    (plan target : Plan.t) (s : Subscription.t) (order : string * float * string)
    (payment_id signature : string) :
  create_order_reads env amb uid cbody d org plan s order ->
  payment_findUnique_order (fst (fst order)) d = None ->
  ~ In (new_row_id amb) (map Payment.id (payments d)) ->
  subscription_findUnique_id (Subscription.id s) d = Some s ->
  (exists p0, plan_findUnique (Subscription.planId s) d = Some p0) ->
  signed_body env vbody (fst (fst order)) payment_id signature ->
  plan_findUnique (Js.or_else (vp_planId vbody) (Subscription.planId s)) d = Some target ->
  let w1 := snd (create_order env amb uid cbody (quiet d)) in
  let out := verify_payment env amb' uid vbody w1 in
  let periodEnd := now amb' + period_length (billingCycle_of vbody) in
  let opened := opened_payment amb cbody org plan s (fst (fst order)) in
  res_status (fst out) = 200
  /\ payments (db (snd out))
     = payments d ++ [capture_by_verify payment_id signature (method_of amb') (now amb') opened]
  /\ Payment.amount opened = (order_amount (co_cycle cbody) plan / 100)%float
  /\ invoices (db (snd out)) = invoices d ++ [invoice_of amb' opened periodEnd]
  /\ Invoice.subtotal (invoice_of amb' opened periodEnd) = Payment.amount opened
  /\ subscription_findUnique_org org (db (snd out))
     = Some (activate (Plan.id target) (now amb') periodEnd (billingCycle_of vbody) s).
Proof.
  intros Hco Hfresh Hid Hsid [p0 Hp0] Hsb Htarget. cbv zeta.
  set (periodEnd := now amb' + period_length (billingCycle_of vbody)).
  set (opened := opened_payment amb cbody org plan s (fst (fst order))).
  assert (Hs : subscription_findUnique_org org d = Some s).
  { destruct Hco as (_ & pid & u & _ & _ & _ & _ & _ & _ & _ & _ & Hs). exact Hs. }
  assert (Htid : Js.or_else (vp_planId vbody) (Subscription.planId s) = Plan.id target).
  { unfold plan_findUnique in Htarget. apply find_some in Htarget.
    destruct Htarget as [_ E]. apply String.eqb_eq in E. now symmetry. }
  rewrite (create_order_success _ _ _ _ _ _ _ _ _ Hco). cbn [snd].
  fold opened.
  set (d1 := with_payments (payments d ++ [opened]) d) in *.
  assert (Hreads : verify_reads env vbody d1 (fst (fst order)) payment_id signature opened s).
  { destruct Hsb as (H1 & H2 & H3 & H4 & H5 & H6 & H7).
    repeat (split; [assumption|]). split.
    - unfold payment_with_subscription, payment_findUnique_order.
      subst d1. cbn [payments with_payments].
      unfold payment_findUnique_order in Hfresh. rewrite (find_app_none _ _ _ Hfresh).
      unfold opened at 1.
      cbn [find opened_payment Payment.razorpayOrderId Payment.subscriptionId].
      rewrite String.eqb_refl.
      unfold subscription_findUnique_id in *. cbn [subscriptions with_payments].
      change (Payment.subscriptionId (opened_payment amb cbody org plan s (fst (fst order))))
        with (Subscription.id s).
      rewrite Hsid. rewrite (plan_findUnique_plans _ _ d) by reflexivity. rewrite Hp0.
      reflexivity.
    - exists target. rewrite (plan_findUnique_plans _ _ d) by reflexivity. exact Htarget. }
  destruct (verify_payment_success env amb' uid vbody d1 _ _ _ _ _ Hreads) as (r & E & H200 & _).
  rewrite E. cbn [fst snd db quiet].
  unfold verified_db. cbn [payments invoices subscriptions].
  split; [exact H200|]. split; [|split; [reflexivity|split; [reflexivity|split; [reflexivity|]]]].
  - subst d1. cbn [payments with_payments]. unfold update_rows at 1. rewrite map_app.
    fold (update_rows Payment.id (Payment.id opened)
            (capture_by_verify payment_id signature
               match fetched_method amb' with
               | Some m => if Js.truthy m then Some m else None
               | None => None
               end (now amb')) (payments d)).
    rewrite update_rows_absent by exact Hid.
    cbn [map]. rewrite String.eqb_refl. reflexivity.
  - unfold subscription_findUnique_org in *. subst d1. cbn [subscriptions with_payments].
    rewrite find_update_rows by reflexivity. rewrite Hs. cbn [option_map].
    cbn [opened opened_payment Payment.subscriptionId]. rewrite String.eqb_refl.
    rewrite Htid. reflexivity.
Qed.
(** The fixture tenant, in trial on Starter, orders Professional and pays. *)
Lemma checkout_round_trip_witness :
  let d := Fixture.database
             (Fixture.subscription "plan_starter" TRIAL (Some (14 * Fixture.day)) None) [] 3 in
  let w1 := snd (create_order Fixture.env (Checkout.at_time Fixture.day "9F3A00C1") "u_admin"
                   {| co_planId := Some "plan_pro"; co_billingCycle := Some MONTHLY |}
                   (quiet d)) in
  res_status (fst (verify_payment Fixture.env (Checkout.at_time (2 * Fixture.day) "0B77E2D4")
                     "u_admin" Checkout.body w1)) = 200.
Proof.
  intros d w1.
  refine (proj1 (checkout_round_trip Fixture.env (Checkout.at_time Fixture.day "9F3A00C1")
                   (Checkout.at_time (2 * Fixture.day) "0B77E2D4") "u_admin"
                   {| co_planId := Some "plan_pro"; co_billingCycle := Some MONTHLY |}
                   Checkout.body d Fixture.org Fixture.professional Fixture.professional
                   (Fixture.subscription "plan_starter" TRIAL (Some (14 * Fixture.day)) None)
                   ("order_1", 149900%float, "INR") "pay_1"
                   (Crypto.hmac_sha256_hex "key_secret" "order_1|pay_1")
                   _ _ _ _ _ _ _)).
  - split; [reflexivity|]. exists "plan_pro", Fixture.admin. repeat split.
  - reflexivity.
  - simpl. tauto.
  - reflexivity.
  - exists Fixture.starter. reflexivity.
  - repeat split; vm_compute; reflexivity.
  - reflexivity.
Defined.

(** X10. A verified payment revives the subscription whatever its status
    was (SUSPENDED, CANCELLED and EXPIRED included): after a successful
    verify-payment, every guard read of a member of the organization made
    no later than the new period end is passed through and writes
    nothing, with the subscription ACTIVE on the plan the request body
    names in [planId], or on the plan it had when the body names none.
    (The handler does not compare that plan with the order or with the
    amount paid.) *)
Theorem verify_payment_revives (env : Env) (amb : Ambient) (uid : string)
    (body : VerifyPaymentBody) (d : Db) (order_id payment_id signature : string)
    (p : Payment.t) (s : Subscription.t) (req : Request) (caller org : string) (now' : Z) :
  verify_reads env body d order_id payment_id signature p s ->
  req_user req = Some caller -> Js.truthy caller = true ->
  member_of caller d org ->
  subscription_findUnique_org org d = Some s ->
  now' <= now amb + period_length (billingCycle_of body) ->
  let w1 := snd (verify_payment env amb uid body (quiet d)) in
  exists info,
    checkSubscription now' req w1
    = (Next (attach_subscription (Js.Obj info) (Js.Obj org) req), w1)
    /\ Subscription.status (info_subscription info) = ACTIVE
    /\ Subscription.planId (info_subscription info) = Plan.id (info_plan info)
    /\ Plan.id (info_plan info) = Js.or_else (vp_planId body) (Subscription.planId s).
Proof.
  intros H Hreq Htc (u & Hu & Horg & Hto) Hs Hle. cbv zeta.
  destruct (verify_payment_success env amb uid body d _ _ _ _ _ H) as (r & -> & _).
  cbn [snd].
  destruct H as (_ & _ & _ & _ & _ & _ & _ & Hread & plan & Hplan).
  assert (Hsid : Subscription.id s = Payment.subscriptionId p).
  { unfold payment_with_subscription in Hread.
    destruct (payment_findUnique_order order_id d) as [p0|]; [|discriminate].
    destruct (subscription_findUnique_id (Payment.subscriptionId p0) d) as [s0|] eqn:Es;
      [|discriminate].
    destruct (plan_findUnique (Subscription.planId s0) d); [|discriminate].
    inversion Hread; subst. unfold subscription_findUnique_id in Es.
    apply find_some in Es. destruct Es as [_ E]. now apply String.eqb_eq in E. }
  assert (Hpid : Plan.id plan = Js.or_else (vp_planId body) (Subscription.planId s)).
  { unfold plan_findUnique in Hplan. apply find_some in Hplan.
    destruct Hplan as [_ E]. now apply String.eqb_eq in E. }
  set (d1 := verified_db amb uid body payment_id signature p s d).
  set (s1 := activate (Js.or_else (vp_planId body) (Subscription.planId s)) (now amb)
               (now amb + period_length (billingCycle_of body)) (billingCycle_of body) s).
  assert (Hg : guard_reads req d1 org {| info_subscription := s1; info_plan := plan |}).
  { exists caller, u. repeat split; try assumption.
    unfold subscription_with_plan, subscription_findUnique_org in *.
    subst d1. unfold verified_db. cbn [subscriptions].
    rewrite find_update_rows by reflexivity. rewrite Hs. cbn [option_map].
    rewrite Hsid, String.eqb_refl. fold s1.
    rewrite (plan_findUnique_plans _ _ d) by reflexivity.
    subst s1. cbn [activate Subscription.planId]. rewrite Hplan. reflexivity. }
  pose proof (checkSubscription_cases now' req d1 _ _ Hg) as Hc.
  cbv zeta in Hc. cbn [info_subscription] in Hc.
  subst s1. cbn [activate Subscription.status Subscription.currentPeriodEnd] in Hc.
  unfold date_gt in Hc.
  replace (now amb + period_length (billingCycle_of body) <? now') with false in Hc
    by (symmetry; apply Z.ltb_ge; lia).
  eexists. split; [exact Hc|]. cbn [info_subscription info_plan activate
                                    Subscription.status Subscription.planId].
  split; [reflexivity|]. split; congruence.
Qed.

(** The fixture tenant, SUSPENDED on Starter, has an open order made for
    Starter (499); the verification names Professional, and the tenant is
    let through on Professional twenty days later. *)
Lemma verify_payment_revives_witness :
  let s := Fixture.subscription "plan_starter" SUSPENDED None (Some (30 * Fixture.day)) in
  let order := opened_payment (Checkout.at_time (39 * Fixture.day) "5C01D2E3")
                 {| co_planId := Some "plan_starter"; co_billingCycle := None |}
                 Fixture.org Fixture.starter s "order_1" in
  let d := Fixture.database s [order] 3 in
  let w1 := snd (verify_payment Fixture.env (Checkout.at_time (40 * Fixture.day) "9F3A00C1")
                   "u_admin" Checkout.body (quiet d)) in
  exists info,
    checkSubscription (60 * Fixture.day) (Fixture.request "u_emp0") w1
    = (Next (attach_subscription (Js.Obj info) (Js.Obj Fixture.org)
               (Fixture.request "u_emp0")), w1)
    /\ Subscription.status (info_subscription info) = ACTIVE
    /\ Subscription.planId (info_subscription info) = Plan.id (info_plan info)
    /\ Plan.id (info_plan info) = "plan_pro".
Proof.
  intros s order d w1.
  refine (verify_payment_revives Fixture.env (Checkout.at_time (40 * Fixture.day) "9F3A00C1")
            "u_admin" Checkout.body d "order_1" "pay_1"
            (Crypto.hmac_sha256_hex "key_secret" "order_1|pay_1")
            order s (Fixture.request "u_emp0") "u_emp0" Fixture.org (60 * Fixture.day)
            _ _ _ _ _ _).
  - repeat split; try (vm_compute; reflexivity).
    exists Fixture.professional. reflexivity.
  - reflexivity.
  - reflexivity.
  - eexists. repeat split; vm_compute; reflexivity.
  - reflexivity.
  - vm_compute. discriminate.
Defined.
(** ** The invoice listing and the usage report *)

(** X11. The invoice listing is read-only and never shows another
    tenant's invoice: under every fault schedule the database is left as
    it was, an answer that is not a listing is a 404 or a 500, and every
    invoice listed is a stored invoice of the subscription of the caller's
    own organization. *)
Theorem list_invoices_own_only (uid : string) (w : World) :
  db (snd (list_invoices uid w)) = db w
  /\ match fst (list_invoices uid w) with
     | Listed l =>
         forall i, In i l ->
           In i (invoices (db w))
           /\ exists u org s,
                user_findUnique uid (db w) = Some u
                /\ User.organizationId u = Some org
                /\ subscription_findUnique_org org (db w) = Some s
                /\ Invoice.subscriptionId i = Subscription.id s
     | NotListed r => res_status r = 404 \/ res_status r = 500
     end.
Proof.
  destruct w as [d fs]. cbn [db].
  remember (list_invoices uid (mkWorld d fs)) as x eqn:Hx. revert Hx.
  unfold list_invoices, try_catch, query.
  step_prisma; try (intros ->; split; [reflexivity | cbn; tauto]).
  all: destruct (user_findUnique uid d) as [u|] eqn:Eu;
    [|intros ->; split; [reflexivity | cbn; tauto]].
  all: destruct (User.organizationId u) as [org|] eqn:Eo; cbn [Js.truthy_opt Js.or_else negb];
    [|intros ->; split; [reflexivity | cbn; tauto]].
  all: destruct (Js.truthy org); cbn [negb];
    [|intros ->; split; [reflexivity | cbn; tauto]].
  all: step_prisma; try (intros ->; split; [reflexivity | cbn; tauto]).
  all: destruct (subscription_findUnique_org org d) as [s|] eqn:Es;
    [|intros ->; split; [reflexivity | cbn; intros i []]].
  all: step_prisma; try (intros ->; split; [reflexivity | cbn; tauto]).
  all: intros ->; split; [reflexivity|]; cbn [fst]; intros i Hi.
  all: unfold invoice_findMany in Hi; apply in_rev in Hi; apply filter_In in Hi.
  all: destruct Hi as [Hin E]; apply String.eqb_eq in E.
  all: split; [exact Hin|]; exists u, org, s; now repeat split.
Qed.
(** X12. After a successful verify-payment, the invoice listing of a
    member of the organization shows the invoice just created first,
    followed by the listing as it was before the payment. *)
Theorem new_invoice_is_listed_first (env : Env) (amb : Ambient) (uid : string)
    (body : VerifyPaymentBody) (d : Db) (order_id payment_id signature : string)
    (p : Payment.t) (s : Subscription.t) (caller org : string) :
  verify_reads env body d order_id payment_id signature p s ->
  member_of caller d org ->
  subscription_findUnique_org org d = Some s ->
  let w1 := snd (verify_payment env amb uid body (quiet d)) in
  fst (list_invoices caller (quiet d)) = Listed (invoice_findMany (Subscription.id s) d)
  /\ list_invoices caller w1
     = (Listed (invoice_of amb p (now amb + period_length (billingCycle_of body))
                :: invoice_findMany (Subscription.id s) d), w1).
Proof.
  intros H (u & Hu & Horg & Hto) Hs. cbv zeta.
  destruct (verify_payment_success env amb uid body d _ _ _ _ _ H) as (r & -> & _).
  cbn [snd].
  destruct H as (_ & _ & _ & _ & _ & _ & _ & Hread & _).
  assert (Hsid : Subscription.id s = Payment.subscriptionId p).
  { unfold payment_with_subscription in Hread.
    destruct (payment_findUnique_order order_id d) as [p0|]; [|discriminate].
    destruct (subscription_findUnique_id (Payment.subscriptionId p0) d) as [s0|] eqn:Es;
      [|discriminate].
    destruct (plan_findUnique (Subscription.planId s0) d); [|discriminate].
    inversion Hread; subst. unfold subscription_findUnique_id in Es.
    apply find_some in Es. destruct Es as [_ E]. now apply String.eqb_eq in E. }
  split.
  - unfold list_invoices, try_catch.
    rewrite bind_query_quiet, Hu, Horg. cbn [Js.truthy_opt Js.or_else]. rewrite Hto.
    cbn [negb]. rewrite bind_query_quiet, Hs. rewrite bind_query_quiet. reflexivity.
  - unfold list_invoices, try_catch.
    rewrite bind_query_quiet.
    unfold user_findUnique in *. unfold verified_db at 1. cbn [users]. rewrite Hu, Horg.
    cbn [Js.truthy_opt Js.or_else]. rewrite Hto. cbn [negb].
    rewrite bind_query_quiet.
    unfold subscription_findUnique_org in *. unfold verified_db at 1. cbn [subscriptions].
    rewrite find_update_rows by reflexivity. rewrite Hs. cbn [option_map].
    rewrite Hsid, String.eqb_refl. rewrite bind_query_quiet.
    cbn [activate Subscription.id]. unfold invoice_findMany.
    unfold verified_db at 1. cbn [invoices].
    rewrite filter_app, rev_app_distr.
    cbn [filter invoice_of Invoice.subscriptionId]. rewrite Hsid, String.eqb_refl.
    reflexivity.
Qed.

Lemma new_invoice_is_listed_first_witness :
  let d := Checkout.trial_db 1499 in
  let amb := Checkout.at_time (5 * Fixture.day) "9F3A00C1" in
  let w1 := snd (verify_payment Fixture.env amb "u_admin" Checkout.body (quiet d)) in
  list_invoices "u_emp1" w1
  = (Listed [invoice_of amb (Fixture.checkout 1499 CREATED) (35 * Fixture.day)], w1).
Proof.
  intros d amb w1.
  refine (proj2 (new_invoice_is_listed_first Fixture.env amb "u_admin" Checkout.body d
                   "order_1" "pay_1" (Crypto.hmac_sha256_hex "key_secret" "order_1|pay_1")
                   (Fixture.checkout 1499 CREATED)
                   (Fixture.subscription "plan_starter" TRIAL (Some (14 * Fixture.day)) None)
                   "u_emp1" Fixture.org _ _ _)).
  - repeat split; try (vm_compute; reflexivity).
    exists Fixture.professional. reflexivity.
  - eexists. repeat split; vm_compute; reflexivity.
  - reflexivity.
Defined.

(** The seat guard on a request that carries a subscription. *)
Lemma enforceEmployeeLimit_run req d org info :
  entitled req org info ->
  enforceEmployeeLimit req (quiet d)
  = (if Plan.maxEmployees (info_plan info) =? -1 then Next req
     else if Plan.maxEmployees (info_plan info) <=? countActiveSeats org d
          then Respond (status_json 403
                 [("error", VStr "Employee limit reached");
                  ("code", VStr "EMPLOYEE_LIMIT_REACHED");
                  ("currentCount", VNum (countActiveSeats org d));
                  ("maxAllowed", VNum (Plan.maxEmployees (info_plan info)));
                  ("planName", VStr (Plan.name (info_plan info)));
                  redirect])
          else Next (attach_counts (countActiveSeats org d)
                       (Plan.maxEmployees (info_plan info)) req),
     quiet d).
Proof.
  intros (Hs & Ho & Ht). unfold enforceEmployeeLimit, try_catch. rewrite Hs, Ho, Ht.
  cbn [negb]. destruct (_ =? -1); [reflexivity|].
  rewrite bind_query_quiet. destruct (_ <=? _); reflexivity.
Qed.

(** X13. The usage report and the seat guard agree.  For a member of an
    organization with a subscription, /usage answers 200 without writing;
    for a plan of ceiling -1 it reports -1 seats remaining and the guard
    lets a new employee through; for any other ceiling the seats remaining
    are never negative, and they are 0 exactly when enforceEmployeeLimit
    answers EMPLOYEE_LIMIT_REACHED. *)
Theorem usage_agrees_with_seat_guard (uid : string) (d : Db) (org : string)
    (info : SubscriptionInfo) (req : Request) :
  member_of uid d org ->
  subscription_with_plan org d = (Ok (Some info), d) ->
  entitled req org info ->
  let out := usage uid (quiet d) in
  let N := Plan.maxEmployees (info_plan info) in
  let guard := fst (enforceEmployeeLimit req (quiet d)) in
  snd out = quiet d /\ res_status (fst out) = 200
  /\ data_at ["employees"; "limit"] (fst out) = Some (VNum N)
  /\ exists remaining,
       data_at ["employees"; "remaining"] (fst out) = Some (VNum remaining)
       /\ (N = -1 -> remaining = -1 /\ guard = Next req)
       /\ (N <> -1 ->
           0 <= remaining
           /\ (remaining = 0 <-> denied "EMPLOYEE_LIMIT_REACHED" guard)).
Proof.
  intros (u & Hu & Horg & Hto) Hsub He. cbv zeta.
  pose proof (enforceEmployeeLimit_run req d org info He) as Hg.
  assert (Hunl : Plan.maxEmployees (info_plan info) = -1 ->
                 fst (enforceEmployeeLimit req (quiet d)) = Next req).
  { intros Hn. rewrite Hg, Hn. reflexivity. }
  assert (Hfull : Plan.maxEmployees (info_plan info) <> -1 ->
                  Plan.maxEmployees (info_plan info) <= countActiveSeats org d ->
                  denied "EMPLOYEE_LIMIT_REACHED" (fst (enforceEmployeeLimit req (quiet d)))).
  { intros Hn Hle. rewrite Hg.
    replace (Plan.maxEmployees (info_plan info) =? -1) with false
      by (symmetry; now apply Z.eqb_neq).
    replace (Plan.maxEmployees (info_plan info) <=? countActiveSeats org d) with true
      by (symmetry; now apply Z.leb_le).
    eexists. repeat split. }
  assert (Hroom : Plan.maxEmployees (info_plan info) <> -1 ->
                  countActiveSeats org d < Plan.maxEmployees (info_plan info) ->
                  fst (enforceEmployeeLimit req (quiet d))
                  = Next (attach_counts (countActiveSeats org d)
                            (Plan.maxEmployees (info_plan info)) req)).
  { intros Hn Hlt. rewrite Hg.
    replace (Plan.maxEmployees (info_plan info) =? -1) with false
      by (symmetry; now apply Z.eqb_neq).
    replace (Plan.maxEmployees (info_plan info) <=? countActiveSeats org d) with false
      by (symmetry; now apply Z.leb_gt).
    reflexivity. }
  assert (E : usage uid (quiet d)
              = (json
                   [("data", VObj
                      [("employees", VObj
                          [("total", VNum (countEmployees org d));
                           ("active", VNum (countActiveSeats org d));
                           ("limit", VNum (Plan.maxEmployees (info_plan info)));
                           ("remaining",
                            VNum (seats_remaining (Plan.maxEmployees (info_plan info))
                                    (countActiveSeats org d)));
                           ("percentUsed",
                            VFloat (percent_used (Plan.maxEmployees (info_plan info))
                                      (countActiveSeats org d)))]);
                       ("totalUsers", VNum (countUsers org d));
                       ("plan", VStr (Plan.name (info_plan info)));
                       ("features", VObj
                          [("payroll", VBool (Plan.hasPayroll (info_plan info)));
                           ("advancedAnalytics",
                            VBool (Plan.hasAdvancedAnalytics (info_plan info)));
                           ("customIntegrations",
                            VBool (Plan.hasCustomIntegrations (info_plan info)));
                           ("prioritySupport",
                            VBool (Plan.hasPrioritySupport (info_plan info)))])])],
                 quiet d)).
  { unfold usage, try_catch.
    rewrite bind_query_quiet, Hu, Horg. cbn [Js.truthy_opt Js.or_else]. rewrite Hto.
    cbn [negb]. rewrite bind_prisma_quiet, Hsub. cbn [fst snd].
    rewrite !bind_query_quiet. reflexivity. }
  rewrite E. cbn [fst snd]. do 3 (split; [reflexivity|]).
  exists (seats_remaining (Plan.maxEmployees (info_plan info)) (countActiveSeats org d)).
  split; [reflexivity|]. unfold seats_remaining.
  assert (Hc : 0 <= countActiveSeats org d) by (unfold countActiveSeats; lia).
  split.
  - intros Hn. rewrite Hn. split; [reflexivity | now apply Hunl].
  - intros Hn. replace (Plan.maxEmployees (info_plan info) =? -1) with false
      by (symmetry; now apply Z.eqb_neq).
    split; [lia|]. split.
    + intros H0. apply Hfull; [exact Hn | lia].
    + intros (r & Hr & _ & _).
      destruct (Z.le_gt_cases (Plan.maxEmployees (info_plan info)) (countActiveSeats org d))
        as [Hle|Hgt]; [lia|].
      rewrite (Hroom Hn Hgt) in Hr. discriminate.
Qed.

(** Starter (25 seats) with 25 active seats. *)
Lemma usage_agrees_with_seat_guard_witness :
  let d := Fixture.database (Fixture.subscription "plan_starter" ACTIVE None None) [] 24 in
  let info := {| info_subscription := Fixture.subscription "plan_starter" ACTIVE None None;
                 info_plan := Fixture.starter |} in
  data_at ["employees"; "limit"] (fst (usage "u_admin" (quiet d))) = Some (VNum 25).
Proof.
  intros d info.
  refine (proj1 (proj2 (proj2
    (usage_agrees_with_seat_guard "u_admin" d Fixture.org info
       (attach_subscription (Js.Obj info) (Js.Obj Fixture.org) (Fixture.request "u_admin"))
       _ _ _)))).
  - exists Fixture.admin. repeat split.
  - reflexivity.
  - repeat split.
Defined.
(** ** The webhook: what it answers, what it may write, replays *)

Lemma same_orders_refl d : same_orders d d.
Proof. repeat split. Qed.

Lemma same_orders_trans a b c : same_orders a b -> same_orders b c -> same_orders a c.
Proof. unfold same_orders. intuition congruence. Qed.

Lemma payment_update_same_orders pid f d :
  (forall p, (Payment.id (f p), Payment.subscriptionId (f p), Payment.amount (f p),
              Payment.currency (f p), Payment.razorpayOrderId (f p), Payment.receipt (f p))
             = (Payment.id p, Payment.subscriptionId p, Payment.amount p,
                Payment.currency p, Payment.razorpayOrderId p, Payment.receipt p)) ->
  same_orders d (snd (payment_update pid f d)).
Proof.
  intros Hf. unfold payment_update. destruct (find _ (payments d)); [|apply same_orders_refl].
  repeat split. cbn [snd payments with_payments]. unfold update_rows. rewrite map_map.
  apply map_ext. intros p. destruct (String.eqb (Payment.id p) pid); [apply Hf | reflexivity].
Qed.

(** X14. Whatever it is sent and whatever fails, the webhook answers
    either 400 "Invalid signature", having made no persistence call, or
    200 "received" (an event it cannot process and a persistence call
    that rejects are answered 200 as well).  It writes no table but
    payments, and there it leaves every row's id, subscription, amount,
    currency, order id and receipt as stored. *)
Theorem webhook_acknowledges (env : Env) (t : Z) (req : WebhookRequest) (w : World) :
  (webhook env t req w = (status_json 400 [("error", VStr "Invalid signature")], w)
   \/ fst (webhook env t req w) = received)
  /\ same_orders (db w) (db (snd (webhook env t req w))).
Proof.
  split.
  - unfold webhook, try_catch. cbv zeta. destruct (_ && _); [now left|]. right.
    unfold bind. destruct (webhook_switch t (wh_body req) w) as [[u|] w1]; reflexivity.
  - rewrite webhook_world. destruct (_ && _); [apply same_orders_refl|].
    assert (H : preserves same_orders (webhook_switch t (wh_body req))); [|apply H].
    unfold webhook_switch, payload_entity.
    preserve_steps same_orders_refl same_orders_trans;
      apply (preserves_prisma _ same_orders_refl); intros d0;
      apply payment_update_same_orders; intros q; reflexivity.
Qed.

(** The handler of a payment.captured event, as a function of the event:
    the order id it looks up ([None] when reading it throws) and the
    columns it stores for the payment found. *)
Lemma webhook_switch_captured event :
  event_status event = Some CAPTURED ->
  exists (key : option string) (cols : Payment.t -> option (option string * option string)),
    forall t d,
      webhook_switch t event (quiet d)
      = match key with
        | None => (Throw, quiet d)
        | Some k =>
            match payment_findUnique_order k d with
            | None => (Ok tt, quiet d)
            | Some p =>
                if PaymentStatus_eqb (Payment.status p) CAPTURED then (Ok tt, quiet d)
                else match cols p with
                     | None => (Throw, quiet d)
                     | Some (i, m) =>
                         (Ok tt,
                          quiet (with_payments
                                   (update_rows Payment.id (Payment.id p)
                                      (capture_by_webhook i m t) (payments d)) d))
                     end
            end
        end.
Proof.
  unfold event_status, webhook_switch, payload_entity.
  destruct (Json.get "event" (Some event)) as [ty|] eqn:Ety; [|discriminate].
  destruct (is_event "payment.captured" ty) eqn:Ecap;
    [intros _ | destruct (is_event "payment.failed" ty);
                [discriminate | destruct (is_event "refund.created" ty); discriminate]].
  destruct (Json.get "payload" (Some event)) as [payload|] eqn:E1;
    [| exists None, (fun _ => None); intros t d; now run_lifts ].
  destruct (Json.get "payment" payload) as [inner|] eqn:E2;
    [| exists None, (fun _ => None); intros t d; now run_lifts ].
  destruct (Json.get "entity" inner) as [entity|] eqn:E3;
    [| exists None, (fun _ => None); intros t d; now run_lifts ].
  destruct (Json.get "order_id" entity) as [order_id|] eqn:E4;
    [| exists None, (fun _ => None); intros t d; now run_lifts ].
  destruct (unique_key order_id) as [k|] eqn:E5;
    [| exists None, (fun _ => None); intros t d; now run_lifts ].
  exists (Some k),
    (fun p => match Json.get "id" entity, Json.get "method" entity with
              | Ok id, Ok method =>
                  match column id (Payment.razorpayPaymentId p),
                        column method (Payment.method p) with
                  | Ok i, Ok m => Some (i, m)
                  | _, _ => None
                  end
              | _, _ => None
              end).
  intros t d. run_lifts. rewrite bind_query_quiet.
  destruct (payment_findUnique_order k d) as [p|] eqn:Ep; [|reflexivity].
  destruct (PaymentStatus_eqb (Payment.status p) CAPTURED); [reflexivity|]. cbn [negb].
  rewrite bind_lift. destruct (Json.get "id" entity) as [id|]; [|reflexivity].
  rewrite bind_lift. destruct (Json.get "method" entity) as [method|]; [|reflexivity].
  rewrite bind_lift. destruct (column id (Payment.razorpayPaymentId p)) as [i|]; [|reflexivity].
  rewrite bind_lift. destruct (column method (Payment.method p)) as [m|]; [|reflexivity].
  rewrite prisma_quiet. unfold payment_update.
  destruct (find_witness _ (fun q => String.eqb (Payment.id q) (Payment.id p)) _ _ Ep
              (String.eqb_refl _)) as [p0 Hp0].
  rewrite Hp0. reflexivity.
Qed.

(** X15. Replaying a payment.captured event is a no-op: once a webhook
    request carrying such an event has been handled, handling the same
    request again, at any time, leaves the database as the first handling
    left it (the payment found CAPTURED is skipped). *)
Theorem webhook_capture_replay (env : Env) (t t' : Z) (req : WebhookRequest) (d : Db) :
  event_status (wh_body req) = Some CAPTURED ->
  let w1 := snd (webhook env t req (quiet d)) in
  snd (webhook env t' req w1) = w1.
Proof.
  intros H. cbv zeta. rewrite !webhook_world.
  destruct (_ && _); [reflexivity|].
  destruct (webhook_switch_captured _ H) as (key & cols & Hsw).
  rewrite (Hsw t d).
  destruct key as [k|]; [|cbn [snd]; now rewrite Hsw].
  destruct (payment_findUnique_order k d) as [p|] eqn:Ep;
    [|cbn [snd]; now rewrite Hsw, Ep].
  destruct (PaymentStatus_eqb (Payment.status p) CAPTURED) eqn:Est;
    [cbn [snd]; now rewrite Hsw, Ep, Est|].
  destruct (cols p) as [[i m]|] eqn:Ec; [|cbn [snd]; now rewrite Hsw, Ep, Est, Ec].
  cbn [snd]. rewrite Hsw.
  unfold payment_findUnique_order in *. cbn [payments with_payments].
  rewrite find_update_rows by reflexivity. rewrite Ep. cbn [option_map].
  rewrite String.eqb_refl. reflexivity.
Qed.

Lemma webhook_capture_replay_witness :
  let d := Checkout.trial_db 1499 in
  let event := Event.payment "payment.captured" "order_1" "pay_1" in
  let req := Event.signed Fixture.env (Json.stringify event) event in
  snd (webhook Fixture.env (6 * Fixture.day) req
         (snd (webhook Fixture.env (5 * Fixture.day) req (quiet d))))
  = snd (webhook Fixture.env (5 * Fixture.day) req (quiet d)).
Proof.
  intros d event req.
  refine (webhook_capture_replay Fixture.env (5 * Fixture.day) (6 * Fixture.day) req d _).
  reflexivity.
Defined.
(** ** change-plan *)

Lemma same_terms_refl d : same_terms d d.
Proof. repeat split. Qed.

Lemma same_terms_trans a b c : same_terms a b -> same_terms b c -> same_terms a c.
Proof. unfold same_terms. intuition congruence. Qed.

Lemma subscription_update_same_terms sid f d :
  (forall s, (Subscription.id (f s), Subscription.organizationId (f s),
              Subscription.status (f s), Subscription.trialEndDate (f s),
              Subscription.currentPeriodStart (f s), Subscription.currentPeriodEnd (f s),
              Subscription.billingCycle (f s))
             = (Subscription.id s, Subscription.organizationId s, Subscription.status s,
                Subscription.trialEndDate s, Subscription.currentPeriodStart s,
                Subscription.currentPeriodEnd s, Subscription.billingCycle s)) ->
  same_terms d (snd (subscription_update sid f d)).
Proof.
  intros Hf. unfold subscription_update.
  destruct (subscription_findUnique_id sid d); [|apply same_terms_refl].
  repeat split. cbn [snd subscriptions with_subscriptions]. unfold update_rows.
  rewrite map_map. apply map_ext. intros s.
  destruct (String.eqb (Subscription.id s) sid); [apply Hf | reflexivity].
Qed.

(** X16. change-plan never charges, activates or extends anything: under
    every fault schedule and for every request it leaves users, plans,
    payments, invoices and the audit log as they were, and of every
    subscription the status, the trial end, the period and the billing
    cycle; only a plan id or the pending-change record may differ. *)
Theorem change_plan_keeps_terms (uid : string) (planId : option string) (w : World) :
  same_terms (db w) (db (snd (change_plan uid planId w))).
Proof.
  unfold change_plan. apply preserves_try_catch.
  preserve_steps same_terms_refl same_terms_trans;
    apply (preserves_prisma _ same_terms_refl); intros d0;
    first [ rewrite subscription_with_plan_reads; apply same_terms_refl
          | apply subscription_update_same_terms; intros q; reflexivity ].
Qed.

(** X17. In trial a plan change is applied at once and without payment,
    whatever the prices: when change-plan's reads succeed, the
    subscription is in TRIAL and the seats fit the target plan, the answer
    is 200, the subscription is stored on the target plan with the trial
    going on, and the next read of the subscription with its plan (the
    guard's) gives the target plan. *)
Theorem change_plan_in_trial (uid pid : string) (d : Db) (org : string)
    (newPlan : Plan.t) (info : SubscriptionInfo) :
  change_plan_reads uid pid d org newPlan info ->
  Subscription.status (info_subscription info) = TRIAL ->
  (Plan.maxEmployees newPlan = -1 \/ countActiveSeats org d <= Plan.maxEmployees newPlan) ->
  let out := change_plan uid (Some pid) (quiet d) in
  let s' := Subscription.set_planId (Plan.id newPlan) (info_subscription info) in
  res_status (fst out) = 200
  /\ Subscription.status s' = TRIAL
  /\ subscription_with_plan org (db (snd out))
     = (Ok (Some {| info_subscription := s'; info_plan := newPlan |}), db (snd out)).
Proof.
  intros H Hst Hseat.
  pose proof (change_plan_cases uid pid d org newPlan info H) as Hc. cbv zeta in *.
  replace (negb (Plan.maxEmployees newPlan =? -1)
           && (Plan.maxEmployees newPlan <? countActiveSeats org d)) with false in Hc
    by (symmetry; apply andb_false_iff; destruct Hseat;
        [left; apply negb_false_iff; lia | right; lia]).
  rewrite Hst in Hc. destruct Hc as (H200 & _ & Hw).
  split; [exact H200|]. split; [exact Hst|]. rewrite Hw. cbn [db quiet].
  destruct H as (_ & u & _ & _ & _ & Hplan & _ & Hsub).
  unfold subscription_with_plan in *. unfold subscription_findUnique_org in *.
  cbn [subscriptions with_subscriptions].
  rewrite find_update_rows by reflexivity.
  destruct (find _ (subscriptions d)) as [s|]; [|discriminate].
  destruct (plan_findUnique (Subscription.planId s) d); [|discriminate].
  injection Hsub as <-. cbn [option_map info_subscription]. rewrite String.eqb_refl.
  rewrite (plan_findUnique_plans _ _ d) by reflexivity.
  cbn [Subscription.set_planId Subscription.planId].
  assert (Hid : Plan.id newPlan = pid).
  { unfold plan_findUnique in Hplan. apply find_some in Hplan.
    destruct Hplan as [_ E]. now apply String.eqb_eq in E. }
  rewrite Hid, Hplan. reflexivity.
Qed.

(** The fixture tenant moves from Starter to Professional while in trial. *)
Lemma change_plan_in_trial_witness :
  let d := Fixture.database
             (Fixture.subscription "plan_starter" TRIAL (Some (14 * Fixture.day)) None) [] 3 in
  res_status (fst (change_plan "u_admin" (Some "plan_pro") (quiet d))) = 200.
Proof.
  intro d.
  refine (proj1 (change_plan_in_trial "u_admin" "plan_pro" d Fixture.org Fixture.professional
                   {| info_subscription :=
                        Fixture.subscription "plan_starter" TRIAL (Some (14 * Fixture.day)) None;
                      info_plan := Fixture.starter |} _ _ _)).
  - split; [reflexivity|]. exists Fixture.admin. repeat split.
  - reflexivity.
  - right. vm_compute. discriminate.
Defined.
(** ** verify-payment: what is refused *)

(** X18. verify-payment writes nothing without a valid signature.  When
    one of the three gateway fields is missing or empty, and when the
    signature is not the HMAC-SHA256 hex digest of [order_id|payment_id]
    under the key secret, the answer is 400 and no persistence call is
    made, whatever the world; when no stored payment carries the order
    id, the answer is 400 or 404 and the database is untouched. *)
Theorem verify_payment_rejections (env : Env) (amb : Ambient) (uid : string)
    (body : VerifyPaymentBody) :
  (forall w,
     Js.truthy_opt (razorpay_order_id body) && Js.truthy_opt (razorpay_payment_id body)
       && Js.truthy_opt (razorpay_signature body) = false ->
     res_status (fst (verify_payment env amb uid body w)) = 400
     /\ snd (verify_payment env amb uid body w) = w)
  /\ (forall w,
        verifyRazorpaySignature env (Js.or_else (razorpay_order_id body) "")
          (Js.or_else (razorpay_payment_id body) "")
          (Js.or_else (razorpay_signature body) "") = false ->
        res_status (fst (verify_payment env amb uid body w)) = 400
        /\ snd (verify_payment env amb uid body w) = w)
  /\ (forall d,
        payment_findUnique_order (Js.or_else (razorpay_order_id body) "") d = None ->
        (res_status (fst (verify_payment env amb uid body (quiet d))) = 400
         \/ res_status (fst (verify_payment env amb uid body (quiet d))) = 404)
        /\ snd (verify_payment env amb uid body (quiet d)) = quiet d).
Proof.
  split; [|split].
  - intros w H. unfold verify_payment, try_catch. cbv zeta.
    replace (negb (Js.truthy_opt (razorpay_order_id body))
             || negb (Js.truthy_opt (razorpay_payment_id body))
             || negb (Js.truthy_opt (razorpay_signature body))) with true.
    + split; reflexivity.
    + destruct (Js.truthy_opt (razorpay_order_id body)),
               (Js.truthy_opt (razorpay_payment_id body)),
               (Js.truthy_opt (razorpay_signature body)); try reflexivity; discriminate.
  - intros w H. unfold verify_payment, try_catch. cbv zeta. rewrite H.
    destruct (_ || _); split; reflexivity.
  - intros d H. unfold verify_payment, try_catch. cbv zeta.
    destruct (_ || _); [split; [now left | reflexivity]|].
    destruct (negb (verifyRazorpaySignature _ _ _ _)); [split; [now left | reflexivity]|].
    rewrite bind_prisma_quiet. unfold payment_with_subscription. rewrite H. cbn [fst snd].
    split; [now right | reflexivity].
Qed.

(** A body whose signature is not the digest. *)
Lemma verify_payment_rejections_witness :
  let body := {| razorpay_order_id := Some "order_1";
                 razorpay_payment_id := Some "pay_1";
                 razorpay_signature := Some "deadbeef";
                 vp_planId := None; vp_billingCycle := None |} in
  let amb := Checkout.at_time Fixture.day "9F3A00C1" in
  let w := mkWorld (Checkout.trial_db 1499) [false; true] in
  res_status (fst (verify_payment Fixture.env amb "u_admin" body w)) = 400
  /\ snd (verify_payment Fixture.env amb "u_admin" body w) = w.
Proof.
  intros body amb w.
  refine (proj1 (proj2 (verify_payment_rejections Fixture.env amb "u_admin" body)) w _).
  vm_compute. reflexivity.
Defined.
(** ** verify-payment: what a 200 means *)

(** X26. verify-payment answers 200 only after all of its writes.  Under
    every fault schedule, when the answer is 200 the signature verified,
    the payment of the order was found with its subscription, and the
    database is the fully written one: the payment CAPTURED, the
    subscription ACTIVE for the new period, one invoice and one audit
    entry added.  (A request whose writes stop half-way is never answered
    200.) *)
Theorem verify_payment_ok_is_complete (env : Env) (amb : Ambient) (uid : string)
    (body : VerifyPaymentBody) (w : World) :
  res_status (fst (verify_payment env amb uid body w)) = 200 ->
  let order_id := Js.or_else (razorpay_order_id body) "" in
  let payment_id := Js.or_else (razorpay_payment_id body) "" in
  let signature := Js.or_else (razorpay_signature body) "" in
  verifyRazorpaySignature env order_id payment_id signature = true
  /\ exists p s,
       payment_with_subscription order_id (db w) = (Ok (Some (p, s)), db w)
       /\ db (snd (verify_payment env amb uid body w))
          = verified_db amb uid body payment_id signature p s (db w).
Proof.
  destruct w as [d fs]. cbn [db]. cbv zeta.
  remember (verify_payment env amb uid body (mkWorld d fs)) as out eqn:Hout.
  revert Hout. unfold verify_payment, try_catch. cbv zeta.
  destruct (_ || _); [intros ->; discriminate|].
  destruct (verifyRazorpaySignature env _ _ _) eqn:Esig; cbn [negb];
    [|intros ->; discriminate].
  pose proof (payment_with_subscription_reads (Js.or_else (razorpay_order_id body) "") d)
    as Hro.
  step_prisma; try (intros ->; discriminate).
  all: destruct (payment_with_subscription _ d) as [[[[p s]|]|] d1] eqn:Eread;
    cbn [fst snd] in *; subst d1; try (intros ->; discriminate).
  all: unfold payment_update; step_prisma; try (intros ->; discriminate).
  all: destruct (find _ (payments d)) as [p0|]; cbn [fst snd];
    try (intros ->; discriminate).
  all: unfold subscription_update, subscription_findUnique_id;
    step_prisma; cbn [subscriptions with_payments]; try (intros ->; discriminate).
  all: destruct (find _ (subscriptions d)) as [s0|]; cbn [fst snd];
    try (intros ->; discriminate).
  all: step_prisma; try (intros ->; discriminate).
  all: step_prisma; try (intros ->; discriminate).
  all: match goal with
       | |- context [prisma (subscription_info_id ?sid)] =>
           match goal with
           | |- context [bind _ _ (mkWorld ?dd _)] =>
               pose proof (subscription_info_id_reads sid dd) as Hro2
           end
       end.
  all: step_prisma; try (intros ->; discriminate).
  all: match goal with
       | H : snd (subscription_info_id ?sid ?dd) = _ |- _ =>
           destruct (subscription_info_id sid dd) as [[r|] d2]; cbn [fst snd] in *; subst d2
       end; try (intros ->; discriminate).
  all: intros -> _; split; [reflexivity|]; exists p, s; split; reflexivity.
Qed.

(** The checkout of the fixture tenant is answered 200. *)
Lemma verify_payment_ok_is_complete_witness :
  verifyRazorpaySignature Fixture.env
    (Js.or_else (razorpay_order_id Checkout.body) "")
    (Js.or_else (razorpay_payment_id Checkout.body) "")
    (Js.or_else (razorpay_signature Checkout.body) "") = true.
Proof.
  refine (proj1 (verify_payment_ok_is_complete Fixture.env
                   (Checkout.at_time (5 * Fixture.day) "9F3A00C1") "u_admin" Checkout.body
                   (quiet (Checkout.trial_db 1499)) _)).
  vm_compute. reflexivity.
Defined.
(** ** Cancellation and reactivation *)

Lemma sbind_sprisma_quiet {A B} (f : Lifecycle.Store -> Res A * Lifecycle.Store)
    (k : A -> Lifecycle.MS B) st :
  Lifecycle.sbind (Lifecycle.sprisma f) k (squiet st)
  = match fst (f st) with
    | Ok a => k a (squiet (snd (f st)))
    | Throw => (Throw, squiet (snd (f st)))
    end.
Proof.
  unfold Lifecycle.sbind, Lifecycle.sprisma, squiet. simpl. destruct (f st) as [[a|] st'];
    reflexivity.
Qed.

Lemma sbind_squery_quiet {A B} (f : Lifecycle.Store -> A) (k : A -> Lifecycle.MS B) st :
  Lifecycle.sbind (Lifecycle.squery f) k (squiet st) = k (f st) (squiet st).
Proof. unfold Lifecycle.squery. rewrite sbind_sprisma_quiet. reflexivity. Qed.

Section SPreserves.
Variable R : Lifecycle.Store -> Lifecycle.Store -> Prop.
Hypothesis R_refl : forall st, R st st.
Hypothesis R_trans : forall a b c, R a b -> R b c -> R a c.

Lemma spreserves_sret {A} (a : A) : spreserves R (Lifecycle.sret a).
Proof. intros w. apply R_refl. Qed.

Lemma spreserves_sprisma {A} (f : Lifecycle.Store -> Res A * Lifecycle.Store) :
  (forall st, R st (snd (f st))) -> spreserves R (Lifecycle.sprisma f).
Proof.
  intros Hf [st fs]. unfold Lifecycle.sprisma. cbn [fst snd].
  destruct fs as [|[|] fs]; cbn [fst snd]; try apply R_refl;
    specialize (Hf st); destruct (f st); exact Hf.
Qed.

Lemma spreserves_squery {A} (f : Lifecycle.Store -> A) : spreserves R (Lifecycle.squery f).
Proof. apply spreserves_sprisma. intros st. apply R_refl. Qed.

Lemma spreserves_sbind {A B} (m : Lifecycle.MS A) (k : A -> Lifecycle.MS B) :
  spreserves R m -> (forall a, spreserves R (k a)) -> spreserves R (Lifecycle.sbind m k).
Proof.
  intros Hm Hk w. unfold Lifecycle.sbind. specialize (Hm w).
  destruct (m w) as [[a|] w1]; cbn [fst snd] in *; [|exact Hm].
  eapply R_trans; [exact Hm | apply Hk].
Qed.

Lemma spreserves_stry {A} (m : Lifecycle.MS A) (h : A) w :
  spreserves R m -> R (fst w) (fst (snd (Lifecycle.stry m h w))).
Proof.
  intros Hm. unfold Lifecycle.stry. specialize (Hm w). destruct (m w) as [[a|] w1]; exact Hm.
Qed.
End SPreserves.

Ltac spreserve_steps Hrefl Htrans :=
  repeat first
    [ apply (spreserves_sret _ Hrefl)
    | apply (spreserves_squery _ Hrefl)
    | apply (spreserves_sbind _ Htrans); [|intros]
    | match goal with
      | |- spreserves _ (match ?x with _ => _ end) => destruct x
      end
    | progress cbv zeta ].

Lemma Forall2_same {A} (P : A -> A -> Prop) (l : list A) :
  (forall a, P a a) -> Forall2 P l l.
Proof. intros H. induction l; constructor; auto. Qed.

Lemma Forall2_chain {A} (P : A -> A -> Prop) :
  (forall a b c, P a b -> P b c -> P a c) ->
  forall l1 l2 l3, Forall2 P l1 l2 -> Forall2 P l2 l3 -> Forall2 P l1 l3.
Proof.
  intros Ht l1. induction l1 as [|a l1 IH]; intros l2 l3 H12 H23.
  - inversion H12; subst. inversion H23; subst. constructor.
  - inversion H12; subst. inversion H23; subst. constructor; [eauto|eapply IH; eassumption].
Qed.

Lemma cancels_only_refl st : cancels_only st st.
Proof.
  repeat split. - apply Forall2_same. now left.
  - exists []. split; [now rewrite app_nil_r | constructor].
Qed.

Lemma cancels_only_trans a b c : cancels_only a b -> cancels_only b c -> cancels_only a c.
Proof.
  intros (U1 & P1 & Y1 & I1 & F1 & l1 & E1 & A1) (U2 & P2 & Y2 & I2 & F2 & l2 & E2 & A2).
  repeat split; try congruence.
  - eapply Forall2_chain; [|exact F1|exact F2]. cbv beta.
    intros x y z [-> | ->] [-> | ->]; auto.
  - exists (l1 ++ l2). split; [rewrite E2, E1, app_assoc; reflexivity | apply Forall_app; now split].
Qed.

(** X19. /cancel only cancels: under every fault schedule and for every
    request, users, plans, payments and invoices are left as they were,
    the audit log only grows by CANCEL entries, and of a subscription row
    nothing the other handlers read changes but, possibly, the status,
    which then is CANCELLED (plan, period and trial end stay). *)
Theorem cancel_only_cancels (t : Z) (uid : string) (body : Lifecycle.CancelBody)
    (w : Lifecycle.Store * list bool) :
  cancels_only (fst w) (fst (snd (Lifecycle.cancel t uid body w))).
Proof.
  unfold Lifecycle.cancel. apply spreserves_stry.
  spreserve_steps cancels_only_refl cancels_only_trans;
    apply (spreserves_sprisma _ cancels_only_refl); intros st0.
  all: try (unfold Lifecycle.audit; cbn [snd]; repeat split;
            [ apply Forall2_same; now left
            | eexists; split; [reflexivity|]; constructor; [reflexivity|constructor] ]).
  all: unfold Lifecycle.row_update; destruct (find _ (Lifecycle.s_rows st0));
    [|apply cancels_only_refl].
  all: cbn [snd]; repeat split;
    [| exists []; split; [now rewrite app_nil_r | constructor] ].
  all: cbn [Lifecycle.s_rows]; unfold update_rows.
  all: induction (Lifecycle.s_rows st0) as [|? ? IH]; cbn [map]; constructor; [|exact IH].
  all: destruct (String.eqb _ _); [|now left].
  all: destruct (_ || _); [right | left]; reflexivity.
Qed.
Lemma lifecycle_member uid st org :
  member_of uid (Lifecycle.view st) org ->
  exists u, user_findUnique uid (Lifecycle.view st) = Some u
            /\ Js.truthy_opt (User.organizationId u) = true
            /\ Js.or_else (User.organizationId u) "" = org.
Proof.
  intros (u & Hu & Ho & Ht). exists u. rewrite Ho. cbn [Js.truthy_opt Js.or_else].
  rewrite Ht. split; [exact Hu | split; reflexivity].
Qed.

Lemma row_found_by_id org st row :
  Lifecycle.row_findUnique_org org st = Some row ->
  exists r0, find (fun r => String.eqb (Subscription.id (Lifecycle.core r))
                              (Subscription.id (Lifecycle.core row)))
                  (Lifecycle.s_rows st) = Some r0.
Proof.
  intros H. unfold Lifecycle.row_findUnique_org in H.
  eapply find_witness; [exact H | apply String.eqb_refl].
Qed.

Lemma row_after_update org st row f :
  Lifecycle.row_findUnique_org org st = Some row ->
  (forall r, Subscription.organizationId (Lifecycle.core (f r))
             = Subscription.organizationId (Lifecycle.core r)) ->
  Lifecycle.row_findUnique_org org (with_row f row st) = Some (f row).
Proof.
  intros Hrow Hf. unfold Lifecycle.row_findUnique_org, with_row in *. cbn [Lifecycle.s_rows].
  rewrite find_update_rows by (intros r; now rewrite Hf).
  rewrite Hrow. cbn [option_map]. now rewrite String.eqb_refl.
Qed.

Lemma cancel_write_organization t body row r :
  Subscription.organizationId (Lifecycle.core (cancel_write t body row r))
  = Subscription.organizationId (Lifecycle.core r).
Proof. unfold cancel_write. destruct (_ || _); reflexivity. Qed.

(** /cancel once its reads succeeded, for a subscription that is neither
    CANCELLED nor EXPIRED. *)
Lemma cancel_run t uid body st org row :
  lifecycle_reads uid st org row ->
  Subscription.status (Lifecycle.core row) <> CANCELLED ->
  Subscription.status (Lifecycle.core row) <> EXPIRED ->
  exists r,
    Lifecycle.cancel t uid body (squiet st) = (r, squiet (cancelled_store t uid body row st))
    /\ res_status r = 200
    /\ data_at ["status"] r
       = Some (VStr (if immediate_of body then "CANCELLED"
                     else status_name (Subscription.status (Lifecycle.core row))))
    /\ data_at ["cancelsAtPeriodEnd"] r = Some (VBool (negb (immediate_of body))).
Proof.
  intros [Hm Hrow] Hc He. destruct (lifecycle_member _ _ _ Hm) as (u & Hu & Ho & Horg).
  destruct (row_found_by_id _ _ _ Hrow) as [r0 Hr0].
  unfold Lifecycle.cancel, Lifecycle.stry. fold (immediate_of body). fold (reason_of body).
  rewrite sbind_squery_quiet, Hu, Ho. cbn [negb]. rewrite Horg.
  rewrite sbind_squery_quiet, Hrow.
  unfold cancelled_store, with_row, cancel_write.
  destruct (Subscription.status (Lifecycle.core row)) eqn:Est; try congruence;
    rewrite sbind_sprisma_quiet; unfold Lifecycle.row_update; rewrite Hr0; cbn [fst snd];
    rewrite sbind_sprisma_quiet; cbn [Lifecycle.audit fst snd];
    eexists; (split; [reflexivity|]); repeat split.
Qed.

(** /reactivate once its reads succeeded. *)
Lemma reactivate_run t uid st org row :
  lifecycle_reads uid st org row ->
  Lifecycle.reactivate t uid (squiet st)
  = if Lifecycle.can_resume t row
    then (json [("success", VBool true)], squiet (with_row Lifecycle.resume row st))
    else (json [("success", VBool false); ("requiresPayment", VBool true)], squiet st).
Proof.
  intros [Hm Hrow]. destruct (lifecycle_member _ _ _ Hm) as (u & Hu & Ho & Horg).
  destruct (row_found_by_id _ _ _ Hrow) as [r0 Hr0].
  unfold Lifecycle.reactivate, Lifecycle.stry.
  rewrite sbind_squery_quiet, Hu, Ho. cbn [negb]. rewrite Horg.
  rewrite sbind_squery_quiet, Hrow.
  destruct (Lifecycle.can_resume t row); [|reflexivity].
  rewrite sbind_sprisma_quiet. unfold Lifecycle.row_update. rewrite Hr0. reflexivity.
Qed.

(** X20. What /cancel does once its reads succeeded.  A CANCELLED or
    EXPIRED subscription is answered 400 and nothing is written.
    Otherwise the answer is 200 and one CANCEL entry is logged; with
    [immediate], and for a subscription in TRIAL even without it, the row
    is stored CANCELLED; else the row keeps every column the other
    handlers read and is flagged to end with the period.  For a trial
    cancelled without [immediate] the answer reports the status TRIAL and
    cancelsAtPeriodEnd true, although CANCELLED is what is stored. *)
Theorem cancel_decision (t : Z) (uid : string) (body : Lifecycle.CancelBody)
    (st : Lifecycle.Store) (org : string) (row : Lifecycle.Row) :
  lifecycle_reads uid st org row ->
  let out := Lifecycle.cancel t uid body (squiet st) in
  let s := Lifecycle.core row in
  let after := Lifecycle.row_findUnique_org org (fst (snd out)) in
  match Subscription.status s with
  | CANCELLED | EXPIRED => res_status (fst out) = 400 /\ snd out = squiet st
  | st0 =>
      res_status (fst out) = 200
      /\ Lifecycle.s_auditLogs (fst (snd out))
         = Lifecycle.s_auditLogs st
           ++ [AuditLog.mk uid "CANCEL" "Subscription" (Subscription.id s)]
      /\ (if immediate_of body || Lifecycle.is_trial st0
          then after = Some (Lifecycle.cancel_now t (reason_of body) row)
               /\ option_map (fun r => Subscription.status (Lifecycle.core r)) after
                  = Some CANCELLED
          else after = Some (Lifecycle.cancel_at_period_end t (reason_of body) row)
               /\ option_map Lifecycle.core after = Some s)
      /\ (st0 = TRIAL -> immediate_of body = false ->
          data_at ["status"] (fst out) = Some (VStr "TRIAL")
          /\ data_at ["cancelsAtPeriodEnd"] (fst out) = Some (VBool true)
          /\ option_map (fun r => Subscription.status (Lifecycle.core r)) after
             = Some CANCELLED)
  end.
Proof.
  intros Hreads. cbv zeta.
  pose proof (cancel_run t uid body st org row Hreads) as Hrun.
  assert (Hafter : Lifecycle.row_findUnique_org org (cancelled_store t uid body row st)
                   = Some (cancel_write t body row row)).
  { destruct Hreads as [_ Hrow].
    apply (row_after_update org st row (cancel_write t body row) Hrow).
    intros r. apply cancel_write_organization. }
  destruct (Subscription.status (Lifecycle.core row)) eqn:Est;
    try (destruct Hrun as (r & -> & H200 & Hs & Hf); try discriminate;
         cbn [fst snd squiet]; rewrite Hafter; unfold cancel_write; rewrite Est;
         cbn [Lifecycle.is_trial]; (split; [exact H200|]); (split; [reflexivity|]);
         destruct (immediate_of body); cbn [orb] in *;
         repeat split; try assumption; try reflexivity; try discriminate).
  - clear Hrun Hafter. destruct Hreads as [Hm Hrow].
    destruct (lifecycle_member _ _ _ Hm) as (u & Hu & Ho & Horg).
    unfold Lifecycle.cancel, Lifecycle.stry.
    rewrite sbind_squery_quiet, Hu, Ho. cbn [negb]. rewrite Horg.
    rewrite sbind_squery_quiet, Hrow, Est. split; reflexivity.
  - clear Hrun Hafter. destruct Hreads as [Hm Hrow].
    destruct (lifecycle_member _ _ _ Hm) as (u & Hu & Ho & Horg).
    unfold Lifecycle.cancel, Lifecycle.stry.
    rewrite sbind_squery_quiet, Hu, Ho. cbn [negb]. rewrite Horg.
    rewrite sbind_squery_quiet, Hrow, Est. split; reflexivity.
Qed.

(** An ACTIVE subscription cancelled with [immediate]. *)
Lemma cancel_decision_witness :
  let row := Lifecycle.mkRow
               (Fixture.subscription "plan_pro" ACTIVE None (Some (30 * Fixture.day)))
               true None None false in
  let st := Lifecycle.mkStore [Fixture.admin]
              [Fixture.starter; Fixture.professional; Fixture.enterprise] [row] [] [] [] in
  res_status (fst (Lifecycle.cancel (5 * Fixture.day) "u_admin"
                     {| Lifecycle.reason := None; Lifecycle.immediate := Some true |}
                     (squiet st))) = 200.
Proof.
  intros row st.
  refine (proj1 (cancel_decision (5 * Fixture.day) "u_admin"
                   {| Lifecycle.reason := None; Lifecycle.immediate := Some true |}
                   st Fixture.org row _)).
  split; [|reflexivity]. exists Fixture.admin. repeat split.
Defined.
Lemma map_core_with_row f row st :
  (forall r, Lifecycle.core (f r) = Lifecycle.core r) ->
  Lifecycle.view (with_row f row st) = Lifecycle.view st.
Proof.
  intros Hf. unfold Lifecycle.view, with_row. cbn. f_equal.
  unfold update_rows. rewrite map_map. apply map_ext. intros r.
  destruct (String.eqb _ _); [apply Hf | reflexivity].
Qed.

(** X21. /reactivate never revives a subscription.  Under every fault
    schedule the database the other handlers see (the status, plan and
    period of every subscription included) is the same after the request
    as before.  With its reads succeeding, it answers success exactly when
    the row is flagged to end with the period and the period end is still
    ahead, whatever the status (a CANCELLED subscription with the flag set
    is answered success and stays CANCELLED), and then resets the four
    cancellation columns; else it answers that a payment is required and
    writes nothing. *)
Theorem reactivate_decision (t : Z) (uid : string) :
  (forall w, Lifecycle.view (fst (snd (Lifecycle.reactivate t uid w))) = Lifecycle.view (fst w))
  /\ (forall st org row,
        lifecycle_reads uid st org row ->
        let out := Lifecycle.reactivate t uid (squiet st) in
        if Lifecycle.can_resume t row
        then field "success" (fst out) = Some (VBool true)
             /\ Lifecycle.row_findUnique_org org (fst (snd out)) = Some (Lifecycle.resume row)
             /\ Subscription.status (Lifecycle.core (Lifecycle.resume row))
                = Subscription.status (Lifecycle.core row)
        else field "success" (fst out) = Some (VBool false)
             /\ field "requiresPayment" (fst out) = Some (VBool true)
             /\ snd out = squiet st).
Proof.
  split.
  - intros w. unfold Lifecycle.reactivate.
    apply (spreserves_stry (fun a b => Lifecycle.view b = Lifecycle.view a)).
    spreserve_steps (fun a : Lifecycle.Store => eq_refl (Lifecycle.view a))
                    (fun (a b c : Lifecycle.Store)
                         (H1 : Lifecycle.view b = Lifecycle.view a)
                         (H2 : Lifecycle.view c = Lifecycle.view b) => eq_trans H2 H1).
    apply (spreserves_sprisma _ (fun a : Lifecycle.Store => eq_refl (Lifecycle.view a))).
    intros st0. unfold Lifecycle.row_update.
    destruct (find _ (Lifecycle.s_rows st0)); [|reflexivity].
    cbn [snd]. unfold Lifecycle.view. cbn. f_equal. unfold update_rows. rewrite map_map.
    apply map_ext. intros x. destruct (String.eqb _ _); reflexivity.
  - intros st org row Hreads. cbv zeta. rewrite (reactivate_run t uid st org row Hreads).
    destruct (Lifecycle.can_resume t row); [|repeat split].
    cbn [fst snd squiet]. split; [reflexivity|]. split; [|reflexivity].
    destruct Hreads as [_ Hrow]. now apply row_after_update.
Qed.

(** A row flagged to end with the period and then cancelled at once:
    /reactivate answers success, and the subscription stays CANCELLED. *)
Lemma reactivate_decision_witness :
  let row := Lifecycle.mkRow
               (Fixture.subscription "plan_pro" CANCELLED None (Some (30 * Fixture.day)))
               false (Some (5 * Fixture.day)) (Some "User requested cancellation") true in
  let st := Lifecycle.mkStore [Fixture.admin]
              [Fixture.starter; Fixture.professional; Fixture.enterprise] [row] [] [] [] in
  let out := Lifecycle.reactivate (6 * Fixture.day) "u_admin" (squiet st) in
  field "success" (fst out) = Some (VBool true)
  /\ Lifecycle.row_findUnique_org Fixture.org (fst (snd out)) = Some (Lifecycle.resume row)
  /\ Subscription.status (Lifecycle.core (Lifecycle.resume row)) = CANCELLED.
Proof.
  intros row st out.
  refine (proj2 (reactivate_decision (6 * Fixture.day) "u_admin") st Fixture.org row _).
  split; [|reflexivity]. exists Fixture.admin. repeat split.
Defined.

(** X22. Cancelling at the period end and thinking better of it.  For an
    ACTIVE, PAST_DUE or SUSPENDED subscription, a /cancel without
    [immediate] followed, before the period end, by a /reactivate is
    answered success and leaves the row with the cancellation columns
    reset and every column the other handlers read as it was.  An
    immediate /cancel of a row that was not flagged is final: the
    /reactivate that follows is answered "requires payment", writes
    nothing, and the subscription stays CANCELLED. *)
Theorem cancel_then_reactivate (t t' : Z) (uid : string) (body : Lifecycle.CancelBody)
    (st : Lifecycle.Store) (org : string) (row : Lifecycle.Row) (pe : Z) :
  lifecycle_reads uid st org row ->
  Subscription.status (Lifecycle.core row) = ACTIVE
  \/ Subscription.status (Lifecycle.core row) = PAST_DUE
  \/ Subscription.status (Lifecycle.core row) = SUSPENDED ->
  Subscription.currentPeriodEnd (Lifecycle.core row) = Some pe ->
  let w1 := snd (Lifecycle.cancel t uid body (squiet st)) in
  let out := Lifecycle.reactivate t' uid w1 in
  (immediate_of body = false -> t' < pe ->
     field "success" (fst out) = Some (VBool true)
     /\ Lifecycle.row_findUnique_org org (fst (snd out)) = Some (Lifecycle.resume row)
     /\ map Lifecycle.core (Lifecycle.s_rows (fst (snd out)))
        = map Lifecycle.core (Lifecycle.s_rows st))
  /\ (immediate_of body = true -> Lifecycle.cancelsAtPeriodEnd row = false ->
        field "success" (fst out) = Some (VBool false)
        /\ field "requiresPayment" (fst out) = Some (VBool true)
        /\ snd out = w1
        /\ option_map (fun r => Subscription.status (Lifecycle.core r))
             (Lifecycle.row_findUnique_org org (fst (snd out)))
           = Some CANCELLED).
Proof.
  intros Hreads Hst Hpe. cbv zeta.
  assert (Hnt : Lifecycle.is_trial (Subscription.status (Lifecycle.core row)) = false)
    by (destruct Hst as [E|[E|E]]; now rewrite E).
  destruct (cancel_run t uid body st org row Hreads) as (r & -> & _);
    [destruct Hst as [E|[E|E]]; rewrite E; discriminate
    |destruct Hst as [E|[E|E]]; rewrite E; discriminate|].
  cbn [snd].
  assert (Hrow1 : Lifecycle.row_findUnique_org org (cancelled_store t uid body row st)
                  = Some (cancel_write t body row row)).
  { destruct Hreads as [_ Hrow].
    apply (row_after_update org st row (cancel_write t body row) Hrow).
    intros x. apply cancel_write_organization. }
  assert (Hreads1 : lifecycle_reads uid (cancelled_store t uid body row st) org
                      (cancel_write t body row row)).
  { split; [|exact Hrow1]. destruct Hreads as [(u & Hu & Ho & Ht) _].
    exists u. repeat split; assumption. }
  rewrite (reactivate_run t' uid _ org _ Hreads1).
  unfold cancel_write in *. rewrite Hnt in *. split.
  - intros Him Hlt. rewrite Him in *. cbn [orb] in *.
    unfold Lifecycle.can_resume.
    cbn [Lifecycle.cancel_at_period_end Lifecycle.cancelsAtPeriodEnd Lifecycle.core andb].
    rewrite Hpe. replace (t' <? pe) with true by (symmetry; apply Z.ltb_lt; lia).
    cbn [fst snd squiet]. split; [reflexivity|]. split.
    + rewrite (row_after_update org _ _ Lifecycle.resume Hrow1) by reflexivity. reflexivity.
    + pose proof (map_core_with_row Lifecycle.resume
                    (Lifecycle.cancel_at_period_end t (reason_of body) row)
                    (cancelled_store t uid body row st) (fun _ => eq_refl)) as H1.
      apply (f_equal subscriptions) in H1. cbn [Lifecycle.view subscriptions] in H1.
      rewrite H1. unfold cancelled_store, Lifecycle.audit. cbn [snd Lifecycle.s_rows].
      assert (H2 : Lifecycle.view (with_row (cancel_write t body row) row st)
                   = Lifecycle.view st).
      { apply map_core_with_row. intros x. unfold cancel_write. rewrite Him, Hnt. reflexivity. }
      apply (f_equal subscriptions) in H2. exact H2.
  - intros Him Hflag. rewrite Him in *. cbn [orb] in *.
    unfold Lifecycle.can_resume.
    cbn [Lifecycle.cancel_now Lifecycle.cancelsAtPeriodEnd]. rewrite Hflag. cbn [andb].
    cbn [fst snd squiet]. repeat split. rewrite Hrow1. reflexivity.
Qed.

(** The fixture tenant cancels at the period end on day 5 and resumes on
    day 6. *)
Lemma cancel_then_reactivate_witness :
  let row := Lifecycle.mkRow
               (Fixture.subscription "plan_pro" ACTIVE None (Some (30 * Fixture.day)))
               true None None false in
  let st := Lifecycle.mkStore [Fixture.admin]
              [Fixture.starter; Fixture.professional; Fixture.enterprise] [row] [] [] [] in
  let body := {| Lifecycle.reason := Some "too expensive"; Lifecycle.immediate := None |} in
  let out := Lifecycle.reactivate (6 * Fixture.day) "u_admin"
               (snd (Lifecycle.cancel (5 * Fixture.day) "u_admin" body (squiet st))) in
  field "success" (fst out) = Some (VBool true)
  /\ Lifecycle.row_findUnique_org Fixture.org (fst (snd out)) = Some (Lifecycle.resume row)
  /\ map Lifecycle.core (Lifecycle.s_rows (fst (snd out)))
     = map Lifecycle.core (Lifecycle.s_rows st).
Proof.
  intros row st body out.
  refine (proj1 (cancel_then_reactivate (5 * Fixture.day) (6 * Fixture.day) "u_admin" body
                   st Fixture.org row (30 * Fixture.day) _ _ _) _ _).
  - split; [|reflexivity]. exists Fixture.admin. repeat split.
  - now left.
  - reflexivity.
  - reflexivity.
  - vm_compute. reflexivity.
Defined.
Lemma find_map {A B} (f : A -> B) (p : B -> bool) (l : list A) :
  find p (map f l) = option_map f (find (fun a => p (f a)) l).
Proof.
  induction l as [|a l IH]; simpl; [reflexivity|]. destruct (p (f a)); [reflexivity | exact IH].
Qed.

Lemma view_subscription org st :
  subscription_findUnique_org org (Lifecycle.view st)
  = option_map Lifecycle.core (Lifecycle.row_findUnique_org org st).
Proof.
  unfold subscription_findUnique_org, Lifecycle.row_findUnique_org, Lifecycle.view.
  cbn [subscriptions]. apply find_map.
Qed.

(** X23. Cancellation and the guard.  After a /cancel that is immediate,
    or of a subscription in trial, every guard read of a member of the
    organization is answered 403 SUBSCRIPTION_INACTIVE and writes nothing,
    whatever the time.  After a /cancel at the period end the guard reads
    the subscription as it was: the flag is no column the guard looks
    at. *)
Theorem cancel_and_the_guard (t now : Z) (uid : string) (body : Lifecycle.CancelBody)
    (st : Lifecycle.Store) (org : string) (row : Lifecycle.Row) (req : Request)
    (caller : string) (plan : Plan.t) :
  lifecycle_reads uid st org row ->
  Subscription.status (Lifecycle.core row) <> CANCELLED ->
  Subscription.status (Lifecycle.core row) <> EXPIRED ->
  req_user req = Some caller -> Js.truthy caller = true ->
  member_of caller (Lifecycle.view st) org ->
  plan_findUnique (Subscription.planId (Lifecycle.core row)) (Lifecycle.view st) = Some plan ->
  let d1 := Lifecycle.view (fst (snd (Lifecycle.cancel t uid body (squiet st)))) in
  if immediate_of body || Lifecycle.is_trial (Subscription.status (Lifecycle.core row))
  then denied "SUBSCRIPTION_INACTIVE" (fst (checkSubscription now req (quiet d1)))
       /\ snd (checkSubscription now req (quiet d1)) = quiet d1
  else subscriptions d1 = subscriptions (Lifecycle.view st)
       /\ subscription_with_plan org d1
          = (Ok (Some {| info_subscription := Lifecycle.core row; info_plan := plan |}), d1).
Proof.
  intros Hreads Hc He Hreq Htc (u & Hu & Ho & Ht) Hplan. cbv zeta.
  destruct (cancel_run t uid body st org row Hreads Hc He) as (r & -> & _).
  cbn [fst snd squiet].
  assert (Hrow1 : Lifecycle.row_findUnique_org org (cancelled_store t uid body row st)
                  = Some (cancel_write t body row row)).
  { destruct Hreads as [_ Hrow].
    apply (row_after_update org st row (cancel_write t body row) Hrow).
    intros x. apply cancel_write_organization. }
  assert (Hsub : forall s1,
            Lifecycle.core (cancel_write t body row row) = s1 ->
            Subscription.planId s1 = Subscription.planId (Lifecycle.core row) ->
            subscription_with_plan org (Lifecycle.view (cancelled_store t uid body row st))
            = (Ok (Some {| info_subscription := s1; info_plan := plan |}),
               Lifecycle.view (cancelled_store t uid body row st))).
  { intros s1 Hs1 Hp1. unfold subscription_with_plan.
    rewrite view_subscription, Hrow1. cbn [option_map]. rewrite Hs1, Hp1.
    rewrite (plan_findUnique_plans _ _ (Lifecycle.view st)) by reflexivity.
    rewrite Hplan. reflexivity. }
  unfold cancel_write in Hsub.
  destruct (immediate_of body || Lifecycle.is_trial (Subscription.status (Lifecycle.core row)))
    eqn:Enow.
  - assert (Hg : guard_reads req (Lifecycle.view (cancelled_store t uid body row st)) org
                   {| info_subscription :=
                        Subscription.set_status CANCELLED (Lifecycle.core row);
                      info_plan := plan |}).
    { exists caller, u. repeat split; try assumption. apply Hsub; reflexivity. }
    pose proof (checkSubscription_cases now req _ _ _ Hg) as Hcase. cbv zeta in Hcase.
    cbn [info_subscription Subscription.set_status Subscription.status] in Hcase.
    destruct Hcase as (r1 & E & H403 & Hcode). rewrite E. split; [|reflexivity].
    exists r1. now repeat split.
  - split; [|apply Hsub; reflexivity].
    assert (H2 : Lifecycle.view (with_row (cancel_write t body row) row st)
                 = Lifecycle.view st).
    { apply map_core_with_row. intros x. unfold cancel_write. rewrite Enow. reflexivity. }
    apply (f_equal subscriptions) in H2. exact H2.
Qed.

(** The fixture tenant cancels at once and is locked out. *)
Lemma cancel_and_the_guard_witness :
  let row := Lifecycle.mkRow
               (Fixture.subscription "plan_pro" ACTIVE None (Some (30 * Fixture.day)))
               true None None false in
  let st := Lifecycle.mkStore (Fixture.admin :: Fixture.staff 2)
              [Fixture.starter; Fixture.professional; Fixture.enterprise] [row] [] [] [] in
  let body := {| Lifecycle.reason := None; Lifecycle.immediate := Some true |} in
  let d1 := Lifecycle.view (fst (snd (Lifecycle.cancel (5 * Fixture.day) "u_admin" body
                                         (squiet st)))) in
  denied "SUBSCRIPTION_INACTIVE"
    (fst (checkSubscription (6 * Fixture.day) (Fixture.request "u_emp1") (quiet d1)))
  /\ snd (checkSubscription (6 * Fixture.day) (Fixture.request "u_emp1") (quiet d1)) = quiet d1.
Proof.
  intros row st body d1.
  refine (cancel_and_the_guard (5 * Fixture.day) (6 * Fixture.day) "u_admin" body st
            Fixture.org row (Fixture.request "u_emp1") "u_emp1" Fixture.professional
            _ _ _ _ _ _ _).
  - split; [|reflexivity]. exists Fixture.admin. repeat split.
  - discriminate.
  - discriminate.
  - reflexivity.
  - reflexivity.
  - eexists. repeat split; vm_compute; reflexivity.
  - reflexivity.
Defined.
(** ** Histories of requests *)

Lemma grows_refl d : grows d d.
Proof. repeat split; exists []; now rewrite app_nil_r. Qed.

Lemma grows_trans a b c : grows a b -> grows b c -> grows a c.
Proof.
  intros (U1 & P1 & S1 & (lp1 & Y1) & (li1 & I1) & (la1 & A1))
         (U2 & P2 & S2 & (lp2 & Y2) & (li2 & I2) & (la2 & A2)).
  repeat split; try congruence.
  - exists (lp1 ++ lp2). now rewrite Y2, Y1, app_assoc.
  - exists (li1 ++ li2). now rewrite I2, I1, app_assoc.
  - exists (la1 ++ la2). now rewrite A2, A1, app_assoc.
Qed.

Lemma subscription_update_grows sid f d :
  (forall s, Subscription.id (f s) = Subscription.id s
             /\ Subscription.organizationId (f s) = Subscription.organizationId s) ->
  grows d (snd (subscription_update sid f d)).
Proof.
  intros Hf. unfold subscription_update.
  destruct (subscription_findUnique_id sid d); [|apply grows_refl].
  cbn [snd]. repeat split; try (exists []; now rewrite app_nil_r).
  cbn [subscriptions with_subscriptions]. unfold update_rows. rewrite map_map.
  apply map_ext. intros s. destruct (String.eqb (Subscription.id s) sid); [|reflexivity].
  destruct (Hf s) as [-> ->]. reflexivity.
Qed.

Lemma payment_update_grows pid f d :
  (forall p, (Payment.id (f p), Payment.subscriptionId (f p), Payment.razorpayOrderId (f p),
              Payment.amount (f p))
             = (Payment.id p, Payment.subscriptionId p, Payment.razorpayOrderId p,
                Payment.amount p)) ->
  grows d (snd (payment_update pid f d)).
Proof.
  intros Hf. unfold payment_update.
  destruct (find _ (payments d)); [|apply grows_refl].
  cbn [snd]. repeat split; try (exists []; now rewrite app_nil_r).
  exists []. rewrite app_nil_r. cbn [payments with_payments]. unfold update_rows.
  rewrite map_map. apply map_ext. intros p.
  destruct (String.eqb (Payment.id p) pid); [apply Hf | reflexivity].
Qed.

Lemma create_grows d :
  (forall p, grows d (snd (payment_create p d)))
  /\ (forall i, grows d (snd (invoice_create i d)))
  /\ (forall a, grows d (snd (auditLog_create a d))).
Proof.
  repeat split; try (exists []; now rewrite app_nil_r); cbn.
  - eexists. rewrite map_app. reflexivity.
  - eexists. reflexivity.
  - eexists. reflexivity.
Qed.

(** Closes the goals [preserve_steps] leaves for [grows]: reads and the
    writes of the handlers. *)
Ltac grows_writes :=
  apply (preserves_prisma _ grows_refl); intros ?;
  first
    [ rewrite subscription_with_plan_reads; apply grows_refl
    | rewrite payment_with_subscription_reads; apply grows_refl
    | rewrite subscription_info_id_reads; apply grows_refl
    | apply subscription_update_grows; intros ?; split; reflexivity
    | apply payment_update_grows; intros ?; reflexivity
    | apply create_grows ].

Lemma run_op_grows o w : grows (db w) (db (run_op o w)).
Proof.
  destruct o; cbn [run_op].
  - unfold checkSubscription. apply preserves_try_catch.
    preserve_steps grows_refl grows_trans; grows_writes.
  - rewrite enforceEmployeeLimit_db. apply grows_refl.
  - unfold create_order. apply preserves_try_catch.
    preserve_steps grows_refl grows_trans; grows_writes.
  - unfold verify_payment. apply preserves_try_catch.
    preserve_steps grows_refl grows_trans; grows_writes.
  - unfold change_plan. apply preserves_try_catch.
    preserve_steps grows_refl grows_trans; grows_writes.
  - rewrite webhook_world. destruct (_ && _); [apply grows_refl|].
    assert (H : preserves grows (webhook_switch t (wh_body req))); [|apply H].
    unfold webhook_switch, payload_entity.
    preserve_steps grows_refl grows_trans; grows_writes.
  - unfold usage. apply preserves_try_catch.
    preserve_steps grows_refl grows_trans; grows_writes.
  - unfold list_invoices. apply preserves_try_catch.
    preserve_steps grows_refl grows_trans; grows_writes.
Qed.

(** X24. Over every history of requests to the guard, the seat guard,
    create-order, verify-payment, change-plan, the webhook, the usage
    report and the invoice listing, in any order and under every fault
    schedule, the database only grows: no user or plan changes, no
    subscription is created, deleted or moved to another organization, no
    payment is deleted or changes its subscription, order or amount, and
    no invoice is deleted or altered. *)
Theorem history_only_grows (ops : list Op) (w : World) :
  grows (db w) (db (run_ops ops w)).
Proof.
  revert w. induction ops as [|o ops IH]; intros w; cbn [run_ops fold_left].
  - apply grows_refl.
  - eapply grows_trans; [apply run_op_grows | apply IH].
Qed.
(** ** Repeated guard reads *)

Lemma guard_reads_or_quiet now req d :
  (exists org info, guard_reads req d org info)
  \/ snd (checkSubscription now req (quiet d)) = quiet d.
Proof.
  unfold checkSubscription, try_catch.
  destruct (req_user req) as [uid|] eqn:Eu; cbn [Js.truthy_opt Js.or_else]; [|now right].
  destruct (Js.truthy uid) eqn:Et; cbn [negb]; [|now right].
  rewrite bind_query_quiet.
  destruct (user_findUnique uid d) as [u|] eqn:Ef; [|now right].
  destruct (User.organizationId u) as [org|] eqn:Eo; cbn [Js.truthy_opt Js.or_else];
    [|now right].
  destruct (Js.truthy org) eqn:Eto; [|now right].
  rewrite bind_prisma_quiet.
  pose proof (subscription_with_plan_reads org d) as Hro.
  destruct (subscription_with_plan org d) as [[[info|]|] d1] eqn:Es; cbn [fst snd] in *;
    subst d1; try (now right).
  left. exists org, info, uid, u. now repeat split.
Qed.

Lemma guard_world now req d org info :
  guard_reads req d org info ->
  snd (checkSubscription now req (quiet d))
  = quiet (match repair_of now (info_subscription info) with
           | Some st => with_status st (info_subscription info) d
           | None => d
           end).
Proof.
  intros H. pose proof (checkSubscription_cases now req d org info H) as Hc.
  cbv zeta in Hc. unfold repair_of, with_status.
  destruct (Subscription.status (info_subscription info));
    [ destruct (date_gt now (Subscription.trialEndDate _))
    | destruct (date_gt now (Subscription.currentPeriodEnd _))
    | destruct (grace_over now (Subscription.currentPeriodEnd _))
    | | | ];
    try (destruct Hc as (r & -> & _); reflexivity); rewrite Hc; reflexivity.
Qed.

Lemma guard_reads_with_status req d org info st :
  guard_reads req d org info ->
  guard_reads req (with_status st (info_subscription info) d) org
    {| info_subscription := Subscription.set_status st (info_subscription info);
       info_plan := info_plan info |}.
Proof.
  intros H. pose proof (guard_reads_row _ _ _ _ H) as [Hrow _].
  destruct info as [s p]. cbn [info_subscription info_plan] in *.
  destruct H as (uid & u & Hu & Ht & Hfind & Horg & Hto & Hsub).
  exists uid, u. repeat split; try assumption.
  unfold subscription_with_plan in *. unfold subscription_findUnique_org in *.
  unfold with_status. cbn [subscriptions with_subscriptions].
  rewrite find_update_rows by reflexivity. rewrite Hrow in *. cbn [option_map].
  rewrite String.eqb_refl.
  destruct (plan_findUnique (Subscription.planId s) d) eqn:Ep; [|discriminate].
  injection Hsub as ->.
  rewrite (plan_findUnique_plans _ _ d) by reflexivity.
  cbn [Subscription.set_status Subscription.planId]. rewrite Ep. reflexivity.
Qed.

(** X25. Guard reads settle after two.  With every persistence call going
    through, a third guard read at the same time finds nothing left to
    repair: the world after three reads is the world after two.  Two reads
    can be needed: an ACTIVE subscription first read after its grace has
    run out is stored PAST_DUE by the first read and SUSPENDED by the
    second. *)
Theorem guard_settles_in_two_reads (now : Z) (req : Request) (d : Db) :
  let w1 := snd (checkSubscription now req (quiet d)) in
  let w2 := snd (checkSubscription now req w1) in
  let w3 := snd (checkSubscription now req w2) in
  w3 = w2
  /\ (forall org info pe,
        guard_reads req d org info ->
        Subscription.status (info_subscription info) = ACTIVE ->
        Subscription.currentPeriodEnd (info_subscription info) = Some pe ->
        pe + gracePeriod < now ->
        stored_status org (db w1) = Some PAST_DUE
        /\ stored_status org (db w2) = Some SUSPENDED).
Proof.
  cbv zeta. split.
  - destruct (guard_reads_or_quiet now req d) as [(org & info & H)|E]; [|now rewrite !E].
    rewrite (guard_world now req d org info H).
    destruct (repair_of now (info_subscription info)) as [st|] eqn:E1;
      [|repeat (rewrite (guard_world now req d org info H), E1); reflexivity].
    pose proof (guard_reads_with_status req d org info st H) as H1.
    rewrite (guard_world now req _ org _ H1). cbn [info_subscription].
    destruct (repair_of now (Subscription.set_status st (info_subscription info)))
      as [st'|] eqn:E2;
      [|repeat (rewrite (guard_world now req _ org _ H1); cbn [info_subscription]; rewrite E2);
        reflexivity].
    pose proof (guard_reads_with_status req _ org _ st' H1) as H2.
    cbn [info_subscription info_plan] in H2.
    rewrite (guard_world now req _ org _ H2). cbn [info_subscription].
    replace (repair_of now (Subscription.set_status st'
                              (Subscription.set_status st (info_subscription info))))
      with (@None SubscriptionStatus); [reflexivity|].
    unfold repair_of in *. cbn [Subscription.set_status Subscription.status
                                Subscription.trialEndDate Subscription.currentPeriodEnd] in *.
    destruct (Subscription.status (info_subscription info));
      repeat match goal with
      | H : (if ?b then _ else _) = _ |- _ => destruct b
      | H : Some _ = Some _ |- _ => injection H as <-
      | H : None = Some _ |- _ => discriminate H
      end; try discriminate; reflexivity.
  - intros org info pe H Hst Hpe Hlt.
    assert (Hg : gracePeriod = 259200000) by reflexivity.
    pose proof (guard_reads_row _ _ _ _ H) as [Hrow _].
    rewrite (guard_world now req d org info H).
    assert (E1 : repair_of now (info_subscription info) = Some PAST_DUE).
    { unfold repair_of. rewrite Hst, Hpe. unfold date_gt.
      replace (pe <? now) with true by (symmetry; apply Z.ltb_lt; lia). reflexivity. }
    rewrite E1.
    pose proof (guard_reads_with_status req d org info PAST_DUE H) as H1.
    pose proof (guard_reads_row _ _ _ _ H1) as [Hrow1 _]. cbn [info_subscription] in Hrow1.
    rewrite (guard_world now req _ org _ H1). cbn [info_subscription].
    assert (E2 : repair_of now (Subscription.set_status PAST_DUE (info_subscription info))
                 = Some SUSPENDED).
    { unfold repair_of. cbn [Subscription.set_status Subscription.status
                             Subscription.currentPeriodEnd]. rewrite Hpe. unfold grace_over.
      replace (pe + gracePeriod <? now) with true by (symmetry; apply Z.ltb_lt; lia).
      reflexivity. }
    rewrite E2. cbn [db quiet]. unfold with_status. split.
    + eapply stored_status_set_status; [exact Hrow | reflexivity].
    + eapply stored_status_set_status; [exact Hrow1 | reflexivity].
Qed.

(** An ACTIVE subscription whose period ended on day 30, first read on
    day 40. *)
Lemma guard_settles_in_two_reads_witness :
  let d := Fixture.database
             (Fixture.subscription "plan_pro" ACTIVE None (Some (30 * Fixture.day))) [] 3 in
  let req := Fixture.request "u_admin" in
  let w1 := snd (checkSubscription (40 * Fixture.day) req (quiet d)) in
  let w2 := snd (checkSubscription (40 * Fixture.day) req w1) in
  stored_status Fixture.org (db w1) = Some PAST_DUE
  /\ stored_status Fixture.org (db w2) = Some SUSPENDED.
Proof.
  intros d req w1 w2.
  refine (proj2 (guard_settles_in_two_reads (40 * Fixture.day) req d) Fixture.org
            {| info_subscription :=
                 Fixture.subscription "plan_pro" ACTIVE None (Some (30 * Fixture.day));
               info_plan := Fixture.professional |} (30 * Fixture.day) _ _ _ _).
  - exists "u_admin", Fixture.admin. repeat split.
  - reflexivity.
  - reflexivity.
  - vm_compute. reflexivity.
Defined.

(** ** What the guard's answer depends on *)

Lemma stays_quiet_ret {A} (a : A) : stays_quiet (ret a).
Proof. intros d. now exists d. Qed.

Lemma stays_quiet_throw {A} : stays_quiet (@throw A).
Proof. intros d. now exists d. Qed.

Lemma stays_quiet_lift {A} (r : Res A) : stays_quiet (lift r).
Proof. intros d. now exists d. Qed.

Lemma stays_quiet_prisma {A} (f : Db -> Res A * Db) : stays_quiet (prisma f).
Proof. intros d. rewrite prisma_quiet. now eexists. Qed.

Lemma stays_quiet_bind {A B} (m : M A) (k : A -> M B) :
  stays_quiet m -> (forall a, stays_quiet (k a)) -> stays_quiet (bind m k).
Proof.
  intros Hm Hk d. unfold bind. destruct (Hm d) as [d1 E].
  destruct (m (quiet d)) as [[a|] w1]; cbn [snd] in *; subst w1; [apply Hk | now exists d1].
Qed.

Lemma stays_quiet_try_catch {A} (m : M A) (h : A) d :
  stays_quiet m -> exists d', snd (try_catch m h (quiet d)) = quiet d'.
Proof.
  intros Hm. unfold try_catch. destruct (Hm d) as [d1 E].
  destruct (m (quiet d)) as [[a|] w1]; cbn [snd] in *; now exists d1.
Qed.

Ltac quiet_steps :=
  repeat first
    [ apply stays_quiet_ret
    | apply stays_quiet_throw
    | apply stays_quiet_lift
    | apply stays_quiet_prisma
    | apply stays_quiet_bind; [|intros]
    | match goal with
      | |- stays_quiet (match ?x with _ => _ end) => destruct x
      end
    | progress cbv zeta ].

Lemma run_op_quiet o d :
  beside_the_guard o = true -> exists d', run_op o (quiet d) = quiet d'.
Proof.
  destruct o; cbn [beside_the_guard run_op]; intros H; try discriminate.
  - unfold enforceEmployeeLimit. apply stays_quiet_try_catch. unfold query. quiet_steps.
  - unfold create_order. apply stays_quiet_try_catch. unfold query. quiet_steps.
  - unfold webhook. apply stays_quiet_try_catch. unfold webhook_switch, payload_entity, query.
    quiet_steps.
  - unfold usage. apply stays_quiet_try_catch. unfold query. quiet_steps.
  - unfold list_invoices. apply stays_quiet_try_catch. unfold query. quiet_steps.
Qed.

Lemma same_for_guard_refl d : same_for_guard d d.
Proof. repeat split. Qed.

Lemma same_for_guard_trans a b c : same_for_guard a b -> same_for_guard b c -> same_for_guard a c.
Proof. unfold same_for_guard. intuition congruence. Qed.

Lemma run_op_same_for_guard o w :
  beside_the_guard o = true -> same_for_guard (db w) (db (run_op o w)).
Proof.
  destruct o; cbn [beside_the_guard run_op]; intros H; try discriminate.
  - rewrite enforceEmployeeLimit_db. apply same_for_guard_refl.
  - unfold create_order. apply preserves_try_catch.
    preserve_steps same_for_guard_refl same_for_guard_trans.
    apply (preserves_prisma _ same_for_guard_refl). intros d0. repeat split.
  - rewrite webhook_world. destruct (_ && _); [apply same_for_guard_refl|].
    assert (Hp : preserves same_for_guard (webhook_switch t (wh_body req))); [|apply Hp].
    unfold webhook_switch, payload_entity.
    preserve_steps same_for_guard_refl same_for_guard_trans;
      apply (preserves_prisma _ same_for_guard_refl); intros d0;
      unfold payment_update; destruct (find _ (payments d0)); repeat split.
  - unfold usage. apply preserves_try_catch.
    preserve_steps same_for_guard_refl same_for_guard_trans.
    apply (preserves_prisma _ same_for_guard_refl). intros d0.
    rewrite subscription_with_plan_reads. apply same_for_guard_refl.
  - unfold list_invoices. apply preserves_try_catch.
    preserve_steps same_for_guard_refl same_for_guard_trans.
Qed.

(** The guard reads users, plans and subscriptions, and nothing else. *)
Lemma checkSubscription_frame now req d d' :
  same_for_guard d d' ->
  fst (checkSubscription now req (quiet d')) = fst (checkSubscription now req (quiet d))
  /\ same_for_guard (db (snd (checkSubscription now req (quiet d))))
       (db (snd (checkSubscription now req (quiet d')))).
Proof.
  intros (Hu & Hp & Hs).
  destruct d as [u p s pay inv aud], d' as [u' p' s' pay' inv' aud'].
  cbn [users plans subscriptions] in *. subst u' p' s'.
  unfold checkSubscription, try_catch.
  destruct (negb (Js.truthy_opt (req_user req))); [split; [reflexivity | repeat split]|].
  rewrite !bind_query_quiet. unfold user_findUnique. cbn [users].
  destruct (find _ u) as [usr|]; [|split; [reflexivity | repeat split]].
  destruct (Js.truthy_opt (User.organizationId usr)); [|split; [reflexivity | repeat split]].
  rewrite !bind_prisma_quiet.
  unfold subscription_with_plan, subscription_findUnique_org, plan_findUnique.
  cbn [subscriptions plans].
  destruct (find _ s) as [sub|]; cbn [fst snd]; [|split; [reflexivity | repeat split]].
  destruct (find _ p) as [pl|]; cbn [fst snd]; [|split; [reflexivity | repeat split]].
  cbn [info_subscription].
  destruct (Subscription.status sub);
    [ destruct (date_gt now (Subscription.trialEndDate sub))
    | destruct (date_gt now (Subscription.currentPeriodEnd sub))
    | destruct (grace_over now (Subscription.currentPeriodEnd sub))
    | | | ];
    try (split; [reflexivity | repeat split]);
    rewrite !bind_prisma_quiet;
    unfold subscription_update, subscription_findUnique_id; cbn [subscriptions];
    destruct (find _ s); cbn [fst snd]; split; try reflexivity; repeat split.
Qed.

(** X27. Entitlement is decided by the subscription row alone.  With every
    persistence call going through, a request to the seat guard, to
    create-order, to the webhook (a capture, a failure, a refund or
    anything else), to the usage report or to the invoice listing changes
    nothing the guard reads, and the guard read that follows answers
    exactly what it would have answered before: a webhook capture on its
    own grants no access, and a failed or refunded payment revokes none. *)
Theorem entitlement_is_by_subscription (o : Op) (now : Z) (req : Request) (d : Db) :
  beside_the_guard o = true ->
  fst (checkSubscription now req (run_op o (quiet d)))
  = fst (checkSubscription now req (quiet d))
  /\ same_for_guard d (db (run_op o (quiet d))).
Proof.
  intros H. destruct (run_op_quiet o d H) as [d' E].
  pose proof (run_op_same_for_guard o (quiet d) H) as Hs. rewrite E in *. cbn [db quiet] in Hs.
  split; [|exact Hs].
  apply (checkSubscription_frame now req d d'). destruct Hs as (A & B & C). now repeat split.
Qed.

(** A refund event for the captured payment of the fixture tenant. *)
Lemma entitlement_is_by_subscription_witness :
  let d := Fixture.database
             (Fixture.subscription "plan_pro" ACTIVE None (Some (30 * Fixture.day)))
             [capture_by_verify "pay_1" "sig" (Some "card") Fixture.day
                (Fixture.checkout 1499 CREATED)] 3 in
  let event := Json.JObj
                 [("event", Json.JStr "refund.created");
                  ("payload", Json.JObj
                     [("refund", Json.JObj
                        [("entity", Json.JObj [("payment_id", Json.JStr "pay_1")])])])] in
  let o := OpWebhook Fixture.env (2 * Fixture.day) (Event.unsigned event) in
  fst (checkSubscription (3 * Fixture.day) (Fixture.request "u_admin") (run_op o (quiet d)))
  = fst (checkSubscription (3 * Fixture.day) (Fixture.request "u_admin") (quiet d)).
Proof.
  intros d event o.
  refine (proj1 (entitlement_is_by_subscription o (3 * Fixture.day)
                   (Fixture.request "u_admin") d _)).
  reflexivity.
Defined.
(** ** The gateway signature *)

Lemma append_associative (a b c : string) : ((a ++ b) ++ c = a ++ (b ++ c))%string.
Proof. induction a as [|ch a IH]; simpl; [reflexivity | now f_equal]. Qed.

(** X28. The signature verify-payment checks binds the text
    [order_id|payment_id], not the pair: a signature that verifies for an
    order id [o|x] and a payment id [p] verifies for the order id [o] and
    the payment id [x|p], and conversely. *)
Theorem signature_binds_the_concatenation (env : Env) (o x p signature : string) :
  verifyRazorpaySignature env (o ++ "|" ++ x) p signature
  = verifyRazorpaySignature env o (x ++ "|" ++ p) signature.
Proof.
  unfold verifyRazorpaySignature. do 2 f_equal.
  rewrite append_associative. reflexivity.
Qed.

(** ** verify-payment and its caller *)

Section InStep.
Variable R : Db -> Db -> Prop.

Lemma in_step_ret {A} (a : A) : in_step R (ret a) (ret a).
Proof. intros w w' H Hf. repeat split; assumption. Qed.

Lemma in_step_prisma {A} (f f' : Db -> Res A * Db) :
  (forall d d', R d d' -> fst (f' d') = fst (f d) /\ R (snd (f d)) (snd (f' d'))) ->
  in_step R (prisma f) (prisma f').
Proof.
  intros H [d fs] [d' fs'] Hr Hf. cbn [db faults] in *. subst fs'.
  rewrite !prisma_run. destruct (H d d' Hr) as [E1 E2].
  destruct fs as [|[|] fs]; cbn [fst snd db faults]; repeat split; assumption.
Qed.

Lemma in_step_bind {A B} (m m' : M A) (k k' : A -> M B) :
  in_step R m m' -> (forall a, in_step R (k a) (k' a)) -> in_step R (bind m k) (bind m' k').
Proof.
  intros Hm Hk w w' Hr Hf. unfold bind. destruct (Hm w w' Hr Hf) as (E & Hr1 & Hf1).
  destruct (m w) as [r w1], (m' w') as [r' w1']. cbn [fst snd] in *. subst r'.
  destruct r as [a|]; [now apply Hk | repeat split; assumption].
Qed.

Lemma in_step_try_catch {A} (m m' : M A) (h : A) w :
  R (db w) (db w) -> in_step R m m' ->
  fst (try_catch m' h w) = fst (try_catch m h w)
  /\ R (db (snd (try_catch m h w))) (db (snd (try_catch m' h w))).
Proof.
  intros Hr Hm. unfold try_catch. destruct (Hm w w Hr eq_refl) as (E & Hr1 & _).
  destruct (m w) as [r w1], (m' w) as [r' w1']. cbn [fst snd] in *. subst r'.
  destruct r; split; assumption || reflexivity.
Qed.
End InStep.

(** X29. verify-payment never checks who calls.  Under every fault
    schedule, the same request made by two different users is answered
    the same and leaves the same users, plans, subscriptions, payments and
    invoices; the caller's id only ends up in the audit entry. *)
Theorem verify_payment_ignores_the_caller (env : Env) (amb : Ambient) (uid uid' : string)
    (body : VerifyPaymentBody) (w : World) :
  fst (verify_payment env amb uid' body w) = fst (verify_payment env amb uid body w)
  /\ same_but_auditor (db (snd (verify_payment env amb uid body w)))
       (db (snd (verify_payment env amb uid' body w))).
Proof.
  unfold verify_payment. apply in_step_try_catch; [repeat split|]. cbv zeta.
  destruct (_ || _); [apply in_step_ret|].
  destruct (negb _); [apply in_step_ret|].
  repeat first
    [ apply in_step_ret
    | apply in_step_bind; [|intros]
    | match goal with
      | |- in_step _ (match ?x with _ => _ end) (match ?x with _ => _ end) => destruct x
      end ];
    apply in_step_prisma; intros [u p s pay inv aud] [u' p' s' pay' inv' aud'];
    unfold same_but_auditor; cbn [users plans subscriptions payments invoices auditLogs];
    intros (-> & -> & -> & -> & -> & Ha);
    unfold payment_with_subscription, payment_update, subscription_update, invoice_create,
      auditLog_create, subscription_info_id, payment_findUnique_order,
      subscription_findUnique_id, plan_findUnique;
    cbn [users plans subscriptions payments invoices auditLogs
         with_payments with_subscriptions with_invoices with_auditLogs];
    repeat match goal with
    | |- context [match find ?f ?l with _ => _ end] => destruct (find f l)
    end;
    cbn [fst snd users plans subscriptions payments invoices auditLogs];
    repeat split; try assumption.
  cbn [auditLogs with_auditLogs]. rewrite !map_app, Ha. reflexivity.
Qed.

